(** * humid-temp-monitor: a shallow embedding of the firmware's core

    The first part of the file embeds the code, one module per component:

    - [Common]      error codes and fixed-width integer helpers (app_common.h)
    - [RtosQueue]   the bounded FreeRTOS queue the components communicate over
    - [Dht]         the single-wire sensor driver (sensor_dht.c)
    - [Wifi]        the link manager's event handler (app_wifi.c)
    - [Mqtt]        the broker manager's event handler and parser (app_mqtt.c)
    - [Output]      relay and fan driver (app_output.c)
    - [SystemTask]  the workers of the orchestrator (system_task.c)

    Global C contexts ([g_dht_context], [g_wifi_ctx], ...) become explicit
    state records threaded through the functions; calls into the platform
    (timer, GPIO, WiFi driver, callbacks) become inputs and effect traces.
    Unsigned C integers are [Z] with the wrap-around written out ([u8],
    [u32], [u64]); [float] is IEEE binary32.

    The second part states and proves the properties: [MqttFacts] (C1),
    [WifiFacts] (C3, C4), [DhtFacts] (C2, C6, C8, C9, C10), [QueueFacts]
    and [TaskFacts] (C5, C7). *)

From Stdlib Require Import ZArith List Bool Lia String Ascii DecimalString.
From Stdlib Require Import Floats.SpecFloat.
Import ListNotations.

Local Open Scope Z_scope.

(* ====================================================================== *)
(** ** Common definitions (app_common.h)                                   *)
(* ====================================================================== *)

Module Common.

Inductive app_err_t : Type :=
| APP_OK
| APP_ERR_INVALID_PARAM
| APP_ERR_TIMEOUT
| APP_ERR_SENSOR_READ
| APP_ERR_MQTT_PUBLISH
| APP_ERR_WIFI_CONNECT
| APP_ERR_MQTT_CONNECT
| APP_ERR_NO_MEMORY
| APP_ERR_INVALID_VALUE
| APP_ERR_UNKNOWN.

(** The enumerators' integer values. *)
Definition app_err_code (e : app_err_t) : Z :=
  match e with
  | APP_OK => 0
  | APP_ERR_INVALID_PARAM => -1
  | APP_ERR_TIMEOUT => -2
  | APP_ERR_SENSOR_READ => -3
  | APP_ERR_MQTT_PUBLISH => -4
  | APP_ERR_WIFI_CONNECT => -5
  | APP_ERR_MQTT_CONNECT => -6
  | APP_ERR_NO_MEMORY => -7
  | APP_ERR_INVALID_VALUE => -8
  | APP_ERR_UNKNOWN => -99
  end.

Definition app_err_eqb (a b : app_err_t) : bool :=
  app_err_code a =? app_err_code b.

(** Conversions to the unsigned fixed-width types (wrap-around). *)
Definition u8 (x : Z) : Z := x mod 2 ^ 8.
Definition u32 (x : Z) : Z := x mod 2 ^ 32.
Definition u64 (x : Z) : Z := x mod 2 ^ 64.

(** [esp_timer_get_time() / 1000]: the timer is an [int64_t] count of
    microseconds since boot, the division is C's truncating one. *)
Definition us_to_ms (t_us : Z) : Z := Z.quot t_us 1000.

(** IEEE binary32, the C [float] of the target. *)
Definition float := spec_float.
Definition f32_prec : Z := 24.
Definition f32_emax : Z := 128.
Definition f32_add : float -> float -> float := SFadd f32_prec f32_emax.
Definition f32_mul : float -> float -> float := SFmul f32_prec f32_emax.
(** [(float)n] for an integer [n]. *)
Definition f32_of_Z (n : Z) : float := binary_normalize f32_prec f32_emax n 0 false.
(** The literal [0.0f]. *)
Definition f32_zero : float := S754_zero false.
(** The literal [0.1f]: the binary32 value nearest to one tenth,
    [13421773 * 2^-27]. *)
Definition f32_tenth : float := S754_finite false 13421773 (-27).

End Common.
Import Common.

(* ====================================================================== *)
(** ** The bounded queue of the RTOS (xQueueCreate / xQueueSend /
       xQueueReceive), a fixed-capacity FIFO                               *)
(* ====================================================================== *)

Module RtosQueue.

Record queue (A : Type) : Type := mkQueue {
  q_items : list A;        (* head of the list = oldest item *)
  q_capacity : nat
}.
Arguments mkQueue {A} _ _.
Arguments q_items {A} _.
Arguments q_capacity {A} _.

Definition xQueueCreate {A : Type} (len : nat) : queue A := mkQueue [] len.


Definition is_full {A : Type} (q : queue A) : bool :=
  Nat.leb (q_capacity q) (List.length (q_items q)).

(** Outcome of a send. A send onto a full queue with a zero tick budget
    returns at once with [errQUEUE_FULL]; with a positive budget the caller
    is suspended. *)
Inductive send_result : Type :=
| pdTRUE_sent            (* item copied to the back of the queue *)
| errQUEUE_FULL          (* returned immediately, nothing stored *)
| blocked (ticks : Z).   (* caller suspended for up to [ticks] *)

Definition xQueueSend {A : Type} (q : queue A) (item : A) (ticks_to_wait : Z)
  : send_result * queue A :=
  if is_full q then
    if ticks_to_wait =? 0 then (errQUEUE_FULL, q) else (blocked ticks_to_wait, q)
  else (pdTRUE_sent, mkQueue (q_items q ++ [item]) (q_capacity q)).

(** A receive that finds an item; [None] stands for the expired wait. *)
Definition xQueueReceive {A : Type} (q : queue A) : option A * queue A :=
  match q_items q with
  | [] => (None, q)
  | x :: rest => (Some x, mkQueue rest (q_capacity q))
  end.

End RtosQueue.
Import RtosQueue.

(* ====================================================================== *)
(** ** The single-wire sensor driver (sensor_dht.c)                        *)
(* ====================================================================== *)

Module Dht.

(** [sensor_data_t] (app_common.h). *)
Record sensor_data_t : Type := mkSensorData {
  temperature : float;
  humidity : float;
  timestamp_ms : Z;         (* uint64_t *)
  is_valid : bool;
  last_error : app_err_t
}.

(** [dht_context_t], the driver's private state [g_dht_context]. *)
Record dht_context_t : Type := mkDhtContext {
  pin : Z;                  (* uint8_t *)
  initialized : bool;
  last_read_ms : Z;         (* uint32_t *)
  last_reading : sensor_data_t
}.

(** A zero-filled [sensor_data_t] ([= {0}]). *)
Definition sensor_data_zero : sensor_data_t :=
  mkSensorData f32_zero f32_zero 0 false APP_OK.

(** [static dht_context_t g_dht_context = {0};] *)
Definition g_dht_context_zero : dht_context_t :=
  mkDhtContext 0 false 0 sensor_data_zero.

(** What the driver does to the pin, in program order. *)
Inductive gpio_op : Type :=
| gpio_config_od_pullup (p : Z)
| gpio_set_direction_output (p : Z)
| gpio_set_direction_input (p : Z)
| gpio_set_level (p : Z) (level : Z)
| ets_delay_us (us : Z).

(** The level of the data line while the host listens, as a function of
    the timer value in microseconds. *)
Definition line : Type := Z -> Z.

(** The polling loop of [dht_wait_for_level], entered at timer value [t]
    with the loop's [start_time]: a pass reads the pin, returns if the
    level matches, returns on timeout, and otherwise delays 1 us. The
    timer advances through the delays, the other calls taking no time
    (module [DhtClock] below leaves their cost open); [fuel] bounds the
    passes. *)
Fixpoint wait_loop (fuel : nat) (ln : line)
    (target_level timeout_us start_time t : Z) : app_err_t * Z :=
  match fuel with
  | O => (APP_ERR_TIMEOUT, t)
  | S fuel' =>
      let current_level := ln t in
      if current_level =? target_level then (APP_OK, t)
      else if (t - start_time) >? timeout_us then (APP_ERR_TIMEOUT, t)
      else wait_loop fuel' ln target_level timeout_us start_time (t + 1)
  end.

(** [dht_wait_for_level], entered at timer value [t]: the result and the
    timer value at return. The loop is left after [timeout_us + 2] passes
    at the latest, which is the fuel given. *)
Definition dht_wait_for_level (ln : line) (target_level timeout_us t : Z)
  : app_err_t * Z :=
  wait_loop (Z.to_nat timeout_us + 2) ln target_level timeout_us t t.

(** [dht_send_start_signal], entered at timer value [t]. *)
Definition dht_send_start_signal (p : Z) (t : Z) : app_err_t * list gpio_op * Z :=
  (APP_OK,
   [ gpio_set_direction_output p;
     gpio_set_level p 0; ets_delay_us 18000;
     gpio_set_level p 1; ets_delay_us 30;
     gpio_set_direction_input p ],
   t + 18000 + 30).

(** [data[i] = v] on the 5-byte buffer. *)
Fixpoint store_byte (data : list Z) (i : nat) (v : Z) : list Z :=
  match data, i with
  | [], _ => []
  | _ :: rest, O => v :: rest
  | x :: rest, S i' => x :: store_byte rest i' v
  end.

(** One iteration of the 40-bit loop of [dht_read_raw_data], entered at
    timer value [t]. *)
Definition read_one_bit (ln : line) (i : nat) (data : list Z) (t : Z)
  : app_err_t * list Z * Z :=
  let '(r1, t1) := dht_wait_for_level ln 1 1000 t in
  if negb (app_err_eqb r1 APP_OK) then (APP_ERR_SENSOR_READ, data, t1)
  else
    let pulse_start := t1 in
    let '(r2, t2) := dht_wait_for_level ln 0 1000 t1 in
    if negb (app_err_eqb r2 APP_OK) then (APP_ERR_SENSOR_READ, data, t2)
    else
      let pulse_duration_us := u32 (t2 - pulse_start) in
      let bit_value := if pulse_duration_us >? 50 then 1 else 0 in
      let byte_index := Nat.div i 8 in
      (APP_OK,
       store_byte data byte_index
         (u8 (Z.lor (Z.shiftl (nth byte_index data 0) 1) (Z.land bit_value 1))),
       t2).

(** [for (int i = 0; i < 40; i++)], with [n] iterations left from [i]. *)
Fixpoint read_bits (ln : line) (n : nat) (i : nat) (data : list Z) (t : Z)
  : app_err_t * list Z * Z :=
  match n with
  | O => (APP_OK, data, t)
  | S n' =>
      match read_one_bit ln i data t with
      | (APP_OK, data', t') => read_bits ln n' (S i) data' t'
      | (e, data', t') => (e, data', t')
      end
  end.

(** [dht_read_raw_data], entered at timer value [t]: result code, buffer
    contents at return, pin operations performed, timer value at return.
    [None] is the NULL buffer. *)
Definition dht_read_raw_data (p : Z) (ln : line) (data : option (list Z)) (t : Z)
  : app_err_t * option (list Z) * list gpio_op * Z :=
  match data with
  | None => (APP_ERR_INVALID_PARAM, None, [], t)
  | Some buf =>
      let '(r, ops, t0) := dht_send_start_signal p t in
      if negb (app_err_eqb r APP_OK) then (APP_ERR_SENSOR_READ, Some buf, ops, t0)
      else
        let '(r1, t1) := dht_wait_for_level ln 0 1000 t0 in
        if negb (app_err_eqb r1 APP_OK) then (APP_ERR_SENSOR_READ, Some buf, ops, t1)
        else
          let '(r2, t2) := dht_wait_for_level ln 1 1000 t1 in
          if negb (app_err_eqb r2 APP_OK) then (APP_ERR_SENSOR_READ, Some buf, ops, t2)
          else
            let '(r3, t3) := dht_wait_for_level ln 0 1000 t2 in
            if negb (app_err_eqb r3 APP_OK) then (APP_ERR_SENSOR_READ, Some buf, ops, t3)
            else
              let '(e, buf', t4) := read_bits ln 40 0 [0; 0; 0; 0; 0] t3 in
              (e, Some buf', ops, t4)
  end.

(** [dht_validate_data]. *)
Definition dht_validate_data (data : option (list Z)) : bool :=
  match data with
  | None => false
  | Some d =>
      let checksum := u8 (nth 0 d 0 + nth 1 d 0 + nth 2 d 0 + nth 3 d 0) in
      if negb (checksum =? nth 4 d 0) then false else true
  end.

(** [sensor_dht_init]; [gpio_config_ok] is whether [gpio_config] returned
    [ESP_OK]. *)
Definition sensor_dht_init (ctx : dht_context_t) (p : Z) (gpio_config_ok : bool)
  : app_err_t * dht_context_t * list gpio_op :=
  if p >? 39 then (APP_ERR_INVALID_PARAM, ctx, [])
  else if initialized ctx then (APP_OK, ctx, [])
  else
    let ctx1 := mkDhtContext p (initialized ctx) (last_read_ms ctx) (last_reading ctx) in
    if negb gpio_config_ok then (APP_ERR_UNKNOWN, ctx1, [gpio_config_od_pullup p])
    else
      let r := last_reading ctx1 in
      let r' := mkSensorData f32_zero f32_zero (timestamp_ms r) false APP_OK in
      (APP_OK, mkDhtContext p true 0 r',
       [gpio_config_od_pullup p; gpio_set_level p 1]).

(** [sensor_dht_read], called at timer value [now_us] with the line
    behaving as [ln]. [sensor_data] is the caller's buffer ([None] for a
    NULL pointer). Returns the result code, the caller's buffer, the new
    context and the pin operations performed. *)
Definition sensor_dht_read (ctx : dht_context_t) (sensor_data : option sensor_data_t)
    (now_us : Z) (ln : line)
  : app_err_t * option sensor_data_t * dht_context_t * list gpio_op :=
  match sensor_data with
  | None => (APP_ERR_INVALID_PARAM, None, ctx, [])
  | Some out =>
      if negb (initialized ctx) then (APP_ERR_UNKNOWN, Some out, ctx, [])
      else
        let current_ms := u32 (us_to_ms now_us) in
        if u32 (current_ms - last_read_ms ctx) <? 1000 then
          (APP_OK, Some (last_reading ctx), ctx, [])
        else
          let '(ret, raw_data, ops, t_end) :=
            dht_read_raw_data (pin ctx) ln (Some [0; 0; 0; 0; 0]) now_us in
          let cached := last_reading ctx in
          if negb (app_err_eqb ret APP_OK) then
            (ret,
             Some (mkSensorData (temperature out) (humidity out)
                     (timestamp_ms out) false ret),
             mkDhtContext (pin ctx) (initialized ctx) (last_read_ms ctx)
               (mkSensorData (temperature cached) (humidity cached)
                  (timestamp_ms cached) (is_valid cached) ret),
             ops)
          else if negb (dht_validate_data raw_data) then
            (APP_ERR_SENSOR_READ,
             Some (mkSensorData (temperature out) (humidity out)
                     (timestamp_ms out) false APP_ERR_SENSOR_READ),
             mkDhtContext (pin ctx) (initialized ctx) (last_read_ms ctx)
               (mkSensorData (temperature cached) (humidity cached)
                  (timestamp_ms cached) (is_valid cached) APP_ERR_SENSOR_READ),
             ops)
          else
            let d := match raw_data with Some d => d | None => [] end in
            let out' :=
              mkSensorData
                (f32_add (f32_of_Z (nth 2 d 0)) (f32_mul (f32_of_Z (nth 3 d 0)) f32_tenth))
                (f32_add (f32_of_Z (nth 0 d 0)) (f32_mul (f32_of_Z (nth 1 d 0)) f32_tenth))
                (u64 (us_to_ms t_end))
                true APP_OK in
            (APP_OK, Some out',
             mkDhtContext (pin ctx) (initialized ctx) current_ms out',
             ops)
  end.

(** [sensor_dht_get_last_reading]. *)
Definition sensor_dht_get_last_reading (ctx : dht_context_t)
    (sensor_data : option sensor_data_t) : app_err_t * option sensor_data_t :=
  match sensor_data with
  | None => (APP_ERR_INVALID_PARAM, None)
  | Some out =>
      if negb (initialized ctx) then (APP_ERR_UNKNOWN, Some out)
      else (APP_OK, Some (last_reading ctx))
  end.

(** [sensor_dht_is_healthy]. *)
Definition sensor_dht_is_healthy (ctx : dht_context_t) (now_us : Z) : bool :=
  if negb (initialized ctx) then false
  else
    let current_ms := u32 (us_to_ms now_us) in
    is_valid (last_reading ctx) && (u32 (current_ms - last_read_ms ctx) <? 30000).

(** Vocabulary for statements about the driver. *)

(** A reading with its error code replaced. *)
Definition with_error (r : sensor_data_t) (e : app_err_t) : sensor_data_t :=
  mkSensorData (temperature r) (humidity r) (timestamp_ms r) (is_valid r) e.

(** A reading marked invalid, carrying error [e]. *)
Definition invalidated (r : sensor_data_t) (e : app_err_t) : sensor_data_t :=
  mkSensorData (temperature r) (humidity r) (timestamp_ms r) false e.

(** The context with the cached reading's error code replaced. *)
Definition set_cache_error (ctx : dht_context_t) (e : app_err_t) : dht_context_t :=
  mkDhtContext (pin ctx) (initialized ctx) (last_read_ms ctx)
    (with_error (last_reading ctx) e).

(** The interval check of [sensor_dht_read] lets the call through to the
    wire. *)
Definition interval_elapsed (ctx : dht_context_t) (now_us : Z) : bool :=
  negb (u32 (u32 (us_to_ms now_us) - last_read_ms ctx) <? 1000).

(** The five bytes the protocol delivers when run at timer value [t], if
    it completes. *)
Definition frame_of_line (p : Z) (ln : line) (t : Z) : option (list Z) :=
  match dht_read_raw_data p ln (Some [0; 0; 0; 0; 0]) t with
  | (APP_OK, Some d, _, _) => Some d
  | _ => None
  end.

(** Timer value when the protocol run started at [t] returns. *)
Definition raw_end_time (p : Z) (ln : line) (t : Z) : Z :=
  snd (dht_read_raw_data p ln (Some [0; 0; 0; 0; 0]) t).

(** The reading a complete, checksum-correct frame [d] decodes to. *)
Definition decoded_reading (d : list Z) (stamp_us : Z) : sensor_data_t :=
  mkSensorData
    (f32_add (f32_of_Z (nth 2 d 0)) (f32_mul (f32_of_Z (nth 3 d 0)) f32_tenth))
    (f32_add (f32_of_Z (nth 0 d 0)) (f32_mul (f32_of_Z (nth 1 d 0)) f32_tenth))
    (u64 (us_to_ms stamp_us)) true APP_OK.

(** Lines for examples. A piecewise-constant line is given by (level,
    duration) segments from a base time on; it idles high before and
    after. *)
Fixpoint level_at (segs : list (Z * Z)) (dt : Z) : Z :=
  match segs with
  | [] => 1
  | (lv, dur) :: rest => if dt <? dur then lv else level_at rest (dt - dur)
  end.

Definition line_of_segments (base : Z) (segs : list (Z * Z)) : line :=
  fun t => if t <? base then 1 else level_at segs (t - base).

(** A data bit on the line: 50 us low, then high for 70 us (one) or 26 us
    (zero). *)
Definition bit_segments (b : bool) : list (Z * Z) :=
  [(0, 50); (1, if b then 70 else 26)].

Definition byte_bits (byte : Z) : list bool :=
  map (Z.testbit byte) [7; 6; 5; 4; 3; 2; 1; 0].

(** The sensor's answer: 80 us low, 80 us high, the bits of the frame most
    significant first, and a closing 50 us low. *)
Definition frame_segments (frame : list Z) : list (Z * Z) :=
  [(1, 10); (0, 80); (1, 80)]
    ++ flat_map bit_segments (flat_map byte_bits frame) ++ [(0, 50)].

(** The line seen by a read called at [t0] when the sensor answers the
    start signal with [frame]. *)
Definition line_of_frame (t0 : Z) (frame : list Z) : line :=
  line_of_segments (t0 + 18030) (frame_segments frame).

(** The same, with the transmission breaking off after [nbits] data bits. *)
Definition line_truncated (t0 : Z) (frame : list Z) (nbits : nat) : line :=
  line_of_segments (t0 + 18030) (firstn (3 + 2 * nbits) (frame_segments frame)).

(** A line on which the sensor never answers (it stays high). *)
Definition line_silent : line := fun _ => 1.

(** One call of [sensor_dht_read]. *)
Record read_call : Type := mkReadCall {
  rc_now_us : Z;
  rc_line : line;
  rc_out : sensor_data_t
}.

Definition read_step (ctx : dht_context_t) (call : read_call)
  : app_err_t * option sensor_data_t * dht_context_t * list gpio_op :=
  sensor_dht_read ctx (Some (rc_out call)) (rc_now_us call) (rc_line call).

(** A call decoded a fresh sample: it ran the protocol and returned
    [APP_OK]. *)
Definition fresh_decode
    (res : app_err_t * option sensor_data_t * dht_context_t * list gpio_op) : bool :=
  let '(ret, _, _, ops) := res in
  app_err_eqb ret APP_OK && negb (Nat.eqb (List.length ops) 0).

(** Replaying a sequence of calls: the final context and the times (timer
    values at the start of the call) of the fresh decodes, oldest first. *)
Fixpoint replay (ctx : dht_context_t) (calls : list read_call)
  : dht_context_t * list Z :=
  match calls with
  | [] => (ctx, [])
  | call :: rest =>
      let res := read_step ctx call in
      let '(_, _, ctx', _) := res in
      let '(ctx'', ds) := replay ctx' rest in
      (ctx'', if fresh_decode res then rc_now_us call :: ds else ds)
  end.

(** The calls happen in timer order, none before [t0]. *)
Fixpoint chronological (t0 : Z) (calls : list read_call) : bool :=
  match calls with
  | [] => true
  | call :: rest => (t0 <=? rc_now_us call) && chronological (rc_now_us call) rest
  end.

(** Timer value of the last call ([t0] if there is none). *)
Fixpoint last_time (t0 : Z) (calls : list read_call) : Z :=
  match calls with
  | [] => t0
  | call :: rest => last_time (rc_now_us call) rest
  end.

(** The driver right after a successful [sensor_dht_init] on pin [p]. *)
Definition ctx_after_init (p : Z) : dht_context_t :=
  snd (fst (sensor_dht_init g_dht_context_zero p true)).

(** Vocabulary for the bit-level decoding. *)

(** Appending one bit to a byte, as the loop does it. *)
Definition pack_bit (x : Z) (b : bool) : Z :=
  u8 (Z.lor (Z.shiftl x 1) (Z.land (if b then 1 else 0) 1)).

(** The buffer after the loop has consumed [bits], starting at bit [i]. *)
Fixpoint pack_bits (bits : list bool) (i : nat) (data : list Z) : list Z :=
  match bits with
  | [] => data
  | b :: rest =>
      pack_bits rest (S i)
        (store_byte data (Nat.div i 8) (pack_bit (nth (Nat.div i 8) data 0) b))
  end.

(** Total duration of a list of segments. *)
Fixpoint total_duration (segs : list (Z * Z)) : Z :=
  match segs with
  | [] => 0
  | (_, dur) :: rest => dur + total_duration rest
  end.

(** The byte spelled by eight bits, most significant first. *)
Definition byte_of_bits (bits : list bool) : Z :=
  fold_left (fun x b => pack_bit x b) bits 0.

End Dht.

(* ====================================================================== *)
(** ** The link manager (app_wifi.c)                                       *)
(* ====================================================================== *)

Module Wifi.

Inductive wifi_state_t : Type :=
| WIFI_STATE_INIT
| WIFI_STATE_STARTING
| WIFI_STATE_CONNECTING
| WIFI_STATE_CONNECTED
| WIFI_STATE_DISCONNECTED
| WIFI_STATE_FAILED
| WIFI_STATE_ERROR.

Definition WIFI_CONNECTED_BIT : Z := Z.shiftl 1 0.
Definition WIFI_FAIL_BIT : Z := Z.shiftl 1 1.
Definition WIFI_DISCONNECTED_BIT : Z := Z.shiftl 1 2.

Definition WIFI_MAX_RETRIES : Z := 15.
Definition WIFI_RETRY_MIN_MS : Z := 1000.
Definition WIFI_RETRY_MAX_MS : Z := 60000.
Definition WIFI_CONNECT_TIMEOUT_MS : Z := 30000.

(** [app_wifi_config_t]; a callback pointer is modelled by whether it is
    set (non-NULL). *)
Record app_wifi_config_t : Type := mkWifiConfig {
  max_retries : Z;          (* uint32_t *)
  timeout_ms : Z;           (* uint32_t *)
  on_connected : bool;
  on_disconnected : bool;
  on_connect_failed : bool
}.

(** [wifi_context_t], the manager's private state [g_wifi_ctx]. The event
    group is represented by its bit mask; [ip_str] is the dotted rendering
    of [ip_address] and is not kept separately; [last_connect_attempt_ms]
    and [rssi], which the event handler neither reads nor writes, are left
    out, as are the SSID and password of the configuration. *)
Record wifi_context_t : Type := mkWifiCtx {
  config : app_wifi_config_t;
  state : wifi_state_t;
  initialized : bool;
  connected : bool;
  event_group : Z;
  retry_count : Z;          (* uint32_t *)
  retry_delay_ms : Z;       (* uint32_t *)
  last_connected_time_ms : Z;   (* uint64_t *)
  ip_address : Z;           (* uint32_t *)
  total_connections : Z;    (* uint32_t *)
  total_disconnections : Z; (* uint32_t *)
  total_failed_attempts : Z (* uint32_t *)
}.

(** [static wifi_context_t g_wifi_ctx = {0};] *)
Definition g_wifi_ctx_zero : wifi_context_t :=
  mkWifiCtx (mkWifiConfig 0 0 false false false)
    WIFI_STATE_INIT false false 0 0 0 0 0 0 0 0.

(** Events delivered to [wifi_event_handler]: (event base, event id), with
    the address carried by the got-IP event. *)
Inductive wifi_event : Type :=
| WIFI_EVENT_STA_START
| WIFI_EVENT_STA_CONNECTED
| WIFI_EVENT_STA_DISCONNECTED
| WIFI_EVENT_other (event_id : Z)
| IP_EVENT_STA_GOT_IP (addr : Z)
| IP_EVENT_STA_LOST_IP
| IP_EVENT_other (event_id : Z)
| OTHER_BASE_event.

(** Calls the handler makes out of the module. *)
Inductive wifi_effect : Type :=
| esp_wifi_connect
| call_on_connected
| call_on_disconnected
| call_on_connect_failed.

Definition wifi_effect_eqb (a b : wifi_effect) : bool :=
  match a, b with
  | esp_wifi_connect, esp_wifi_connect => true
  | call_on_connected, call_on_connected => true
  | call_on_disconnected, call_on_disconnected => true
  | call_on_connect_failed, call_on_connect_failed => true
  | _, _ => false
  end.

(** How often an effect occurs in a trace. *)
Definition count_effect (e : wifi_effect) (tr : list wifi_effect) : nat :=
  List.length (filter (wifi_effect_eqb e) tr).

(** Field updates. *)
Definition set_state (c : wifi_context_t) (s : wifi_state_t) : wifi_context_t :=
  mkWifiCtx (config c) s (initialized c) (connected c) (event_group c)
    (retry_count c) (retry_delay_ms c) (last_connected_time_ms c) (ip_address c)
    (total_connections c) (total_disconnections c) (total_failed_attempts c).

Definition set_connected (c : wifi_context_t) (b : bool) : wifi_context_t :=
  mkWifiCtx (config c) (state c) (initialized c) b (event_group c)
    (retry_count c) (retry_delay_ms c) (last_connected_time_ms c) (ip_address c)
    (total_connections c) (total_disconnections c) (total_failed_attempts c).

(** [xEventGroupSetBits(g_wifi_ctx.event_group, bits)]. *)
Definition xEventGroupSetBits (c : wifi_context_t) (bits : Z) : wifi_context_t :=
  mkWifiCtx (config c) (state c) (initialized c) (connected c)
    (Z.lor (event_group c) bits)
    (retry_count c) (retry_delay_ms c) (last_connected_time_ms c) (ip_address c)
    (total_connections c) (total_disconnections c) (total_failed_attempts c).

Definition set_retry (c : wifi_context_t) (count delay : Z) : wifi_context_t :=
  mkWifiCtx (config c) (state c) (initialized c) (connected c) (event_group c)
    count delay (last_connected_time_ms c) (ip_address c)
    (total_connections c) (total_disconnections c) (total_failed_attempts c).

Definition set_last_connected_time_ms (c : wifi_context_t) (t : Z) : wifi_context_t :=
  mkWifiCtx (config c) (state c) (initialized c) (connected c) (event_group c)
    (retry_count c) (retry_delay_ms c) t (ip_address c)
    (total_connections c) (total_disconnections c) (total_failed_attempts c).

Definition set_ip_address (c : wifi_context_t) (a : Z) : wifi_context_t :=
  mkWifiCtx (config c) (state c) (initialized c) (connected c) (event_group c)
    (retry_count c) (retry_delay_ms c) (last_connected_time_ms c) a
    (total_connections c) (total_disconnections c) (total_failed_attempts c).

Definition set_totals (c : wifi_context_t) (conn disc failed : Z) : wifi_context_t :=
  mkWifiCtx (config c) (state c) (initialized c) (connected c) (event_group c)
    (retry_count c) (retry_delay_ms c) (last_connected_time_ms c) (ip_address c)
    conn disc failed.

(** [wifi_update_state]. *)
Definition wifi_update_state (c : wifi_context_t) (new_state : wifi_state_t)
  : wifi_context_t := set_state c new_state.

(** [wifi_calculate_backoff]. The C expression is [1000 << retry_count]
    stored into a [uint32_t]; the model keeps the low 32 bits of the
    shifted value. (C itself defines the shift only while the result fits
    in [int], that is for [retry_count <= 21]; for counts of 32 and more,
    where the model gives 0, a processor that takes the shift count
    modulo 32 gives [1000 << (retry_count mod 32)] instead.) *)
Definition wifi_calculate_backoff (retry_count : Z) : Z :=
  let delay := u32 (Z.shiftl WIFI_RETRY_MIN_MS retry_count) in
  if delay >? WIFI_RETRY_MAX_MS then WIFI_RETRY_MAX_MS else delay.

(** An optional callback: called only when set. *)
Definition invoke (present : bool) (e : wifi_effect) : list wifi_effect :=
  if present then [e] else [].

(** [wifi_event_handler]; [now_us] is the timer value when the event is
    handled. *)
Definition wifi_event_handler (c : wifi_context_t) (now_us : Z) (ev : wifi_event)
  : wifi_context_t * list wifi_effect :=
  match ev with
  | WIFI_EVENT_STA_START =>
      (wifi_update_state c WIFI_STATE_CONNECTING, [esp_wifi_connect])
  | WIFI_EVENT_STA_CONNECTED =>
      let c1 := wifi_update_state c WIFI_STATE_CONNECTED in
      (set_last_connected_time_ms c1 (u64 (us_to_ms now_us)), [])
  | WIFI_EVENT_STA_DISCONNECTED =>
      let c1 := set_totals c (total_connections c)
                  (u32 (total_disconnections c + 1)) (total_failed_attempts c) in
      let c2 := wifi_update_state c1 WIFI_STATE_DISCONNECTED in
      let c3 := set_connected c2 false in
      let c4 := xEventGroupSetBits c3 WIFI_DISCONNECTED_BIT in
      let tr := invoke (on_disconnected (config c4)) call_on_disconnected in
      if retry_count c4 <? max_retries (config c4) then
        let delay := wifi_calculate_backoff (retry_count c4) in
        let c5 := set_retry c4 (u32 (retry_count c4 + 1)) delay in
        (c5, tr ++ [esp_wifi_connect])
      else
        let c5 := set_totals c4 (total_connections c4) (total_disconnections c4)
                    (u32 (total_failed_attempts c4 + 1)) in
        let c6 := wifi_update_state c5 WIFI_STATE_FAILED in
        let c7 := xEventGroupSetBits c6 WIFI_FAIL_BIT in
        (c7, tr ++ invoke (on_connect_failed (config c7)) call_on_connect_failed)
  | WIFI_EVENT_other _ => (c, [])
  | IP_EVENT_STA_GOT_IP addr =>
      let c1 := set_ip_address c addr in
      let c2 := set_retry c1 0 WIFI_RETRY_MIN_MS in
      let c3 := set_totals c2 (u32 (total_connections c2 + 1))
                  (total_disconnections c2) (total_failed_attempts c2) in
      let c4 := set_connected c3 true in
      let c5 := xEventGroupSetBits c4 WIFI_CONNECTED_BIT in
      (c5, invoke (on_connected (config c5)) call_on_connected)
  | IP_EVENT_STA_LOST_IP => (set_connected c false, [])
  | IP_EVENT_other _ => (c, [])
  | OTHER_BASE_event => (c, [])
  end.

(** Where [app_wifi_init] can fail in the platform, in call order. *)
Inductive wifi_init_fault : Type :=
| init_no_fault
| init_event_group_fail
| init_nvs_fail
| init_event_handlers_fail
| init_interface_fail.

(** [app_wifi_init]; [cfg = None] stands for a NULL config or a NULL
    SSID/password. *)
Definition app_wifi_init (c : wifi_context_t) (cfg : option app_wifi_config_t)
    (fault : wifi_init_fault) : app_err_t * wifi_context_t :=
  match cfg with
  | None => (APP_ERR_INVALID_PARAM, c)
  | Some cf =>
      if initialized c then (APP_OK, c)
      else
        let cf1 := if max_retries cf =? 0
                   then mkWifiConfig WIFI_MAX_RETRIES (timeout_ms cf)
                          (on_connected cf) (on_disconnected cf) (on_connect_failed cf)
                   else cf in
        let cf2 := if timeout_ms cf1 =? 0
                   then mkWifiConfig (max_retries cf1) WIFI_CONNECT_TIMEOUT_MS
                          (on_connected cf1) (on_disconnected cf1) (on_connect_failed cf1)
                   else cf1 in
        let c1 := mkWifiCtx cf2 (state c) (initialized c) (connected c) 0
                    (retry_count c) (retry_delay_ms c) (last_connected_time_ms c)
                    (ip_address c) (total_connections c) (total_disconnections c)
                    (total_failed_attempts c) in
        match fault with
        | init_event_group_fail => (APP_ERR_NO_MEMORY, c1)
        | init_nvs_fail => (APP_ERR_UNKNOWN, c1)
        | init_event_handlers_fail => (APP_ERR_UNKNOWN, c1)
        | init_interface_fail => (APP_ERR_UNKNOWN, c1)
        | init_no_fault =>
            (APP_OK,
             mkWifiCtx cf2 WIFI_STATE_STARTING true false 0
               0 WIFI_RETRY_MIN_MS (last_connected_time_ms c1) (ip_address c1)
               0 0 0)
        end
  end.

(** Feeding a sequence of (time, event) pairs to the handler; the effect
    traces are concatenated in order. *)
Fixpoint run (c : wifi_context_t) (evs : list (Z * wifi_event))
  : wifi_context_t * list wifi_effect :=
  match evs with
  | [] => (c, [])
  | (t, ev) :: rest =>
      let '(c1, tr1) := wifi_event_handler c t ev in
      let '(c2, tr2) := run c1 rest in
      (c2, tr1 ++ tr2)
  end.

(** Vocabulary for statements about event sequences. *)
Definition is_got_ip (ev : wifi_event) : bool :=
  match ev with IP_EVENT_STA_GOT_IP _ => true | _ => false end.

Definition is_disconnect (ev : wifi_event) : bool :=
  match ev with WIFI_EVENT_STA_DISCONNECTED => true | _ => false end.

(** No address assignment occurs in the sequence. *)
Definition no_got_ip (evs : list (Z * wifi_event)) : bool :=
  forallb (fun p => negb (is_got_ip (snd p))) evs.

(** Number of link-lost events in the sequence. *)
Definition count_disconnects (evs : list (Z * wifi_event)) : nat :=
  List.length (filter (fun p => is_disconnect (snd p)) evs).

(** Link-lost events arriving back to back at the given times. *)
Definition disconnects_at (ts : list Z) : list (Z * wifi_event) :=
  map (fun t => (t, WIFI_EVENT_STA_DISCONNECTED)) ts.

(** The context after a fault-free [app_wifi_init] asking for [m] retries
    (0 selects the default), with every callback set. *)
Definition ctx_after_init (m : Z) : wifi_context_t :=
  snd (app_wifi_init g_wifi_ctx_zero (Some (mkWifiConfig m 0 true true true))
         init_no_fault).

End Wifi.

(* ====================================================================== *)
(** ** The broker manager (app_mqtt.c)                                     *)
(* ====================================================================== *)

Module Mqtt.

(** [mqtt_command_t]: [char type[32]; int value]. *)
Record mqtt_command_t : Type := mkMqttCommand {
  cmd_type : string;
  cmd_value : Z
}.

(** The callbacks of [mqtt_config_t], each modelled by whether it is set. *)
Record mqtt_config_t : Type := mkMqttConfig {
  on_message : bool;
  on_connected : bool;
  on_disconnected : bool;
  on_publish_failed : bool
}.

(** [mqtt_context_t], the manager's private state [g_mqtt_ctx];
    [command_queue = None] is the NULL handle. The client handle and the
    broker address and credentials of the configuration are left out. *)
Record mqtt_context_t : Type := mkMqttCtx {
  config : mqtt_config_t;
  connected : bool;
  initialized : bool;
  messages_published : Z;   (* uint32_t *)
  messages_received : Z;    (* uint32_t *)
  publish_failures : Z;     (* uint32_t *)
  reconnect_count : Z;      (* uint32_t *)
  command_queue : option (queue mqtt_command_t);
  last_connect_time : Z;    (* uint64_t *)
  reconnect_delay_ms : Z    (* uint32_t *)
}.

(** [static mqtt_context_t g_mqtt_ctx = {0};] *)
Definition g_mqtt_ctx_zero : mqtt_context_t :=
  mkMqttCtx (mkMqttConfig false false false false)
    false false 0 0 0 0 None 0 0.

(** What the JSON library reports about a payload: an item of the parsed
    object is a string, a number (with its [valueint]) or something else. *)
Inductive cjson_item : Type :=
| cj_string (valuestring : string)
| cj_number (valueint : Z)
| cj_other.

(** [parsed = None]: [cJSON_ParseWithLength] returned NULL; otherwise the
    results of [cJSON_GetObjectItem] for "type" and "value" ([None] when
    the member is absent). *)
Record payload : Type := mkPayload {
  data_len : Z;
  malloc_ok : bool;
  parsed : option (option cjson_item * option cjson_item)
}.

Inductive mqtt_event : Type :=
| MQTT_EVENT_CONNECTED
| MQTT_EVENT_DISCONNECTED
| MQTT_EVENT_SUBSCRIBED
| MQTT_EVENT_UNSUBSCRIBED
| MQTT_EVENT_PUBLISHED
| MQTT_EVENT_DATA (p : payload)
| MQTT_EVENT_ERROR
| MQTT_EVENT_other.

(** Calls out of the module and log lines that matter to the claims, and
    the suspension of the calling task in a queue send that has to wait. *)
Inductive mqtt_effect : Type :=
| call_on_connected
| call_on_disconnected
| call_on_message
| warn_parse_failed
| warn_invalid_structure
| warn_queue_full_dropping_command
| debug_command_queued
| blocked_on_command_queue (ticks : Z).

Definition cJSON_IsString (i : option cjson_item) : bool :=
  match i with Some (cj_string _) => true | _ => false end.

Definition cJSON_IsNumber (i : option cjson_item) : bool :=
  match i with Some (cj_number _) => true | _ => false end.

(** [strncpy(cmd.type, s, sizeof(cmd.type) - 1)] into a zeroed buffer. *)
Definition strncpy31 (s : string) : string := String.substring 0 31 s.

Definition set_command_queue (c : mqtt_context_t)
    (q : option (queue mqtt_command_t)) : mqtt_context_t :=
  mkMqttCtx (config c) (connected c) (initialized c) (messages_published c)
    (messages_received c) (publish_failures c) (reconnect_count c) q
    (last_connect_time c) (reconnect_delay_ms c).

(** [mqtt_parse_and_queue_command]. *)
Definition mqtt_parse_and_queue_command (c : mqtt_context_t) (p : payload)
  : mqtt_context_t * list mqtt_effect :=
  match command_queue c with
  | None => (c, [])
  | Some q =>
      match parsed p with
      | None => (c, [warn_parse_failed])
      | Some (type_item, value_item) =>
          if cJSON_IsString type_item && cJSON_IsNumber value_item then
            let ty := match type_item with
                      | Some (cj_string s) => strncpy31 s | _ => EmptyString end in
            let v := match value_item with
                     | Some (cj_number n) => n | _ => 0 end in
            let cmd := mkMqttCommand ty v in
            match xQueueSend q cmd 0 with
            | (pdTRUE_sent, q') => (set_command_queue c (Some q'), [debug_command_queued])
            | (errQUEUE_FULL, q') =>
                (set_command_queue c (Some q'), [warn_queue_full_dropping_command])
            | (blocked ticks, q') =>
                (* the wait expired with the queue still full *)
                (set_command_queue c (Some q'),
                 [blocked_on_command_queue ticks; warn_queue_full_dropping_command])
            end
          else (c, [warn_invalid_structure])
      end
  end.

Definition invoke (present : bool) (e : mqtt_effect) : list mqtt_effect :=
  if present then [e] else [].

(** [mqtt_event_handler]; [now_us] is the timer value when the event is
    handled. *)
Definition mqtt_event_handler (c : mqtt_context_t) (now_us : Z) (ev : mqtt_event)
  : mqtt_context_t * list mqtt_effect :=
  match ev with
  | MQTT_EVENT_CONNECTED =>
      (mkMqttCtx (config c) true (initialized c) (messages_published c)
         (messages_received c) (publish_failures c) (reconnect_count c)
         (command_queue c) (u64 (us_to_ms now_us)) 1000,
       invoke (on_connected (config c)) call_on_connected)
  | MQTT_EVENT_DISCONNECTED =>
      let delay := if reconnect_delay_ms c <? 60000
                   then u32 (reconnect_delay_ms c * 2)
                   else reconnect_delay_ms c in
      (mkMqttCtx (config c) false (initialized c) (messages_published c)
         (messages_received c) (publish_failures c) (u32 (reconnect_count c + 1))
         (command_queue c) (last_connect_time c) delay,
       invoke (on_disconnected (config c)) call_on_disconnected)
  | MQTT_EVENT_SUBSCRIBED => (c, [])
  | MQTT_EVENT_UNSUBSCRIBED => (c, [])
  | MQTT_EVENT_PUBLISHED => (c, [])
  | MQTT_EVENT_DATA p =>
      if data_len p >? 0 then
        if malloc_ok p then
          let tr1 := invoke (on_message (config c)) call_on_message in
          let '(c1, tr2) := mqtt_parse_and_queue_command c p in
          (mkMqttCtx (config c1) (connected c1) (initialized c1) (messages_published c1)
             (u32 (messages_received c1 + 1)) (publish_failures c1) (reconnect_count c1)
             (command_queue c1) (last_connect_time c1) (reconnect_delay_ms c1),
           tr1 ++ tr2)
        else (c, [])
      else (c, [])
  | MQTT_EVENT_ERROR => (c, [])
  | MQTT_EVENT_other => (c, [])
  end.

(** Where [app_mqtt_init] can fail in the platform, in call order. *)
Inductive mqtt_init_fault : Type :=
| init_no_fault
| init_queue_create_fail
| init_client_init_fail
| init_client_start_fail.

(** [app_mqtt_init]; [cfg = None] is the NULL config. *)
Definition app_mqtt_init (c : mqtt_context_t) (cfg : option mqtt_config_t)
    (fault : mqtt_init_fault) : app_err_t * mqtt_context_t :=
  match cfg with
  | None => (APP_ERR_INVALID_PARAM, c)
  | Some cf =>
      if initialized c then (APP_OK, c)
      else
        match fault with
        | init_queue_create_fail => (APP_ERR_NO_MEMORY, set_command_queue c None)
        | _ =>
            let c1 := mkMqttCtx cf (connected c) (initialized c) (messages_published c)
                        (messages_received c) (publish_failures c) (reconnect_count c)
                        (Some (xQueueCreate 10)) (last_connect_time c)
                        (reconnect_delay_ms c) in
            match fault with
            | init_client_init_fail => (APP_ERR_UNKNOWN, c1)
            | init_client_start_fail => (APP_ERR_UNKNOWN, c1)
            | _ =>
                (APP_OK,
                 mkMqttCtx cf (connected c1) true (messages_published c1)
                   (messages_received c1) (publish_failures c1) 0
                   (command_queue c1) (last_connect_time c1) 1000)
            end
        end
  end.

(** [app_mqtt_receive_command] with non-NULL out-parameters: the received
    type (copied with [strncpy(type, cmd.type, 31)]) and value, or
    [APP_ERR_TIMEOUT] when the wait expires on an empty queue. *)
Definition app_mqtt_receive_command (c : mqtt_context_t)
  : app_err_t * option (string * Z) * mqtt_context_t :=
  match command_queue c with
  | None => (APP_ERR_UNKNOWN, None, c)
  | Some q =>
      match xQueueReceive q with
      | (Some cmd, q') =>
          (APP_OK, Some (String.substring 0 31 (cmd_type cmd), cmd_value cmd),
           set_command_queue c (Some q'))
      | (None, q') => (APP_ERR_TIMEOUT, None, set_command_queue c (Some q'))
      end
  end.

(** Feeding a sequence of (time, event) pairs to the handler. *)
Fixpoint run (c : mqtt_context_t) (evs : list (Z * mqtt_event))
  : mqtt_context_t * list mqtt_effect :=
  match evs with
  | [] => (c, [])
  | (t, ev) :: rest =>
      let '(c1, tr1) := mqtt_event_handler c t ev in
      let '(c2, tr2) := run c1 rest in
      (c2, tr1 ++ tr2)
  end.

(** Broker-lost events arriving back to back at the given times. *)
Definition disconnects_at (ts : list Z) : list (Z * mqtt_event) :=
  map (fun t => (t, MQTT_EVENT_DISCONNECTED)) ts.

(** The connect/disconnect events; every other event leaves the delay
    untouched. *)
Definition is_connect_or_disconnect (ev : mqtt_event) : bool :=
  match ev with
  | MQTT_EVENT_CONNECTED | MQTT_EVENT_DISCONNECTED => true
  | _ => false
  end.

(** The context after initialisation with every callback set. *)
Definition ctx_after_init : mqtt_context_t :=
  snd (app_mqtt_init g_mqtt_ctx_zero (Some (mkMqttConfig true true true true))
         init_no_fault).



(** The payload parses to an object with a string "type" and a numeric
    "value", so that the parser has a command to queue. *)
Definition is_command (p : payload) : bool :=
  match parsed p with
  | Some (type_item, value_item) =>
      cJSON_IsString type_item && cJSON_IsNumber value_item
  | None => false
  end.


(** A payload that parses to an object with a string "type" and a numeric
    "value". *)
Definition command_payload (ty : string) (v : Z) : payload :=
  mkPayload 1 true (Some (Some (cj_string ty), Some (cj_number v))).



(** The values the reconnect delay can take. *)
Definition delay_ladder : list Z := [1000; 2000; 4000; 8000; 16000; 32000; 64000].

End Mqtt.

(* ====================================================================== *)
(** ** The output driver (app_output.c)                                    *)
(* ====================================================================== *)

Module Output.

Definition RELAY_OFF : Z := 0.
Definition RELAY_ON : Z := 1.
Definition FAN_SPEED_MIN : Z := 0.
Definition FAN_SPEED_MAX : Z := 255.

(** [output_context_t], the driver's private state [g_output_ctx] (the
    ramp task handle and ramp parameters other than [ramp_active] play no
    part in the two setters and are left out). *)
Record output_context_t : Type := mkOutputCtx {
  relay_pin : Z;
  fan_pin : Z;
  relay_state : Z;          (* relay_state_t *)
  fan_speed : Z;            (* uint8_t *)
  is_enabled : bool;
  initialized : bool;
  error_count : Z;          (* uint32_t *)
  total_operations : Z;     (* uint64_t *)
  relay_toggle_count : Z;   (* uint32_t *)
  fan_changes : Z;          (* uint32_t *)
  ramp_active : bool
}.

(** Calls into the peripheral drivers. *)
Inductive hw_op : Type :=
| hw_gpio_set_level (p : Z) (level : Z)
| hw_ledc_set_duty (duty : Z)
| hw_ledc_update_duty.

(** Whether the peripheral calls of one setter return [ESP_OK]. *)
Record hw_result : Type := mkHwResult {
  gpio_set_level_ok : bool;
  ledc_set_duty_ok : bool;
  ledc_update_duty_ok : bool
}.

Definition bump_error_count (c : output_context_t) : output_context_t :=
  mkOutputCtx (relay_pin c) (fan_pin c) (relay_state c) (fan_speed c)
    (is_enabled c) (initialized c) (u32 (error_count c + 1)) (total_operations c)
    (relay_toggle_count c) (fan_changes c) (ramp_active c).

Definition set_ramp_active (c : output_context_t) (b : bool) : output_context_t :=
  mkOutputCtx (relay_pin c) (fan_pin c) (relay_state c) (fan_speed c)
    (is_enabled c) (initialized c) (error_count c) (total_operations c)
    (relay_toggle_count c) (fan_changes c) b.

(** [app_output_set_relay]. *)
Definition app_output_set_relay (c : output_context_t) (st : Z) (hw : hw_result)
  : app_err_t * output_context_t * list hw_op :=
  if negb (initialized c) then (APP_ERR_UNKNOWN, c, [])
  else if negb (is_enabled c) then (APP_ERR_UNKNOWN, c, [])
  else if negb (st =? RELAY_OFF) && negb (st =? RELAY_ON) then
    (APP_ERR_INVALID_VALUE, bump_error_count c, [])
  else if negb (gpio_set_level_ok hw) then
    (APP_ERR_UNKNOWN, bump_error_count c, [hw_gpio_set_level (relay_pin c) st])
  else
    (APP_OK,
     mkOutputCtx (relay_pin c) (fan_pin c) st (fan_speed c)
       (is_enabled c) (initialized c) (error_count c) (u64 (total_operations c + 1))
       (u32 (relay_toggle_count c + 1)) (fan_changes c) (ramp_active c),
     [hw_gpio_set_level (relay_pin c) st]).

(** [app_output_set_fan_speed]. *)
Definition app_output_set_fan_speed (c : output_context_t) (speed : Z) (hw : hw_result)
  : app_err_t * output_context_t * list hw_op :=
  if negb (initialized c) then (APP_ERR_UNKNOWN, c, [])
  else if negb (is_enabled c) then (APP_ERR_UNKNOWN, c, [])
  else
    let speed1 := if speed <? FAN_SPEED_MIN then FAN_SPEED_MIN
                  else if speed >? FAN_SPEED_MAX then FAN_SPEED_MAX
                  else speed in
    let c1 := if ramp_active c then set_ramp_active c false else c in
    if negb (ledc_set_duty_ok hw) then
      (APP_ERR_UNKNOWN, bump_error_count c1, [hw_ledc_set_duty speed1])
    else if negb (ledc_update_duty_ok hw) then
      (APP_ERR_UNKNOWN, bump_error_count c1,
       [hw_ledc_set_duty speed1; hw_ledc_update_duty])
    else
      (APP_OK,
       mkOutputCtx (relay_pin c1) (fan_pin c1) (relay_state c1) (u8 speed1)
         (is_enabled c1) (initialized c1) (error_count c1)
         (u64 (total_operations c1 + 1))
         (relay_toggle_count c1) (u32 (fan_changes c1 + 1)) (ramp_active c1),
       [hw_ledc_set_duty speed1; hw_ledc_update_duty]).

(** The context as [app_output_init(5, 18)] leaves it. *)
Definition ctx_ready : output_context_t :=
  mkOutputCtx 5 18 RELAY_OFF 0 true true 0 0 0 0 false.

(** Peripheral calls that all succeed. *)
Definition hw_all_ok : hw_result := mkHwResult true true true.

End Output.

(* ====================================================================== *)
(** ** The orchestrator's workers (system_task.c)                          *)
(* ====================================================================== *)

Module SystemTask.

Inductive system_state_t : Type :=
| SYSTEM_STATE_INIT
| SYSTEM_STATE_HARDWARE_READY
| SYSTEM_STATE_WIFI_CONNECTING
| SYSTEM_STATE_WIFI_CONNECTED
| SYSTEM_STATE_MQTT_CONNECTING
| SYSTEM_STATE_MQTT_CONNECTED
| SYSTEM_STATE_OPERATIONAL
| SYSTEM_STATE_ERROR.

(** [system_status_t] (app_common.h). *)
Record system_status_t : Type := mkStatus {
  state : system_state_t;
  last_error : Z;            (* uint32_t *)
  error_count : Z;           (* uint32_t *)
  wifi_reconnect_count : Z;  (* uint32_t *)
  mqtt_reconnect_count : Z;  (* uint32_t *)
  sensor_read_count : Z;     (* uint32_t *)
  sensor_error_count : Z;    (* uint32_t *)
  uptime_ms : Z              (* uint64_t *)
}.

(** [sensor_message_t]. *)
Record sensor_message_t : Type := mkSensorMessage {
  data : Dht.sensor_data_t;
  sequence : Z               (* uint32_t *)
}.

(** What [system_task_init] leaves behind: the status record zeroed and
    the sensor queue created with room for five messages. *)
Definition g_system_status_init : system_status_t :=
  mkStatus SYSTEM_STATE_INIT 0 0 0 0 0 0 0.

Definition g_sensor_queue_init : queue sensor_message_t := xQueueCreate 5.

(** [system_status_record_error]; the [app_err_t] argument is converted to
    the [uint32_t] parameter. *)
Definition system_status_record_error (s : system_status_t) (error_code : app_err_t)
  : system_status_t :=
  mkStatus (state s) (u32 (app_err_code error_code)) (u32 (error_count s + 1))
    (wifi_reconnect_count s) (mqtt_reconnect_count s)
    (sensor_read_count s) (sensor_error_count s) (uptime_ms s).

(** [system_status_increment_sensor_reads]. *)
Definition system_status_increment_sensor_reads (s : system_status_t) : system_status_t :=
  mkStatus (state s) (last_error s) (error_count s)
    (wifi_reconnect_count s) (mqtt_reconnect_count s)
    (u32 (sensor_read_count s + 1)) (sensor_error_count s) (uptime_ms s).

(** [system_status_increment_sensor_errors]. *)
Definition system_status_increment_sensor_errors (s : system_status_t) : system_status_t :=
  mkStatus (state s) (last_error s) (error_count s)
    (wifi_reconnect_count s) (mqtt_reconnect_count s)
    (sensor_read_count s) (u32 (sensor_error_count s + 1)) (uptime_ms s).

(** Log lines of the workers that matter to the claims, and the
    suspension of a worker in a queue send that has to wait. *)
Inductive task_log : Type :=
| warn_sensor_queue_full_dropping_reading
| error_sensor_read_failed
| warn_invalid_relay_value
| warn_invalid_fan_value
| warn_unknown_command_type
| blocked_on_sensor_queue (ticks : Z).

(** State the sampler works on. *)
Record sampler_state : Type := mkSampler {
  sm_status : system_status_t;
  sm_sensor_queue : queue sensor_message_t;
  sm_read_sequence : Z;      (* uint32_t *)
  sm_dht : Dht.dht_context_t
}.

(** One pass through the loop body of [task_sensor_read], after the
    periodic delay. *)
Definition task_sensor_read_body (s : sampler_state) (now_us : Z)
    (ln : Dht.line) : sampler_state * list task_log :=
  let '(ret, reading_opt, dht', _) :=
    Dht.sensor_dht_read (sm_dht s) (Some Dht.sensor_data_zero) now_us ln in
  let reading := match reading_opt with
                 | Some r => r | None => Dht.sensor_data_zero end in
  if app_err_eqb ret APP_OK && Dht.is_valid reading then
    let st1 := system_status_increment_sensor_reads (sm_status s) in
    let msg := mkSensorMessage reading (sm_read_sequence s) in
    let seq' := u32 (sm_read_sequence s + 1) in
    match xQueueSend (sm_sensor_queue s) msg 0 with
    | (pdTRUE_sent, q') => (mkSampler st1 q' seq' dht', [])
    | (errQUEUE_FULL, q') =>
        (mkSampler st1 q' seq' dht', [warn_sensor_queue_full_dropping_reading])
    | (blocked ticks, q') =>
        (* the wait expired with the queue still full *)
        (mkSampler st1 q' seq' dht',
         [blocked_on_sensor_queue ticks; warn_sensor_queue_full_dropping_reading])
    end
  else
    (mkSampler (system_status_increment_sensor_errors (sm_status s))
       (sm_sensor_queue s) (sm_read_sequence s) dht',
     [error_sensor_read_failed]).

(** Calls the command consumer makes into the output driver. *)
Inductive output_call : Type :=
| call_set_relay (value : Z)
| call_set_fan_speed (value : Z).






(** The characters of a C string, without its terminator. *)
Fixpoint c_bytes (s : string) : list Z :=
  match s with
  | EmptyString => []
  | String a rest =>
      if Ascii.eqb a Ascii.zero then []
      else Z.of_nat (nat_of_ascii a) :: c_bytes rest
  end.











(** Vocabulary for statements about the workers. *)


Definition with_queue (s : sampler_state) (q : queue sensor_message_t) : sampler_state :=
  mkSampler (sm_status s) q (sm_read_sequence s) (sm_dht s).

(** The sampler's state once [system_task_init] and [sensor_dht_init(4)]
    have run. *)
Definition sampler_init : sampler_state :=
  mkSampler g_system_status_init g_sensor_queue_init 0 (Dht.ctx_after_init 4).

(** What can happen to the sensor queue: a pass of the sampler, or some
    worker taking a message off the queue. *)
Inductive sampler_action : Type :=
| act_sample (now_us : Z) (ln : Dht.line)
| act_take.

Fixpoint sampler_run (s : sampler_state) (acts : list sampler_action) : sampler_state :=
  match acts with
  | [] => s
  | act_sample now ln :: rest =>
      sampler_run (fst (task_sensor_read_body s now ln)) rest
  | act_take :: rest =>
      sampler_run (with_queue s (snd (xQueueReceive (sm_sensor_queue s)))) rest
  end.



(** The 32 bytes [app_mqtt_receive_command] stores from its [type]
    pointer on for a command of type [ty]. *)
Definition type_bytes_written (ty : string) : list Z :=
  firstn 31 (c_bytes (String.substring 0 31 ty) ++ repeat 0 31) ++ [0].



End SystemTask.

(* ====================================================================== *)
(** ** The sensor driver's remaining interface and free line timing       *)
(* ====================================================================== *)

Module DhtApi.
Import Dht.

(** [sensor_dht_get_pin]. *)
Definition sensor_dht_get_pin (ctx : dht_context_t) : Z :=
  if initialized ctx then pin ctx else 255.

(** A call of the driver's public interface. *)
Inductive dht_call : Type :=
| call_init (p : Z) (gpio_config_ok : bool)
| call_read (sensor_data : option sensor_data_t) (now_us : Z) (ln : line)
| call_get_last_reading (sensor_data : option sensor_data_t)
| call_is_healthy (now_us : Z)
| call_get_pin.

(** The driver's state after one call. *)
Definition dht_call_step (ctx : dht_context_t) (c : dht_call) : dht_context_t :=
  match c with
  | call_init p ok => snd (fst (sensor_dht_init ctx p ok))
  | call_read out now ln => snd (fst (sensor_dht_read ctx out now ln))
  | call_get_last_reading _ => ctx
  | call_is_healthy _ => ctx
  | call_get_pin => ctx
  end.

Definition dht_calls (ctx : dht_context_t) (cs : list dht_call) : dht_context_t :=
  fold_left dht_call_step cs ctx.

(** The call is an initialisation that succeeds on a fresh driver. *)
Definition is_good_init (c : dht_call) : bool :=
  match c with
  | call_init p ok => negb (p >? 39) && ok
  | _ => false
  end.





(** Outcome of a call as seen by the caller: result code and reading. *)
Definition read_result (ctx : dht_context_t) (call : read_call)
  : app_err_t * option sensor_data_t :=
  fst (fst (read_step ctx call)).

(** Context after a call. *)
Definition read_ctx (ctx : dht_context_t) (call : read_call) : dht_context_t :=
  snd (fst (read_step ctx call)).

(** Every call of the list, replayed from [ctx], that is made at or
    after [from_us] and returns [APP_OK] delivers a reading satisfying
    [good]. *)
Fixpoint ok_calls_deliver (good : sensor_data_t -> bool) (from_us : Z)
    (ctx : dht_context_t) (calls : list read_call) : bool :=
  match calls with
  | [] => true
  | call :: rest =>
      (match read_result ctx call with
       | (APP_OK, Some r) => (rc_now_us call <? from_us) || good r
       | (APP_OK, None) => rc_now_us call <? from_us
       | _ => true
       end)
      && ok_calls_deliver good from_us (read_ctx ctx call) rest
  end.

(** A delivered reading is valid and carries no error. *)
Definition valid_and_clean (r : sensor_data_t) : bool :=
  is_valid r && app_err_eqb (last_error r) APP_OK.

(** All calls are made before the millisecond counter wraps. *)
Definition before_wrap (calls : list read_call) : bool :=
  forallb (fun call => us_to_ms (rc_now_us call) <? 2 ^ 32) calls.

(** The invariant of the cache between calls, at timer value [t0]: the
    time of the last decode is not in the future, a cache that was never
    filled has time 0, and a cached error is at least 1000 ms younger
    than the last decode. *)
Definition cache_consistent (ctx : dht_context_t) (t0 : Z) : Prop :=
  initialized ctx = true /\
  0 <= last_read_ms ctx <= us_to_ms t0 /\
  (is_valid (last_reading ctx) = false -> last_read_ms ctx = 0) /\
  (last_error (last_reading ctx) <> APP_OK ->
   last_read_ms ctx + 1000 <= us_to_ms t0).

End DhtApi.

(* ====================================================================== *)
(** ** The sensor protocol on the running clock (sensor_dht.c)             *)
(* ====================================================================== *)

(** The protocol functions once more, with the time the platform's calls
    take left open: [esp_timer_get_time] reads a clock that runs on while
    the pin is sampled and the timer is read, not only during
    [ets_delay_us]. *)
Module DhtClock.
Import Dht DhtApi.

(** How long the platform's calls take: each field gives the timer value
    at which the call returns when it is entered at timer value [t].
    [gpio_get_level] samples the line and [esp_timer_get_time] reads the
    timer on entry. *)
Record platform : Type := mkPlatform {
  gpio_get_level_end : Z -> Z;
  esp_timer_get_time_end : Z -> Z;
  ets_delay_us_end : Z -> Z -> Z;     (* [us], then [t] *)
  gpio_set_end : Z -> Z               (* [gpio_set_direction], [gpio_set_level] *)
}.

(** The polling loop of [dht_wait_for_level], entered at timer value [t]
    with the loop's [start_time]; [fuel] bounds the passes. *)
Fixpoint wait_loop (pf : platform) (fuel : nat) (ln : line)
    (target_level timeout_us start_time t : Z) : app_err_t * Z :=
  match fuel with
  | O => (APP_ERR_TIMEOUT, t)
  | S fuel' =>
      let current_level := ln t in
      let t1 := gpio_get_level_end pf t in
      if current_level =? target_level then (APP_OK, t1)
      else
        let now := t1 in
        let t2 := esp_timer_get_time_end pf t1 in
        if (now - start_time) >? timeout_us then (APP_ERR_TIMEOUT, t2)
        else wait_loop pf fuel' ln target_level timeout_us start_time
               (ets_delay_us_end pf 1 t2)
  end.

(** [dht_wait_for_level], entered at timer value [t]: the result and the
    timer value at return. *)
Definition dht_wait_for_level (pf : platform) (ln : line)
    (target_level timeout_us t : Z) : app_err_t * Z :=
  let start_time := t in
  wait_loop pf (Z.to_nat timeout_us + 2) ln target_level timeout_us start_time
    (esp_timer_get_time_end pf t).

(** [dht_send_start_signal], entered at timer value [t]. *)
Definition dht_send_start_signal (pf : platform) (p : Z) (t : Z)
  : app_err_t * list gpio_op * Z :=
  let t1 := gpio_set_end pf t in
  let t2 := gpio_set_end pf t1 in
  let t3 := ets_delay_us_end pf 18000 t2 in
  let t4 := gpio_set_end pf t3 in
  let t5 := ets_delay_us_end pf 30 t4 in
  let t6 := gpio_set_end pf t5 in
  (APP_OK,
   [ gpio_set_direction_output p;
     gpio_set_level p 0; ets_delay_us 18000;
     gpio_set_level p 1; ets_delay_us 30;
     gpio_set_direction_input p ],
   t6).

(** One iteration of the 40-bit loop of [dht_read_raw_data]. *)
Definition read_one_bit (pf : platform) (ln : line) (i : nat) (data : list Z) (t : Z)
  : app_err_t * list Z * Z :=
  let '(r1, t1) := dht_wait_for_level pf ln 1 1000 t in
  if negb (app_err_eqb r1 APP_OK) then (APP_ERR_SENSOR_READ, data, t1)
  else
    let pulse_start := t1 in
    let t1' := esp_timer_get_time_end pf t1 in
    let '(r2, t2) := dht_wait_for_level pf ln 0 1000 t1' in
    if negb (app_err_eqb r2 APP_OK) then (APP_ERR_SENSOR_READ, data, t2)
    else
      let pulse_end := t2 in
      let t2' := esp_timer_get_time_end pf t2 in
      let pulse_duration_us := u32 (pulse_end - pulse_start) in
      let bit_value := if pulse_duration_us >? 50 then 1 else 0 in
      let byte_index := Nat.div i 8 in
      (APP_OK,
       store_byte data byte_index
         (u8 (Z.lor (Z.shiftl (nth byte_index data 0) 1) (Z.land bit_value 1))),
       t2').

(** [for (int i = 0; i < 40; i++)], with [n] iterations left from [i]. *)
Fixpoint read_bits (pf : platform) (ln : line) (n : nat) (i : nat)
    (data : list Z) (t : Z) : app_err_t * list Z * Z :=
  match n with
  | O => (APP_OK, data, t)
  | S n' =>
      match read_one_bit pf ln i data t with
      | (APP_OK, data', t') => read_bits pf ln n' (S i) data' t'
      | (e, data', t') => (e, data', t')
      end
  end.

(** [dht_read_raw_data], entered at timer value [t]. *)
Definition dht_read_raw_data (pf : platform) (p : Z) (ln : line)
    (data : option (list Z)) (t : Z)
  : app_err_t * option (list Z) * list gpio_op * Z :=
  match data with
  | None => (APP_ERR_INVALID_PARAM, None, [], t)
  | Some buf =>
      let '(r, ops, t0) := dht_send_start_signal pf p t in
      if negb (app_err_eqb r APP_OK) then (APP_ERR_SENSOR_READ, Some buf, ops, t0)
      else
        let '(r1, t1) := dht_wait_for_level pf ln 0 1000 t0 in
        if negb (app_err_eqb r1 APP_OK) then (APP_ERR_SENSOR_READ, Some buf, ops, t1)
        else
          let '(r2, t2) := dht_wait_for_level pf ln 1 1000 t1 in
          if negb (app_err_eqb r2 APP_OK) then (APP_ERR_SENSOR_READ, Some buf, ops, t2)
          else
            let '(r3, t3) := dht_wait_for_level pf ln 0 1000 t2 in
            if negb (app_err_eqb r3 APP_OK) then (APP_ERR_SENSOR_READ, Some buf, ops, t3)
            else
              let '(e, buf', t4) := read_bits pf ln 40 0 [0; 0; 0; 0; 0] t3 in
              (e, Some buf', ops, t4)
  end.

(** Vocabulary for statements about the timing. *)

(** A platform whose calls take no time, delays apart: the clock of
    module [Dht]. *)
Definition instant : platform :=
  mkPlatform (fun t => t) (fun t => t) (fun us t => t + us) (fun t => t).

(** No call returns before it was entered, and a delay lasts at least as
    long as asked. *)
Definition progress (pf : platform) : Prop :=
  forall t,
    t <= gpio_get_level_end pf t /\
    t <= esp_timer_get_time_end pf t /\
    t <= gpio_set_end pf t /\
    forall us, t + us <= ets_delay_us_end pf us t.

(** No call takes more than [c] microseconds beyond its nominal time. *)
Definition overhead_within (pf : platform) (c : Z) : Prop :=
  forall t,
    gpio_get_level_end pf t <= t + c /\
    esp_timer_get_time_end pf t <= t + c /\
    gpio_set_end pf t <= t + c /\
    forall us, ets_delay_us_end pf us t <= t + us + c.

(** A platform on which every call takes [c] microseconds. *)
Definition uniform (c : Z) : platform :=
  mkPlatform (fun t => t + c) (fun t => t + c) (fun us t => t + us + c)
    (fun t => t + c).

(** The five bytes the protocol delivers when run at timer value [t], if
    it completes. *)
Definition frame_of_line (pf : platform) (p : Z) (ln : line) (t : Z)
  : option (list Z) :=
  match dht_read_raw_data pf p ln (Some [0; 0; 0; 0; 0]) t with
  | (APP_OK, Some d, _, _) => Some d
  | _ => None
  end.





End DhtClock.

(* ====================================================================== *)
(** ** The link manager's remaining interface (app_wifi.c)                 *)
(* ====================================================================== *)

Module WifiApi.
Import Wifi.

(** [app_wifi_is_connected]. *)
Definition app_wifi_is_connected (c : wifi_context_t) : bool :=
  initialized c && connected c.

(** [xEventGroupWaitBits(group, bits, pdFALSE, pdFALSE, ticks)]: with
    clear-on-exit and wait-for-all off, the call returns the group's value
    at once if one of the awaited bits is set. Otherwise it blocks and
    returns the value the group has when a bit gets set or the wait
    expires, [at_wake]. *)
Definition xEventGroupWaitBits (group bits_to_wait_for at_wake : Z) : Z :=
  if negb (Z.land group bits_to_wait_for =? 0) then group else at_wake.

(** [app_wifi_wait_connected]: the result, and the timeout handed to the
    wait (0 when the wait is not reached). *)
Definition app_wifi_wait_connected (c : wifi_context_t) (timeout_ms at_wake : Z)
  : app_err_t * Z :=
  if negb (initialized c) then (APP_ERR_UNKNOWN, 0)
  else
    let timeout_ms' :=
      if timeout_ms =? 0 then Wifi.timeout_ms (config c) else timeout_ms in
    let bits :=
      xEventGroupWaitBits (event_group c)
        (Z.lor WIFI_CONNECTED_BIT WIFI_FAIL_BIT) at_wake in
    if negb (Z.land bits WIFI_CONNECTED_BIT =? 0) then (APP_OK, timeout_ms')
    else if negb (Z.land bits WIFI_FAIL_BIT =? 0)
         then (APP_ERR_WIFI_CONNECT, timeout_ms')
         else (APP_ERR_TIMEOUT, timeout_ms').

(** [app_wifi_disconnect]; [esp_ok] is whether [esp_wifi_disconnect]
    returned [ESP_OK]. The second component tells whether the platform
    call was made. *)
Definition app_wifi_disconnect (c : wifi_context_t) (esp_ok : bool)
  : app_err_t * bool * wifi_context_t :=
  if negb (initialized c) then (APP_ERR_UNKNOWN, false, c)
  else if negb esp_ok then (APP_ERR_UNKNOWN, true, c)
  else (APP_OK, true, set_connected c false).

(** [app_wifi_get_status_string]. *)
Definition app_wifi_get_status_string (c : wifi_context_t) : string :=
  match state c with
  | WIFI_STATE_INIT => "INIT"
  | WIFI_STATE_STARTING => "STARTING"
  | WIFI_STATE_CONNECTING => "CONNECTING"
  | WIFI_STATE_CONNECTED => "CONNECTED"
  | WIFI_STATE_DISCONNECTED => "DISCONNECTED"
  | WIFI_STATE_FAILED => "FAILED"
  | WIFI_STATE_ERROR => "ERROR"
  end.

(** [printf("%lu", n)] for [0 <= n]. *)
Definition decimal (n : Z) : string :=
  NilZero.string_of_uint (N.to_uint (Z.to_N n)).

(** [wifi_format_ip] into a buffer of [len] bytes: [None] when the
    function returns without writing. [snprintf] keeps at most [len - 1]
    characters. *)
Definition wifi_format_ip (ip : Z) (len : Z) : option string :=
  if len <? 16 then None
  else
    let s :=
      (decimal (Z.land (Z.shiftr ip 0) 255) ++ "." ++
       decimal (Z.land (Z.shiftr ip 8) 255) ++ "." ++
       decimal (Z.land (Z.shiftr ip 16) 255) ++ "." ++
       decimal (Z.land (Z.shiftr ip 24) 255))%string in
    Some (substring 0 (Z.to_nat (len - 1)) s).

(** The [ip_str] field. It is read only while [connected] is set; the
    got-IP branch of the handler, the only code setting [connected],
    fills it through [wifi_format_ip] from the address it has just
    stored, with the field's size of 16. *)
Definition ip_str (c : wifi_context_t) : string :=
  match wifi_format_ip (ip_address c) 16 with
  | Some s => s
  | None => EmptyString
  end.

(** [app_wifi_get_ip_address]; [buf = false] is the NULL buffer. The
    string is what the buffer holds up to its first NUL. *)
Definition app_wifi_get_ip_address (c : wifi_context_t) (buf : bool) (max_len : Z)
  : app_err_t * option string :=
  if negb buf || (max_len <? 16) then (APP_ERR_INVALID_PARAM, None)
  else if negb (connected c) then
    (APP_OK, Some (substring 0 (Z.to_nat (max_len - 1)) "0.0.0.0"))
  else (APP_OK, Some (substring 0 (Z.to_nat (max_len - 1)) (ip_str c))).

(** The dotted form of four octets. *)
Definition dotted (a b c d : Z) : string :=
  (decimal a ++ "." ++ decimal b ++ "." ++ decimal c ++ "." ++ decimal d)%string.

(** Whether the link counts as up after the events, starting from [up]:
    a got-IP event raises it; a link-lost or address-lost event drops it. *)
Definition link_up_after (up : bool) (evs : list (Z * wifi_event)) : bool :=
  fold_left
    (fun b p =>
       match snd p with
       | IP_EVENT_STA_GOT_IP _ => true
       | WIFI_EVENT_STA_DISCONNECTED => false
       | IP_EVENT_STA_LOST_IP => false
       | _ => b
       end) evs up.

(** The event takes the link down: link lost or address lost. *)
Definition is_link_down (ev : wifi_event) : bool :=
  match ev with
  | WIFI_EVENT_STA_DISCONNECTED => true
  | IP_EVENT_STA_LOST_IP => true
  | _ => false
  end.

(** Number of address assignments in the sequence. *)
Definition count_got_ip (evs : list (Z * wifi_event)) : nat :=
  List.length (filter (fun p => is_got_ip (snd p)) evs).

Definition is_start (ev : wifi_event) : bool :=
  match ev with WIFI_EVENT_STA_START => true | _ => false end.

(** Number of station-start events in the sequence. *)
Definition count_starts (evs : list (Z * wifi_event)) : nat :=
  List.length (filter (fun p => is_start (snd p)) evs).

(** The context after a fault-free [app_wifi_init] with configuration
    [cf]. *)
Definition ctx_after_init_with (cf : app_wifi_config_t) : wifi_context_t :=
  snd (app_wifi_init g_wifi_ctx_zero (Some cf) init_no_fault).

(** The bounds kept by the handler. *)
Definition retry_bounded (c : wifi_context_t) : Prop :=
  max_retries (config c) < 2 ^ 32 /\
  0 <= retry_count c <= max_retries (config c) /\
  0 <= retry_delay_ms c <= WIFI_RETRY_MAX_MS.

End WifiApi.

(* ====================================================================== *)
(** ** The broker manager's remaining interface (app_mqtt.c)               *)
(* ====================================================================== *)

Module MqttApi.
Import Mqtt.

(** [app_mqtt_is_connected]. *)
Definition app_mqtt_is_connected (c : mqtt_context_t) : bool :=
  initialized c && connected c.

(** Calls into the client library. *)
Inductive client_call : Type :=
| esp_mqtt_client_publish (topic data : string) (data_len qos retain : Z)
| esp_mqtt_client_subscribe (topic : string) (qos : Z)
| esp_mqtt_client_unsubscribe (topic : string)
| esp_mqtt_client_stop.

Definition set_publish_counts (c : mqtt_context_t) (published failures : Z)
  : mqtt_context_t :=
  mkMqttCtx (config c) (connected c) (initialized c) published
    (messages_received c) failures (reconnect_count c) (command_queue c)
    (last_connect_time c) (reconnect_delay_ms c).

(** [app_mqtt_publish]; [None] is a NULL pointer and [msg_id] is what
    [esp_mqtt_client_publish] returns if it is called. *)
Definition app_mqtt_publish (c : mqtt_context_t) (topic data : option string)
    (data_len qos : Z) (retain : bool) (msg_id : Z)
  : app_err_t * mqtt_context_t * list client_call :=
  match topic, data with
  | Some tp, Some d =>
      if data_len =? 0 then (APP_ERR_INVALID_PARAM, c, [])
      else if negb (initialized c) || negb (connected c) then
        (APP_ERR_MQTT_PUBLISH,
         set_publish_counts c (messages_published c) (u32 (publish_failures c + 1)),
         [])
      else
        let qos' := if (qos <? 0) || (qos >? 2) then 1 else qos in
        let call := esp_mqtt_client_publish tp d data_len qos'
                      (if retain then 1 else 0) in
        if msg_id <? 0 then
          (APP_ERR_MQTT_PUBLISH,
           set_publish_counts c (messages_published c) (u32 (publish_failures c + 1)),
           [call])
        else
          (APP_OK,
           set_publish_counts c (u32 (messages_published c + 1)) (publish_failures c),
           [call])
  | _, _ => (APP_ERR_INVALID_PARAM, c, [])
  end.

(** [app_mqtt_subscribe]. *)
Definition app_mqtt_subscribe (c : mqtt_context_t) (topic : option string)
    (qos msg_id : Z) : app_err_t * list client_call :=
  match topic with
  | None => (APP_ERR_INVALID_PARAM, [])
  | Some tp =>
      if negb (initialized c) then (APP_ERR_UNKNOWN, [])
      else
        let qos' := if (qos <? 0) || (qos >? 2) then 1 else qos in
        if msg_id <? 0 then (APP_ERR_UNKNOWN, [esp_mqtt_client_subscribe tp qos'])
        else (APP_OK, [esp_mqtt_client_subscribe tp qos'])
  end.

(** [app_mqtt_unsubscribe]. *)
Definition app_mqtt_unsubscribe (c : mqtt_context_t) (topic : option string)
    (msg_id : Z) : app_err_t * list client_call :=
  match topic with
  | None => (APP_ERR_INVALID_PARAM, [])
  | Some tp =>
      if negb (initialized c) then (APP_ERR_UNKNOWN, [])
      else if msg_id <? 0 then (APP_ERR_UNKNOWN, [esp_mqtt_client_unsubscribe tp])
      else (APP_OK, [esp_mqtt_client_unsubscribe tp])
  end.

(** [app_mqtt_get_status_string]. *)
Definition app_mqtt_get_status_string (c : mqtt_context_t) : string :=
  if negb (initialized c) then "NOT_INITIALIZED"
  else if connected c then "CONNECTED"
  else "DISCONNECTED".

(** [app_mqtt_disconnect]. The client handle is non-NULL whenever
    [initialized] is set: [app_mqtt_init] sets the flag only after
    [esp_mqtt_client_init] has returned a handle. *)
Definition app_mqtt_disconnect (c : mqtt_context_t)
  : app_err_t * mqtt_context_t * list client_call :=
  if negb (initialized c) then (APP_ERR_UNKNOWN, c, [])
  else
    (APP_OK,
     mkMqttCtx (config c) false (initialized c) (messages_published c)
       (messages_received c) (publish_failures c) (reconnect_count c)
       (command_queue c) (last_connect_time c) (reconnect_delay_ms c),
     [esp_mqtt_client_stop]).

(** [app_mqtt_get_stats]; [ptrs_ok] is whether the three out-pointers are
    non-NULL. Returns (published, received, failed). *)
Definition app_mqtt_get_stats (c : mqtt_context_t) (ptrs_ok : bool)
  : app_err_t * option (Z * Z * Z) :=
  if negb ptrs_ok then (APP_ERR_INVALID_PARAM, None)
  else (APP_OK,
        Some (messages_published c, messages_received c, publish_failures c)).

(** A call of [app_mqtt_publish] with the client's answer. *)
Record publish_call : Type := mkPublishCall {
  pc_topic : option string;
  pc_data : option string;
  pc_data_len : Z;
  pc_qos : Z;
  pc_retain : bool;
  pc_msg_id : Z
}.

(** What happens to the manager: a client event or a publish call. *)
Inductive api_action : Type :=
| api_event (now_us : Z) (ev : mqtt_event)
| api_publish (pc : publish_call).

Definition api_step (c : mqtt_context_t) (a : api_action)
  : mqtt_context_t * list client_call :=
  match a with
  | api_event t ev => (fst (mqtt_event_handler c t ev), [])
  | api_publish pc =>
      let '(_, c', calls) :=
        app_mqtt_publish c (pc_topic pc) (pc_data pc) (pc_data_len pc)
          (pc_qos pc) (pc_retain pc) (pc_msg_id pc) in
      (c', calls)
  end.

(** The final context and, per action, the client calls it made. *)
Fixpoint api_run (c : mqtt_context_t) (acts : list api_action)
  : mqtt_context_t * list (list client_call) :=
  match acts with
  | [] => (c, [])
  | a :: rest =>
      let '(c1, calls) := api_step c a in
      let '(c2, more) := api_run c1 rest in
      (c2, calls :: more)
  end.

(** The publish call passes the parameter check. *)
Definition publish_params_ok (pc : publish_call) : bool :=
  match pc_topic pc, pc_data pc with
  | Some _, Some _ => negb (pc_data_len pc =? 0)
  | _, _ => false
  end.

(** Number of publish calls that pass the parameter check. *)
Definition count_valid_publishes (acts : list api_action) : nat :=
  List.length
    (filter (fun a => match a with
                      | api_publish pc => publish_params_ok pc
                      | _ => false
                      end) acts).

(** Number of data events with a non-empty payload for which the
    handler's [malloc] of the copy succeeded: the events that reach
    [g_mqtt_ctx.messages_received++]. *)
Definition count_messages (acts : list api_action) : nat :=
  List.length
    (filter (fun a => match a with
                      | api_event _ (MQTT_EVENT_DATA p) =>
                          (data_len p >? 0) && malloc_ok p
                      | _ => false
                      end) acts).

(** Whether the broker counts as reachable after the events, starting
    from [up]. *)
Definition broker_up_after (up : bool) (evs : list (Z * mqtt_event)) : bool :=
  fold_left
    (fun b p =>
       match snd p with
       | MQTT_EVENT_CONNECTED => true
       | MQTT_EVENT_DISCONNECTED => false
       | _ => b
       end) evs up.

(** The command a message carries, if it is a non-empty JSON object with
    a string "type" and a numeric "value": the type cut to 31
    characters, and the value. *)
Definition command_of_event (ev : mqtt_event) : list mqtt_command_t :=
  match ev with
  | MQTT_EVENT_DATA p =>
      if (data_len p >? 0) && malloc_ok p then
        match parsed p with
        | Some (Some (cj_string s), Some (cj_number n)) =>
            [mkMqttCommand (strncpy31 s) n]
        | _ => []
        end
      else []
  | _ => []
  end.

Definition commands_in (evs : list (Z * mqtt_event)) : list mqtt_command_t :=
  flat_map (fun p => command_of_event (snd p)) evs.

(** [n] calls of [app_mqtt_receive_command] in a row: the results in
    order, and the context afterwards. *)
Fixpoint receive_commands (n : nat) (c : mqtt_context_t)
  : list (app_err_t * option (string * Z)) * mqtt_context_t :=
  match n with
  | O => ([], c)
  | S n' =>
      let '(r, out, c1) := app_mqtt_receive_command c in
      let '(rs, c2) := receive_commands n' c1 in
      ((r, out) :: rs, c2)
  end.

(** The context after a fault-free [app_mqtt_init] with configuration
    [cf]. *)
Definition ctx_after_init_with (cf : mqtt_config_t) : mqtt_context_t :=
  snd (app_mqtt_init g_mqtt_ctx_zero (Some cf) init_no_fault).

(** The event is a non-empty message for which the copy could be
    allocated. *)
Definition is_message (ev : mqtt_event) : bool :=
  match ev with
  | MQTT_EVENT_DATA p => (data_len p >? 0) && malloc_ok p
  | _ => false
  end.

Definition is_disconnected (ev : mqtt_event) : bool :=
  match ev with MQTT_EVENT_DISCONNECTED => true | _ => false end.

(** Number of broker-lost events in the sequence. *)
Definition count_disconnected (evs : list (Z * mqtt_event)) : nat :=
  List.length (filter (fun p => is_disconnected (snd p)) evs).

End MqttApi.

(* ====================================================================== *)
(** ** The output driver's remaining interface (app_output.c)              *)
(* ====================================================================== *)

Module OutputApi.
Import Output.

Definition FAN_SPEED_OFF : Z := 0.

(** [static output_context_t g_output_ctx = {0};] *)
Definition g_output_ctx_zero : output_context_t :=
  mkOutputCtx 0 0 0 0 false false 0 0 0 0 false.

(** Peripheral calls made while initialising. *)
Inductive init_op : Type :=
| io_gpio_config (p : Z)
| io_gpio_set_level (p : Z) (level : Z)
| io_ledc_timer_config
| io_ledc_channel_config (p : Z).

(** Whether the peripheral calls of the initialisation return [ESP_OK]. *)
Record init_result : Type := mkInitResult {
  gpio_config_ok : bool;
  gpio_initial_level_ok : bool;
  ledc_timer_config_ok : bool;
  ledc_channel_config_ok : bool
}.

(** [output_init_relay]. *)
Definition output_init_relay (relay_pin : Z) (hw : init_result)
  : app_err_t * list init_op :=
  if negb (gpio_config_ok hw) then (APP_ERR_UNKNOWN, [io_gpio_config relay_pin])
  else if negb (gpio_initial_level_ok hw) then
    (APP_ERR_UNKNOWN, [io_gpio_config relay_pin; io_gpio_set_level relay_pin RELAY_OFF])
  else (APP_OK, [io_gpio_config relay_pin; io_gpio_set_level relay_pin RELAY_OFF]).

(** [output_init_ledc]. *)
Definition output_init_ledc (fan_pin : Z) (hw : init_result)
  : app_err_t * list init_op :=
  if negb (ledc_timer_config_ok hw) then (APP_ERR_UNKNOWN, [io_ledc_timer_config])
  else if negb (ledc_channel_config_ok hw) then
    (APP_ERR_UNKNOWN, [io_ledc_timer_config; io_ledc_channel_config fan_pin])
  else (APP_OK, [io_ledc_timer_config; io_ledc_channel_config fan_pin]).

(** [app_output_init]. *)
Definition app_output_init (c : output_context_t) (relay_pin fan_pin : Z)
    (hw : init_result) : app_err_t * output_context_t * list init_op :=
  if (relay_pin >? 39) || (fan_pin >? 39) then (APP_ERR_INVALID_PARAM, c, [])
  else if initialized c then (APP_OK, c, [])
  else
    let '(ret, ops1) := output_init_relay relay_pin hw in
    if negb (app_err_eqb ret APP_OK) then (ret, c, ops1)
    else
      let '(ret2, ops2) := output_init_ledc fan_pin hw in
      if negb (app_err_eqb ret2 APP_OK) then (ret2, c, ops1 ++ ops2)
      else
        (APP_OK,
         mkOutputCtx relay_pin fan_pin RELAY_OFF 0 true true 0 0
           (relay_toggle_count c) (fan_changes c) false,
         ops1 ++ ops2).

(** [app_output_get_relay]. *)
Definition app_output_get_relay (c : output_context_t) : Z :=
  if negb (initialized c) then RELAY_OFF else relay_state c.

(** [app_output_toggle_relay]. *)
Definition app_output_toggle_relay (c : output_context_t) (hw : hw_result)
  : app_err_t * output_context_t * list hw_op :=
  let new_state := if negb (relay_state c =? 0) then RELAY_OFF else RELAY_ON in
  app_output_set_relay c new_state hw.

(** [app_output_get_fan_speed]. *)
Definition app_output_get_fan_speed (c : output_context_t) : Z :=
  if negb (initialized c) then 0 else fan_speed c.

Definition set_is_enabled (c : output_context_t) (b : bool) : output_context_t :=
  mkOutputCtx (relay_pin c) (fan_pin c) (relay_state c) (fan_speed c)
    b (initialized c) (error_count c) (total_operations c)
    (relay_toggle_count c) (fan_changes c) (ramp_active c).

(** [app_output_set_enabled]; the results of the two setter calls are
    ignored, as in the source. *)
Definition app_output_set_enabled (c : output_context_t) (enabled : bool)
    (hw : hw_result) : app_err_t * output_context_t * list hw_op :=
  let c1 := set_is_enabled c enabled in
  if negb enabled then
    let '(_, c2, ops1) := app_output_set_relay c1 RELAY_OFF hw in
    let '(_, c3, ops2) := app_output_set_fan_speed c2 FAN_SPEED_OFF hw in
    (APP_OK, c3, ops1 ++ ops2)
  else (APP_OK, c1, []).

(** [app_output_is_enabled]. *)
Definition app_output_is_enabled (c : output_context_t) : bool := is_enabled c.

(** [app_output_emergency_stop]; the results of the peripheral calls are
    not looked at. *)
Definition app_output_emergency_stop (c : output_context_t)
  : app_err_t * output_context_t * list hw_op :=
  (APP_OK,
   mkOutputCtx (relay_pin c) (fan_pin c) RELAY_OFF 0 false (initialized c)
     (error_count c) (total_operations c) (relay_toggle_count c) (fan_changes c)
     false,
   [hw_gpio_set_level (relay_pin c) RELAY_OFF; hw_ledc_set_duty 0;
    hw_ledc_update_duty]).

(** [output_status_t] with its [fan_state_t] inlined. *)
Record output_status_t : Type := mkOutputStatus {
  st_relay : Z;
  st_fan_speed : Z;
  st_fan_is_active : bool;
  st_fan_last_update_ms : Z;   (* uint32_t *)
  st_error_count : Z;
  st_total_operations : Z
}.

(** [app_output_get_status]; [status_ok] is whether the pointer is
    non-NULL. *)
Definition app_output_get_status (c : output_context_t) (status_ok : bool)
    (now_us : Z) : app_err_t * option output_status_t :=
  if negb status_ok then (APP_ERR_INVALID_PARAM, None)
  else if negb (initialized c) then (APP_ERR_UNKNOWN, None)
  else
    (APP_OK,
     Some (mkOutputStatus (relay_state c) (fan_speed c) (fan_speed c >? 0)
             (u32 (Z.quot now_us 1000)) (error_count c) (total_operations c))).

(** The driver state together with the ramp parameters; [ramp_task] is
    whether the task handle is non-NULL. *)
Record ramp_context_t : Type := mkRampCtx {
  base : output_context_t;
  ramp_target_speed : Z;    (* uint8_t *)
  ramp_duration_ms : Z;     (* uint32_t *)
  ramp_start_ms : Z;        (* uint32_t *)
  ramp_task : bool
}.

Definition set_base (r : ramp_context_t) (c : output_context_t) : ramp_context_t :=
  mkRampCtx c (ramp_target_speed r) (ramp_duration_ms r) (ramp_start_ms r)
    (ramp_task r).

(** [app_output_ramp_fan_speed], called at timer value [now_us];
    [task_created] is whether [xTaskCreate] returns [pdPASS]. *)
Definition app_output_ramp_fan_speed (r : ramp_context_t)
    (target_speed duration_ms now_us : Z) (task_created : bool) (hw : hw_result)
  : app_err_t * ramp_context_t * list hw_op :=
  let c := base r in
  if negb (initialized c) then (APP_ERR_UNKNOWN, r, [])
  else if negb (is_enabled c) then (APP_ERR_UNKNOWN, r, [])
  else
    let target_speed1 :=
      if target_speed >? FAN_SPEED_MAX then FAN_SPEED_MAX else target_speed in
    if duration_ms =? 0 then
      let '(e, c', ops) := app_output_set_fan_speed c target_speed1 hw in
      (e, set_base r c', ops)
    else if (duration_ms <? 100) || (duration_ms >? 60000) then
      (APP_ERR_INVALID_VALUE, r, [])
    else
      let c1 := if ramp_active c then set_ramp_active c false else c in
      let r1 := mkRampCtx (set_ramp_active c1 true) target_speed1 duration_ms
                  (u32 (Z.quot now_us 1000)) (ramp_task r) in
      if negb task_created then
        (APP_ERR_NO_MEMORY, set_base r1 (set_ramp_active (base r1) false), [])
      else
        (APP_OK,
         mkRampCtx (base r1) (ramp_target_speed r1) (ramp_duration_ms r1)
           (ramp_start_ms r1) true,
         []).

Definition set_fan_speed_field (c : output_context_t) (v : Z) : output_context_t :=
  mkOutputCtx (relay_pin c) (fan_pin c) (relay_state c) v
    (is_enabled c) (initialized c) (error_count c) (total_operations c)
    (relay_toggle_count c) (fan_changes c) (ramp_active c).

(** The duty the ramp task computes [elapsed_ms] into the ramp:
    [current_speed + (delta * elapsed_ms) / ramp_duration_ms], where
    [delta] is an [int] and the other operands of the product and the
    quotient are [uint32_t], so that the product is formed in unsigned
    32-bit arithmetic; the sum is cut to [uint8_t]. *)
Definition ramp_duty (current_speed target duration elapsed_ms : Z) : Z :=
  let delta := target - current_speed in
  u8 (u32 (current_speed + u32 (u32 delta * elapsed_ms) / duration)).

(** One pass of the loop of [task_fan_ramp] at timer value [now_us]: the
    state, the peripheral calls, and whether the loop goes on (it then
    sleeps 50 ms). When the loop ends the task clears its handle. *)
Definition task_fan_ramp_pass (r : ramp_context_t) (now_us : Z)
  : ramp_context_t * list hw_op * bool :=
  let c := base r in
  if negb (ramp_active c) then
    (mkRampCtx c (ramp_target_speed r) (ramp_duration_ms r) (ramp_start_ms r) false,
     [], false)
  else
    let elapsed_ms := u32 (Z.quot now_us 1000 - ramp_start_ms r) in
    if elapsed_ms >=? ramp_duration_ms r then
      let c1 := set_fan_speed_field c (ramp_target_speed r) in
      (mkRampCtx (set_ramp_active c1 false) (ramp_target_speed r)
         (ramp_duration_ms r) (ramp_start_ms r) false,
       [hw_ledc_set_duty (fan_speed c1); hw_ledc_update_duty], false)
    else
      let new_speed :=
        ramp_duty (fan_speed c) (ramp_target_speed r) (ramp_duration_ms r)
          elapsed_ms in
      (r, [hw_ledc_set_duty new_speed; hw_ledc_update_duty], true).

(** A call of the driver's interface, or a pass of the ramp task. *)
Inductive output_call : Type :=
| oc_init (relay_pin fan_pin : Z) (hw : init_result)
| oc_set_relay (st : Z) (hw : hw_result)
| oc_toggle_relay (hw : hw_result)
| oc_set_fan_speed (speed : Z) (hw : hw_result)
| oc_ramp_fan_speed (target_speed duration_ms now_us : Z) (task_created : bool)
    (hw : hw_result)
| oc_ramp_pass (now_us : Z)
| oc_set_enabled (enabled : bool) (hw : hw_result)
| oc_emergency_stop.

(** The state after a call and the calls it made to drive the outputs.
    Arguments of the 8- and 32-bit unsigned parameters are converted to
    the parameter type, as at a C call site. *)
Definition output_step (r : ramp_context_t) (call : output_call)
  : ramp_context_t * list hw_op :=
  match call with
  | oc_init rp fp hw =>
      (set_base r (snd (fst (app_output_init (base r) (u8 rp) (u8 fp) hw))), [])
  | oc_set_relay st hw =>
      let '(_, c, ops) := app_output_set_relay (base r) st hw in (set_base r c, ops)
  | oc_toggle_relay hw =>
      let '(_, c, ops) := app_output_toggle_relay (base r) hw in (set_base r c, ops)
  | oc_set_fan_speed speed hw =>
      let '(_, c, ops) := app_output_set_fan_speed (base r) speed hw in
      (set_base r c, ops)
  | oc_ramp_fan_speed target duration now created hw =>
      let '(_, r', ops) :=
        app_output_ramp_fan_speed r (u8 target) (u32 duration) now created hw in
      (r', ops)
  | oc_ramp_pass now =>
      let '(r', ops, _) := task_fan_ramp_pass r now in (r', ops)
  | oc_set_enabled enabled hw =>
      let '(_, c, ops) := app_output_set_enabled (base r) enabled hw in
      (set_base r c, ops)
  | oc_emergency_stop =>
      let '(_, c, ops) := app_output_emergency_stop (base r) in (set_base r c, ops)
  end.

Fixpoint output_run (r : ramp_context_t) (calls : list output_call)
  : ramp_context_t * list hw_op :=
  match calls with
  | [] => (r, [])
  | call :: rest =>
      let '(r1, ops1) := output_step r call in
      let '(r2, ops2) := output_run r1 rest in
      (r2, ops1 ++ ops2)
  end.

(** The zeroed state before initialisation. *)
Definition g_ramp_ctx_zero : ramp_context_t :=
  mkRampCtx g_output_ctx_zero 0 0 0 false.

(** The state right after a successful [app_output_init]. *)
Definition ramp_ctx_after_init (relay_pin fan_pin : Z) : ramp_context_t :=
  set_base g_ramp_ctx_zero
    (snd (fst (app_output_init g_output_ctx_zero relay_pin fan_pin
                 (mkInitResult true true true true)))).

(** The call re-enables the outputs. *)
Definition is_enable (call : output_call) : bool :=
  match call with oc_set_enabled true _ => true | _ => false end.

(** The call is an emergency stop. *)
Definition is_emergency_stop (call : output_call) : bool :=
  match call with oc_emergency_stop => true | _ => false end.

(** The ranges of the two outputs in the driver state proper. *)
Definition base_in_range (c : output_context_t) : Prop :=
  (relay_state c = RELAY_OFF \/ relay_state c = RELAY_ON) /\
  0 <= fan_speed c <= 255.

(** The ranges of the two outputs: the relay is off or on, the speed is
    an 8-bit duty, and so is the target of a ramp. *)
Definition outputs_in_range (r : ramp_context_t) : Prop :=
  (relay_state (base r) = RELAY_OFF \/ relay_state (base r) = RELAY_ON) /\
  0 <= fan_speed (base r) <= 255 /\
  0 <= ramp_target_speed r <= 255.

(** A peripheral call that drives an output within its range. *)
Definition op_in_range (op : hw_op) : Prop :=
  match op with
  | hw_gpio_set_level _ level => level = RELAY_OFF \/ level = RELAY_ON
  | hw_ledc_set_duty duty => 0 <= duty <= 255
  | hw_ledc_update_duty => True
  end.

(** A call that asks the driver to change an output or to initialise, or
    disables it again: anything but enabling, an emergency stop and a
    pass of the ramp task. *)
Definition is_command (call : output_call) : bool :=
  match call with
  | oc_init _ _ _ => true
  | oc_set_relay _ _ => true
  | oc_toggle_relay _ => true
  | oc_set_fan_speed _ _ => true
  | oc_ramp_fan_speed _ _ _ _ _ => true
  | oc_set_enabled false _ => true
  | _ => false
  end.

(** A peripheral call that switches an output off (or latches the
    duty). *)
Definition op_is_off (op : hw_op) : Prop :=
  match op with
  | hw_gpio_set_level _ level => level = RELAY_OFF
  | hw_ledc_set_duty duty => duty = 0
  | hw_ledc_update_duty => True
  end.

(** The driver after an emergency stop: initialised, disabled, both
    outputs off, no ramp. *)
Definition stopped (r : ramp_context_t) : Prop :=
  initialized (base r) = true /\ is_enabled (base r) = false /\
  relay_state (base r) = RELAY_OFF /\ fan_speed (base r) = 0 /\
  ramp_active (base r) = false.

End OutputApi.

(* ====================================================================== *)
(** ** The rest of the task system (system_task.c) and the main loop       *)
(* ====================================================================== *)

Module SystemApi.
Import SystemTask.

Definition EVENT_WIFI_CONNECTED : Z := Z.shiftl 1 0.
Definition EVENT_MQTT_CONNECTED : Z := Z.shiftl 1 1.
Definition EVENT_SYSTEM_READY : Z := Z.shiftl 1 2.
Definition EVENT_ERROR : Z := Z.shiftl 1 3.

(** [system_status_update_state], at timer value [now_us]. *)
Definition system_status_update_state (s : system_status_t)
    (new_state : system_state_t) (now_us : Z) : system_status_t :=
  mkStatus new_state (last_error s) (error_count s)
    (wifi_reconnect_count s) (mqtt_reconnect_count s)
    (sensor_read_count s) (sensor_error_count s) (u64 (Z.quot now_us 1000)).

(** The status record and the event group [g_system_events] (its bit
    mask). *)
Record system_ctx : Type := mkSystem {
  sy_status : system_status_t;
  sy_events : Z
}.

(** What a successful [system_task_init] leaves behind. *)
Definition system_after_init : system_ctx := mkSystem g_system_status_init 0.

(** [system_task_signal_wifi_connected]. *)
Definition system_task_signal_wifi_connected (s : system_ctx) (now_us : Z)
  : system_ctx :=
  mkSystem (system_status_update_state (sy_status s) SYSTEM_STATE_WIFI_CONNECTED now_us)
    (Z.lor (sy_events s) EVENT_WIFI_CONNECTED).

(** [system_task_signal_mqtt_connected]. *)
Definition system_task_signal_mqtt_connected (s : system_ctx) (now_us : Z)
  : system_ctx :=
  mkSystem (system_status_update_state (sy_status s) SYSTEM_STATE_MQTT_CONNECTED now_us)
    (Z.lor (sy_events s) EVENT_MQTT_CONNECTED).

(** [system_task_signal_ready]. *)
Definition system_task_signal_ready (s : system_ctx) (now_us : Z) : system_ctx :=
  mkSystem (system_status_update_state (sy_status s) SYSTEM_STATE_OPERATIONAL now_us)
    (Z.lor (sy_events s) EVENT_SYSTEM_READY).

(** [system_task_get_status]; [None] is the NULL pointer. *)
Definition system_task_get_status (s : system_ctx) (status : option system_status_t)
  : app_err_t * option system_status_t :=
  match status with
  | None => (APP_ERR_INVALID_PARAM, None)
  | Some _ => (APP_OK, Some (sy_status s))
  end.

(** [system_task_queue_sensor_data]; [None] is the NULL pointer. *)
Definition system_task_queue_sensor_data (q : queue sensor_message_t)
    (data : option Dht.sensor_data_t) : app_err_t * queue sensor_message_t :=
  match data with
  | None => (APP_ERR_INVALID_PARAM, q)
  | Some d =>
      match xQueueSend q (mkSensorMessage d 0) 0 with
      | (pdTRUE_sent, q') => (APP_OK, q')
      | (_, q') => (APP_ERR_UNKNOWN, q')
      end
  end.

Definition system_state_eqb (a b : system_state_t) : bool :=
  match a, b with
  | SYSTEM_STATE_INIT, SYSTEM_STATE_INIT => true
  | SYSTEM_STATE_HARDWARE_READY, SYSTEM_STATE_HARDWARE_READY => true
  | SYSTEM_STATE_WIFI_CONNECTING, SYSTEM_STATE_WIFI_CONNECTING => true
  | SYSTEM_STATE_WIFI_CONNECTED, SYSTEM_STATE_WIFI_CONNECTED => true
  | SYSTEM_STATE_MQTT_CONNECTING, SYSTEM_STATE_MQTT_CONNECTING => true
  | SYSTEM_STATE_MQTT_CONNECTED, SYSTEM_STATE_MQTT_CONNECTED => true
  | SYSTEM_STATE_OPERATIONAL, SYSTEM_STATE_OPERATIONAL => true
  | SYSTEM_STATE_ERROR, SYSTEM_STATE_ERROR => true
  | _, _ => false
  end.

(** The monitor loop at the end of [app_main] (main.c): the system and
    the loop's [static system_state_t last_state]. *)
Record main_loop : Type := mkMainLoop {
  ml_system : system_ctx;
  ml_last_state : system_state_t
}.

(** The loop as [app_main] enters it. *)
Definition main_loop_start (s : system_ctx) : main_loop :=
  mkMainLoop s SYSTEM_STATE_INIT.

(** One pass through the loop body, before the 30 s sleep. *)
Definition main_monitor_pass (m : main_loop) (now_us : Z) : main_loop :=
  match system_task_get_status (ml_system m) (Some g_system_status_init) with
  | (_, Some status) =>
      if negb (system_state_eqb (state status) (ml_last_state m)) then
        if system_state_eqb (state status) SYSTEM_STATE_MQTT_CONNECTED then
          mkMainLoop (system_task_signal_ready (ml_system m) now_us) (state status)
        else mkMainLoop (ml_system m) (state status)
      else m
  | (_, None) => m
  end.

(** [system_task_start_all], at timer value [now_us]; [config_ok] is
    whether the configuration pointer is non-NULL and [created] tells,
    for the four tasks in order, whether [xTaskCreate] returns [pdPASS].
    Returns the result, the status and the number of tasks created. *)
Definition system_task_start_all (s : system_ctx) (config_ok : bool)
    (created : bool * bool * bool * bool) (now_us : Z)
  : app_err_t * system_ctx * nat :=
  if negb config_ok then (APP_ERR_INVALID_PARAM, s, 0%nat)
  else
    let s1 := mkSystem (system_status_update_state (sy_status s)
                          SYSTEM_STATE_HARDWARE_READY now_us) (sy_events s) in
    let '(sensor_ok, mqtt_rx_ok, output_ok, monitor_ok) := created in
    if negb sensor_ok then (APP_ERR_NO_MEMORY, s1, 0%nat)
    else if negb mqtt_rx_ok then (APP_ERR_NO_MEMORY, s1, 1%nat)
    else if negb output_ok then (APP_ERR_NO_MEMORY, s1, 2%nat)
    else if negb monitor_ok then (APP_ERR_NO_MEMORY, s1, 3%nat)
    else (APP_OK, s1, 4%nat).

(** Everything that writes the status record or the event group after
    [system_task_init]: [system_task_start_all]; the link and broker
    callbacks of main.c ([on_wifi_connected], [on_mqtt_connected]), which
    call the two signal functions; the passes of the monitor loop of
    [app_main]; and the calls the tasks make to
    [system_status_record_error] and the two sensor counters. *)
Inductive system_event : Type :=
| ev_wifi_connected (now_us : Z)
| ev_mqtt_connected (now_us : Z)
| ev_main_pass (now_us : Z)
| ev_start_all (config_ok : bool) (created : bool * bool * bool * bool) (now_us : Z)
| ev_record_error (error_code : app_err_t)
| ev_sensor_read_counted
| ev_sensor_error_counted.

Definition with_status (m : main_loop) (s : system_status_t) : main_loop :=
  mkMainLoop (mkSystem s (sy_events (ml_system m))) (ml_last_state m).

Definition system_step (m : main_loop) (e : system_event) : main_loop :=
  match e with
  | ev_wifi_connected t =>
      mkMainLoop (system_task_signal_wifi_connected (ml_system m) t) (ml_last_state m)
  | ev_mqtt_connected t =>
      mkMainLoop (system_task_signal_mqtt_connected (ml_system m) t) (ml_last_state m)
  | ev_main_pass t => main_monitor_pass m t
  | ev_start_all config_ok created t =>
      mkMainLoop (snd (fst (system_task_start_all (ml_system m) config_ok created t)))
        (ml_last_state m)
  | ev_record_error code =>
      with_status m (system_status_record_error (sy_status (ml_system m)) code)
  | ev_sensor_read_counted =>
      with_status m (system_status_increment_sensor_reads (sy_status (ml_system m)))
  | ev_sensor_error_counted =>
      with_status m (system_status_increment_sensor_errors (sy_status (ml_system m)))
  end.

(** The states the firmware ever stores in the status record. *)
Definition is_stored_state (st : system_state_t) : bool :=
  match st with
  | SYSTEM_STATE_INIT | SYSTEM_STATE_HARDWARE_READY | SYSTEM_STATE_WIFI_CONNECTED
  | SYSTEM_STATE_MQTT_CONNECTED | SYSTEM_STATE_OPERATIONAL => true
  | _ => false
  end.

(** What no writer of the status record and the event group changes. *)
Definition untouched (m : main_loop) : Prop :=
  is_stored_state (state (sy_status (ml_system m))) = true /\
  wifi_reconnect_count (sy_status (ml_system m)) = 0 /\
  mqtt_reconnect_count (sy_status (ml_system m)) = 0 /\
  Z.land (sy_events (ml_system m)) EVENT_ERROR = 0.

Definition system_run (m : main_loop) (es : list system_event) : main_loop :=
  fold_left system_step es m.

(** The state the system reports. *)
Definition reported_state (m : main_loop) : system_state_t :=
  state (sy_status (ml_system m)).

(** Passes of the monitor loop at the given times. *)
Definition main_passes (ts : list Z) : list system_event := map ev_main_pass ts.

(** [control_message_t]. *)
Record control_message_t : Type := mkControlMessage {
  cm_type : string;
  cm_value : Z              (* int *)
}.

(** One pass through the loop body of [task_output_control]; the results
    of the two setters are not looked at. *)
Definition task_output_control_body (q : queue control_message_t)
    (out : Output.output_context_t) (hw : Output.hw_result)
  : queue control_message_t * Output.output_context_t * list Output.hw_op :=
  match xQueueReceive q with
  | (Some cmd, q') =>
      if String.eqb (cm_type cmd) "relay" then
        let '(_, out', ops) := Output.app_output_set_relay out (cm_value cmd) hw in
        (q', out', ops)
      else if String.eqb (cm_type cmd) "fan" then
        let '(_, out', ops) := Output.app_output_set_fan_speed out (cm_value cmd) hw in
        (q', out', ops)
      else (q', out, [])
  | (None, q') => (q', out, [])
  end.

(** Log lines of the monitor task. *)
Inductive monitor_log : Type :=
| warn_sensor_health_check_failed
| error_low_heap_memory.

(** One pass through the loop body of [task_system_monitor], after the
    10 s delay, at timer value [now_us] with [free_heap] bytes free. *)
Definition task_system_monitor_body (s : system_status_t)
    (dht : Dht.dht_context_t) (now_us free_heap : Z)
  : system_status_t * list monitor_log :=
  let '(s1, log1) :=
    if negb (Dht.sensor_dht_is_healthy dht now_us)
    then (system_status_record_error s APP_ERR_SENSOR_READ,
          [warn_sensor_health_check_failed])
    else (s, []) in
  (s1, log1 ++ (if free_heap <? 5000 then [error_low_heap_memory] else [])).

(** Sampler passes at the given times and lines, with nothing taking
    messages off the queue. *)
Definition sample_passes (ps : list (Z * Dht.line)) : list sampler_action :=
  map (fun p => act_sample (fst p) (snd p)) ps.

(** Number of sampler passes among the actions. *)
Definition count_samples (acts : list sampler_action) : nat :=
  List.length
    (filter (fun a => match a with act_sample _ _ => true | act_take => false end)
       acts).

(** The fan duty [app_output_set_fan_speed] settles on. *)
Definition clamp_speed (v : Z) : Z :=
  if v <? 0 then 0 else if v >? 255 then 255 else v.

(** The sampler has handed out [k] sequence numbers and the queue holds
    the messages numbered 0 to [min k 5 - 1]. *)
Definition queue_holds_first (s : sampler_state) (k : nat) : Prop :=
  sm_read_sequence s = Z.of_nat k /\
  sensor_read_count (sm_status s) = Z.of_nat k /\
  q_capacity (sm_sensor_queue s) = 5%nat /\
  map sequence (q_items (sm_sensor_queue s)) = map Z.of_nat (seq 0 (Nat.min k 5)).

End SystemApi.

(* ====================================================================== *)
(** ** Start-up of the hardware (main.c)                                   *)
(* ====================================================================== *)

Module Main.

(** [app_err_to_string]. *)
Definition app_err_to_string (err : app_err_t) : string :=
  match err with
  | APP_OK => "OK"
  | APP_ERR_INVALID_PARAM => "INVALID_PARAM"
  | APP_ERR_TIMEOUT => "TIMEOUT"
  | APP_ERR_SENSOR_READ => "SENSOR_READ"
  | APP_ERR_MQTT_PUBLISH => "MQTT_PUBLISH"
  | APP_ERR_WIFI_CONNECT => "WIFI_CONNECT"
  | APP_ERR_MQTT_CONNECT => "MQTT_CONNECT"
  | APP_ERR_NO_MEMORY => "NO_MEMORY"
  | APP_ERR_INVALID_VALUE => "INVALID_VALUE"
  | APP_ERR_UNKNOWN => "UNKNOWN"
  end.

(** [system_state_to_string]. *)
Definition system_state_to_string (st : SystemTask.system_state_t) : string :=
  match st with
  | SystemTask.SYSTEM_STATE_INIT => "INIT"
  | SystemTask.SYSTEM_STATE_HARDWARE_READY => "HARDWARE_READY"
  | SystemTask.SYSTEM_STATE_WIFI_CONNECTING => "WIFI_CONNECTING"
  | SystemTask.SYSTEM_STATE_WIFI_CONNECTED => "WIFI_CONNECTED"
  | SystemTask.SYSTEM_STATE_MQTT_CONNECTING => "MQTT_CONNECTING"
  | SystemTask.SYSTEM_STATE_MQTT_CONNECTED => "MQTT_CONNECTED"
  | SystemTask.SYSTEM_STATE_OPERATIONAL => "OPERATIONAL"
  | SystemTask.SYSTEM_STATE_ERROR => "ERROR"
  end.

(** The state of the two drivers [hardware_init] works on. *)
Record hardware : Type := mkHardware {
  hw_output : Output.output_context_t;
  hw_dht : Dht.dht_context_t
}.

(** The drivers at power-up. *)
Definition hardware_zero : hardware :=
  mkHardware OutputApi.g_output_ctx_zero Dht.g_dht_context_zero.

(** [hardware_init] with the three pins of the configuration, called at
    timer value [now_us] (the time of its test read) with the sensor line
    behaving as [ln]: the result, the drivers, and the peripheral calls of
    the output driver and of the sensor driver. *)
Definition hardware_init (h : hardware) (relay_pin fan_pin dht_pin : Z)
    (out_hw : OutputApi.init_result) (gpio_config_ok : bool)
    (now_us : Z) (ln : Dht.line)
  : app_err_t * hardware * list OutputApi.init_op * list Dht.gpio_op :=
  let '(ret, out', ops_o) :=
    OutputApi.app_output_init (hw_output h) relay_pin fan_pin out_hw in
  if negb (app_err_eqb ret APP_OK) then (ret, mkHardware out' (hw_dht h), ops_o, [])
  else
    let '(ret2, dht1, ops_d) := Dht.sensor_dht_init (hw_dht h) dht_pin gpio_config_ok in
    if negb (app_err_eqb ret2 APP_OK) then (ret2, mkHardware out' dht1, ops_o, ops_d)
    else
      let '(_, _, dht2, ops_r) :=
        Dht.sensor_dht_read dht1 (Some Dht.sensor_data_zero) now_us ln in
      (APP_OK, mkHardware out' dht2, ops_o, ops_d ++ ops_r).

(** All peripheral calls of the output driver's initialisation succeed. *)
Definition init_all_ok (hw : OutputApi.init_result) : bool :=
  OutputApi.gpio_config_ok hw && OutputApi.gpio_initial_level_ok hw
  && OutputApi.ledc_timer_config_ok hw && OutputApi.ledc_channel_config_ok hw.

(** The configurations [wifi_connection_init] and [mqtt_connection_init]
    pass to the two managers: which callbacks are set. *)
Definition main_wifi_config : Wifi.app_wifi_config_t :=
  Wifi.mkWifiConfig 5 10000 true true false.

Definition main_mqtt_config : Mqtt.mqtt_config_t :=
  Mqtt.mkMqttConfig true true true false.

(** The callbacks of main.c as the managers invoke them at timer value
    [now_us]: [on_wifi_connected] and [on_mqtt_connected] signal the task
    system; [on_wifi_disconnected], [on_mqtt_disconnected] and
    [on_mqtt_command_received] only log. *)
Definition wifi_callback (s : SystemApi.system_ctx) (now_us : Z)
    (e : Wifi.wifi_effect) : SystemApi.system_ctx :=
  match e with
  | Wifi.call_on_connected => SystemApi.system_task_signal_wifi_connected s now_us
  | _ => s
  end.

Definition mqtt_callback (s : SystemApi.system_ctx) (now_us : Z)
    (e : Mqtt.mqtt_effect) : SystemApi.system_ctx :=
  match e with
  | Mqtt.call_on_connected => SystemApi.system_task_signal_mqtt_connected s now_us
  | _ => s
  end.

(** The two managers and the task system they report to. *)
Record network : Type := mkNetwork {
  nw_wifi : Wifi.wifi_context_t;
  nw_mqtt : Mqtt.mqtt_context_t;
  nw_system : SystemApi.system_ctx
}.

Inductive network_event : Type :=
| ne_wifi (ev : Wifi.wifi_event)
| ne_mqtt (ev : Mqtt.mqtt_event).

(** An event is handled by its manager, whose callbacks run as part of
    the handler. *)
Definition network_step (n : network) (te : Z * network_event) : network :=
  match snd te with
  | ne_wifi ev =>
      let '(w, tr) := Wifi.wifi_event_handler (nw_wifi n) (fst te) ev in
      mkNetwork w (nw_mqtt n)
        (fold_left (fun s e => wifi_callback s (fst te) e) tr (nw_system n))
  | ne_mqtt ev =>
      let '(m, tr) := Mqtt.mqtt_event_handler (nw_mqtt n) (fst te) ev in
      mkNetwork (nw_wifi n) m
        (fold_left (fun s e => mqtt_callback s (fst te) e) tr (nw_system n))
  end.

Definition network_run (n : network) (evs : list (Z * network_event)) : network :=
  fold_left network_step evs n.

(** Both managers initialised by main.c, reporting to [s]. *)
Definition network_after_init (s : SystemApi.system_ctx) : network :=
  mkNetwork (WifiApi.ctx_after_init_with main_wifi_config)
    (MqttApi.ctx_after_init_with main_mqtt_config) s.

(** The event brings a connection up: an address assignment or a broker
    connect. *)
Definition is_connect_event (e : network_event) : bool :=
  match e with
  | ne_wifi (Wifi.IP_EVENT_STA_GOT_IP _) => true
  | ne_mqtt Mqtt.MQTT_EVENT_CONNECTED => true
  | _ => false
  end.

End Main.

(* ====================================================================== *)
(** * Properties                                                           *)
(* ====================================================================== *)

(** ** Fixed-width arithmetic *)

Module CommonFacts.

Lemma app_err_eqb_eq a b : app_err_eqb a b = true <-> a = b.
Proof.
  unfold app_err_eqb; split.
  - destruct a, b; simpl; intros H; try reflexivity; discriminate H.
  - intros ->. apply Z.eqb_refl.
Qed.

Lemma u32_range x : 0 <= u32 x < 2 ^ 32.
Proof. unfold u32. apply Z.mod_pos_bound. lia. Qed.

Lemma u8_range x : 0 <= u8 x < 256.
Proof. unfold u8. apply Z.mod_pos_bound. lia. Qed.

Lemma u32_small x : 0 <= x < 2 ^ 32 -> u32 x = x.
Proof. intros H. unfold u32. apply Z.mod_small. exact H. Qed.

Lemma u8_small x : 0 <= x < 256 -> u8 x = x.
Proof. intros H. unfold u8. apply Z.mod_small. exact H. Qed.

(** Unsigned subtraction of two truncated values sees only the difference. *)
Lemma u32_sub_u32 a b : u32 (u32 a - u32 b) = u32 (a - b).
Proof. unfold u32. symmetry. apply Zminus_mod. Qed.

Lemma us_to_ms_nonneg t : 0 <= t -> 0 <= us_to_ms t.
Proof. intros H. unfold us_to_ms. apply Z.quot_pos; lia. Qed.

Lemma us_to_ms_mono a b : 0 <= a <= b -> us_to_ms a <= us_to_ms b.
Proof. intros H. unfold us_to_ms. apply Z.quot_le_mono; lia. Qed.

End CommonFacts.
Import CommonFacts.

(* ---------------------------------------------------------------------- *)
(** ** Broker manager: the reconnect delay                                 *)
(* ---------------------------------------------------------------------- *)

Module MqttFacts.
Import Mqtt.

(** The delay right after a successful [app_mqtt_init]. *)
Lemma init_delay c cf c' :
  app_mqtt_init c (Some cf) init_no_fault = (APP_OK, c') ->
  initialized c = false ->
  reconnect_delay_ms c' = 1000.
Proof.
  unfold app_mqtt_init. intros H Hi. rewrite Hi in H.
  injection H as <-. reflexivity.
Qed.

(** Every connect event puts the delay back to 1000 ms. *)
Lemma connected_resets_delay c t :
  reconnect_delay_ms (fst (mqtt_event_handler c t MQTT_EVENT_CONNECTED)) = 1000.
Proof. reflexivity. Qed.

(** A disconnect doubles the delay while it is below 60000 ms and leaves it
    alone otherwise. *)
Lemma disconnected_delay c t :
  reconnect_delay_ms (fst (mqtt_event_handler c t MQTT_EVENT_DISCONNECTED)) =
  if reconnect_delay_ms c <? 60000 then u32 (reconnect_delay_ms c * 2)
  else reconnect_delay_ms c.
Proof. reflexivity. Qed.

(** The handler keeps the delay on the ladder 1000, 2000, ..., 64000. *)
Lemma handler_delay_ladder c t ev :
  In (reconnect_delay_ms c) delay_ladder ->
  In (reconnect_delay_ms (fst (mqtt_event_handler c t ev))) delay_ladder.
Proof.
  intros H. destruct ev; try exact H.
  - simpl. left. reflexivity.
  - rewrite disconnected_delay. unfold delay_ladder in *. simpl in H.
    repeat (destruct H as [H|H]; [rewrite <- H; vm_compute; tauto|]).
    contradiction.
  - simpl. destruct (data_len p >? 0); [|exact H].
    destruct (malloc_ok p); [|exact H].
    assert (Hp : reconnect_delay_ms (fst (mqtt_parse_and_queue_command c p))
                 = reconnect_delay_ms c).
    { unfold mqtt_parse_and_queue_command.
      destruct (command_queue c) as [q|]; [|reflexivity].
      destruct (parsed p) as [[ti vi]|]; [|reflexivity].
      destruct (cJSON_IsString ti && cJSON_IsNumber vi); [|reflexivity].
      destruct (xQueueSend q _ 0) as [[| |k] q']; reflexivity. }
    destruct (mqtt_parse_and_queue_command c p) as [c1 tr]. simpl in *.
    rewrite Hp. exact H.
Qed.

(** Whatever events arrive after initialisation, the delay is on the
    ladder: never below 1000 ms, never above 64000 ms. *)
Lemma delay_always_on_ladder evs :
  forall c,
    In (reconnect_delay_ms c) delay_ladder ->
    In (reconnect_delay_ms (fst (run c evs))) delay_ladder.
Proof.
  induction evs as [|[t ev] evs IH]; intros c H; simpl; [exact H|].
  pose proof (handler_delay_ladder c t ev H) as H1.
  destruct (mqtt_event_handler c t ev) as [c1 tr1]. simpl in H1.
  specialize (IH c1 H1). destruct (run c1 evs) as [c2 tr2]. exact IH.
Qed.

(** C1 (the code departs from the claim). Six broker-lost events in a row
    after initialisation take the reconnect delay through 2000, 4000,
    8000, 16000, 32000 to 64000 ms: the doubling is guarded by
    [reconnect_delay_ms < 60000] and is applied to 32000, so the delay ends
    above the 60000 ms cap that the claim (and the comment in the handler)
    promises. *)
Theorem C1_delay_exceeds_cap :
  reconnect_delay_ms ctx_after_init = 1000 /\
  map (fun n => reconnect_delay_ms
                  (fst (run ctx_after_init (disconnects_at (repeat 0 n)))))
      [1; 2; 3; 4; 5; 6; 7]%nat
  = [2000; 4000; 8000; 16000; 32000; 64000; 64000] /\
  60000 < reconnect_delay_ms
            (fst (run ctx_after_init (disconnects_at (repeat 0 6%nat)))).
Proof. vm_compute. repeat split; reflexivity. Qed.

End MqttFacts.

(* ---------------------------------------------------------------------- *)
(** ** Link manager: backoff and retry budget                              *)
(* ---------------------------------------------------------------------- *)

Module WifiFacts.
Import Wifi.

(** Split the context into its fields and unfold the handler down to
    plain records, leaving the arithmetic folded. *)
Ltac handler_unfold c :=
  destruct c as [[m tmo cb_conn cb_disc cb_fail] st ini con eg rc rd lct ip tc td tf];
  cbv [wifi_event_handler wifi_update_state set_state set_connected
       xEventGroupSetBits set_retry set_totals set_last_connected_time_ms
       set_ip_address invoke
       config state initialized connected event_group retry_count retry_delay_ms
       last_connected_time_ms ip_address total_connections total_disconnections
       total_failed_attempts
       max_retries timeout_ms on_connected on_disconnected on_connect_failed
       fst snd].

(** [run] over a concatenation. *)
Lemma run_app c evs1 evs2 :
  run c (evs1 ++ evs2) =
  let '(c1, tr1) := run c evs1 in
  let '(c2, tr2) := run c1 evs2 in
  (c2, tr1 ++ tr2).
Proof.
  revert c. induction evs1 as [|[t ev] evs1 IH]; intros c; simpl.
  - destruct (run c evs2); reflexivity.
  - destruct (wifi_event_handler c t ev) as [c1 tr1].
    rewrite IH. destruct (run c1 evs1) as [c2 tr2].
    destruct (run c2 evs2) as [c3 tr3]. now rewrite app_assoc.
Qed.

(** The handler never touches the configuration. *)
Lemma handler_config c t ev :
  config (fst (wifi_event_handler c t ev)) = config c.
Proof.
  destruct ev; handler_unfold c; try reflexivity.
  destruct (rc <? m); reflexivity.
Qed.

Lemma run_config c evs : config (fst (run c evs)) = config c.
Proof.
  revert c. induction evs as [|[t ev] evs IH]; intros c; simpl; [reflexivity|].
  pose proof (handler_config c t ev) as Hc.
  destruct (wifi_event_handler c t ev) as [c1 tr1]. simpl in Hc.
  specialize (IH c1). destruct (run c1 evs) as [c2 tr2]. simpl in *. congruence.
Qed.

(** The shifted base delay below the 32-bit boundary. *)
Lemma backoff_small k :
  0 <= k <= 21 ->
  wifi_calculate_backoff k = Z.min (1000 * 2 ^ k) 60000.
Proof.
  intros Hk. unfold wifi_calculate_backoff, WIFI_RETRY_MIN_MS, WIFI_RETRY_MAX_MS.
  rewrite Z.shiftl_mul_pow2 by lia.
  assert (Hpow : 1 <= 2 ^ k <= 2 ^ 21).
  { split.
    - apply (Z.pow_le_mono_r 2 0 k); lia.
    - apply Z.pow_le_mono_r; lia. }
  rewrite u32_small by (change (2 ^ 21) with 2097152 in Hpow;
                        change (2 ^ 32) with 4294967296; lia).
  destruct (1000 * 2 ^ k >? 60000) eqn:E.
  - apply Z.gtb_lt in E. lia.
  - rewrite Z.gtb_ltb in E. apply Z.ltb_ge in E. lia.
Qed.

(** What one link-lost event does to the retry bookkeeping. *)
Lemma disconnect_retry c t :
  let c' := fst (wifi_event_handler c t WIFI_EVENT_STA_DISCONNECTED) in
  if retry_count c <? max_retries (config c) then
    retry_count c' = u32 (retry_count c + 1) /\
    retry_delay_ms c' = wifi_calculate_backoff (retry_count c) /\
    state c' = WIFI_STATE_DISCONNECTED
  else
    retry_count c' = retry_count c /\
    retry_delay_ms c' = retry_delay_ms c /\
    state c' = WIFI_STATE_FAILED.
Proof.
  handler_unfold c. destruct (rc <? m); repeat split.
Qed.

(** Events other than link-lost and address assignment leave the retry
    count alone. *)
Lemma handler_retry_count_other c t ev :
  is_disconnect ev = false -> is_got_ip ev = false ->
  retry_count (fst (wifi_event_handler c t ev)) = retry_count c.
Proof.
  destruct ev; cbn [is_disconnect is_got_ip]; intros Hd Hg;
    try discriminate; handler_unfold c; reflexivity.
Qed.

Lemma run_cons_fst c t ev evs :
  fst (run c ((t, ev) :: evs)) = fst (run (fst (wifi_event_handler c t ev)) evs).
Proof.
  simpl. destruct (wifi_event_handler c t ev) as [c1 tr1]. simpl.
  destruct (run c1 evs) as [c2 tr2]. reflexivity.
Qed.

Lemma count_disconnects_cons t ev evs :
  count_disconnects ((t, ev) :: evs) =
  ((if is_disconnect ev then 1 else 0) + count_disconnects evs)%nat.
Proof.
  unfold count_disconnects. simpl. destruct (is_disconnect ev); reflexivity.
Qed.

(** Without an address assignment the retry count counts the link-lost
    events, as long as the budget is not exhausted. *)
Lemma retry_count_counts c evs :
  no_got_ip evs = true ->
  0 <= retry_count c ->
  retry_count c + Z.of_nat (count_disconnects evs) <= max_retries (config c) ->
  retry_count c + Z.of_nat (count_disconnects evs) < 2 ^ 32 ->
  retry_count (fst (run c evs)) = retry_count c + Z.of_nat (count_disconnects evs).
Proof.
  revert c. induction evs as [|[t ev] evs IH]; intros c Hno H0 Hmax Hw.
  - simpl. unfold count_disconnects. simpl. lia.
  - simpl in Hno. apply andb_true_iff in Hno as [Hev Hno].
    apply negb_true_iff in Hev.
    rewrite count_disconnects_cons in *. rewrite run_cons_fst.
    pose proof (handler_config c t ev) as Hcfg.
    destruct (is_disconnect ev) eqn:Hd.
    + destruct ev; try discriminate Hd.
      pose proof (disconnect_retry c t) as Hr. cbv zeta in Hr.
      assert (Hlt : (retry_count c <? max_retries (config c)) = true)
        by (apply Z.ltb_lt; lia).
      rewrite Hlt in Hr. destruct Hr as (Hrc & _ & _).
      rewrite u32_small in Hrc by lia.
      rewrite IH; rewrite ?Hrc, ?Hcfg; try assumption; lia.
    + pose proof (handler_retry_count_other c t ev Hd Hev) as Hrc.
      rewrite IH; rewrite ?Hrc, ?Hcfg; try assumption; lia.
Qed.

(** Effect counting. *)
Lemma count_effect_app e tr1 tr2 :
  count_effect e (tr1 ++ tr2) = (count_effect e tr1 + count_effect e tr2)%nat.
Proof. unfold count_effect. now rewrite filter_app, length_app. Qed.

Lemma run_cons_snd c t ev evs :
  snd (run c ((t, ev) :: evs)) =
  snd (wifi_event_handler c t ev) ++ snd (run (fst (wifi_event_handler c t ev)) evs).
Proof.
  simpl. destruct (wifi_event_handler c t ev) as [c1 tr1]. simpl.
  destruct (run c1 evs) as [c2 tr2]. reflexivity.
Qed.

(** What one link-lost event emits. *)
Lemma disconnect_trace c t :
  let tr := snd (wifi_event_handler c t WIFI_EVENT_STA_DISCONNECTED) in
  if retry_count c <? max_retries (config c) then
    count_effect esp_wifi_connect tr = 1%nat /\
    count_effect call_on_connect_failed tr = 0%nat
  else
    count_effect esp_wifi_connect tr = 0%nat /\
    count_effect call_on_connect_failed tr =
      (if on_connect_failed (config c) then 1 else 0)%nat.
Proof.
  handler_unfold c.
  destruct (rc <? m); destruct cb_disc; try destruct cb_fail; split; reflexivity.
Qed.

(** Closed form for a burst of [k] link-lost events met with [r] retries
    already used out of a budget of [m]: the first [min k (m - r)] of them
    schedule a reconnect, the others report failure. *)
Lemma burst c ts :
  let m := max_retries (config c) in
  let r := retry_count c in
  let k := Z.of_nat (List.length ts) in
  let c' := fst (run c (disconnects_at ts)) in
  let tr := snd (run c (disconnects_at ts)) in
  0 <= r <= m -> m < 2 ^ 32 ->
  retry_count c' = r + Z.min k (m - r) /\
  Z.of_nat (count_effect esp_wifi_connect tr) = Z.min k (m - r) /\
  Z.of_nat (count_effect call_on_connect_failed tr) =
    (if on_connect_failed (config c) then k - Z.min k (m - r) else 0) /\
  (1 <= k -> state c' = if k <=? m - r then WIFI_STATE_DISCONNECTED
                        else WIFI_STATE_FAILED).
Proof.
  revert c. induction ts as [|t ts IH]; intros c m r k c' tr Hr Hm.
  - subst c' tr k. simpl. repeat split; try lia.
    destruct (on_connect_failed (config c)); lia.
  - subst c' tr. unfold disconnects_at. simpl map.
    rewrite run_cons_fst, run_cons_snd. fold (disconnects_at ts).
    pose proof (disconnect_retry c t) as Hstep.
    pose proof (disconnect_trace c t) as Htrace.
    pose proof (handler_config c t WIFI_EVENT_STA_DISCONNECTED) as Hcfg.
    cbv zeta in Hstep, Htrace.
    set (c1 := fst (wifi_event_handler c t WIFI_EVENT_STA_DISCONNECTED)) in *.
    set (tr1 := snd (wifi_event_handler c t WIFI_EVENT_STA_DISCONNECTED)) in *.
    specialize (IH c1). cbv zeta in IH. rewrite Hcfg in IH.
    rewrite !count_effect_app, !Nat2Z.inj_add.
    assert (Hk : k = 1 + Z.of_nat (List.length ts))
      by (subst k; simpl List.length; lia).
    fold m r in Hstep, Htrace, IH |- *.
    destruct (r <? m) eqn:Hlt.
    + apply Z.ltb_lt in Hlt.
      destruct Hstep as (Hrc & _ & Hst). destruct Htrace as (Hc1 & Hf1).
      rewrite u32_small in Hrc by lia.
      rewrite Hrc in IH. destruct IH as (IHr & IHc & IHf & IHs); try lia.
      rewrite IHr, IHc, IHf, Hc1, Hf1.
      repeat split; try lia.
      * destruct (on_connect_failed (config c)); lia.
      * intros _. destruct ts as [|t' ts'].
        -- simpl. rewrite Hst. simpl List.length in Hk.
           destruct (k <=? m - r) eqn:E; [reflexivity|].
           apply Z.leb_gt in E. lia.
        -- rewrite IHs by (simpl List.length; lia).
           simpl List.length in Hk |- *.
           destruct (Z.of_nat (S (List.length ts')) <=? m - (r + 1)) eqn:E1;
           destruct (k <=? m - r) eqn:E2; try reflexivity;
           [apply Z.leb_le in E1; apply Z.leb_gt in E2
           |apply Z.leb_gt in E1; apply Z.leb_le in E2]; lia.
    + apply Z.ltb_ge in Hlt.
      destruct Hstep as (Hrc & _ & Hst). destruct Htrace as (Hc1 & Hf1).
      rewrite Hrc in IH. destruct IH as (IHr & IHc & IHf & IHs); try lia.
      rewrite IHr, IHc, IHf, Hc1, Hf1.
      repeat split; try lia.
      * destruct (on_connect_failed (config c)); lia.
      * intros _. destruct ts as [|t' ts'].
        -- simpl. rewrite Hst.
           destruct (k <=? m - r) eqn:E; [|reflexivity].
           apply Z.leb_le in E. lia.
        -- rewrite IHs by (simpl List.length; lia).
           simpl List.length in Hk |- *.
           destruct (Z.of_nat (S (List.length ts')) <=? m - r) eqn:E1;
           destruct (k <=? m - r) eqn:E2; try reflexivity;
           [apply Z.leb_le in E1; apply Z.leb_gt in E2
           |apply Z.leb_gt in E1; apply Z.leb_le in E2]; lia.
Qed.

(** Outside the range covered below: with 29 retries already made the
    shifted value, 1000 * 2^29 = 125 * 2^32, has no low 32 bits left. *)
Lemma backoff_at_29 : wifi_calculate_backoff 29 = 0.
Proof. vm_compute. reflexivity. Qed.

(** Address assignment resets the retry bookkeeping. *)
Lemma got_ip_resets c t a :
  let c' := fst (wifi_event_handler c t (IP_EVENT_STA_GOT_IP a)) in
  retry_count c' = 0 /\ retry_delay_ms c' = 1000 /\ config c' = config c.
Proof. handler_unfold c. repeat split. Qed.

(** C3 (as stated, refuted). The first link-lost event after
    initialisation (N = 1) schedules 1000 ms, not min(1000 * 2^1, 60000) =
    2000 ms. *)
Lemma C3_first_disconnect_is_1000 :
  retry_delay_ms (fst (run (ctx_after_init 0) (disconnects_at [0]))) = 1000 /\
  retry_delay_ms (fst (run (ctx_after_init 0) (disconnects_at [0])))
    <> Z.min (1000 * 2 ^ 1) 60000.
Proof. vm_compute. split; [reflexivity | discriminate]. Qed.

(** C3 (amended). Starting from a retry count of 0, the N-th link-lost
    event with no address assignment in between (other events may occur),
    for 1 <= N <= max_retries and N <= 22, sets the reconnect delay to
    min(1000 * 2^(N-1), 60000) ms. An address assignment resets the retry
    count to 0 (and the delay to 1000 ms), so that the next link-lost
    event again schedules 1000 ms whenever the budget allows a retry. *)
Theorem C3_backoff_of_nth_disconnect :
  forall (c : wifi_context_t) (evs : list (Z * wifi_event)) (t : Z) (N : nat)
         (c2 : wifi_context_t) (t2 a t3 : Z),
    retry_count c = 0 ->
    no_got_ip evs = true ->
    count_disconnects evs = (N - 1)%nat ->
    (1 <= N <= 22)%nat ->
    Z.of_nat N <= max_retries (config c) ->
    1 <= max_retries (config c2) ->
    retry_delay_ms
      (fst (wifi_event_handler (fst (run c evs)) t WIFI_EVENT_STA_DISCONNECTED))
      = Z.min (1000 * 2 ^ (Z.of_nat N - 1)) 60000
    /\ retry_count (fst (wifi_event_handler c2 t2 (IP_EVENT_STA_GOT_IP a))) = 0
    /\ retry_delay_ms
         (fst (wifi_event_handler
                 (fst (wifi_event_handler c2 t2 (IP_EVENT_STA_GOT_IP a)))
                 t3 WIFI_EVENT_STA_DISCONNECTED))
       = 1000.
Proof.
  intros c evs t N c2 t2 a t3 Hr0 Hno Hcnt HN Hmax Hmax2.
  assert (Hrc : retry_count (fst (run c evs)) = Z.of_nat N - 1).
  { rewrite retry_count_counts; rewrite ?Hr0, ?Hcnt; try assumption;
      try rewrite Nat2Z.inj_sub by lia; try lia. }
  split; [|split].
  - pose proof (disconnect_retry (fst (run c evs)) t) as Hstep. cbv zeta in Hstep.
    rewrite run_config, Hrc in Hstep.
    assert (Hlt : (Z.of_nat N - 1 <? max_retries (config c)) = true)
      by (apply Z.ltb_lt; lia).
    rewrite Hlt in Hstep. destruct Hstep as (_ & Hd & _).
    rewrite Hd. apply backoff_small. lia.
  - reflexivity.
  - pose proof (got_ip_resets c2 t2 a) as Hg. cbv zeta in Hg.
    destruct Hg as (Hg0 & _ & Hgc).
    pose proof (disconnect_retry
                  (fst (wifi_event_handler c2 t2 (IP_EVENT_STA_GOT_IP a))) t3) as Hstep.
    cbv zeta in Hstep. rewrite Hgc, Hg0 in Hstep.
    assert (Hlt : (0 <? max_retries (config c2)) = true) by (apply Z.ltb_lt; lia).
    rewrite Hlt in Hstep. destruct Hstep as (_ & Hd & _).
    rewrite Hd. reflexivity.
Qed.

(** The amended C3 at work: the fourth loss in a row (with a link-level
    "connected" event in between) schedules 8000 ms, and a loss following
    an address assignment schedules 1000 ms again. *)
Lemma C3_backoff_of_nth_disconnect_witness :
  retry_delay_ms
    (fst (wifi_event_handler
            (fst (run (ctx_after_init 5)
                    [(10, WIFI_EVENT_STA_DISCONNECTED); (20, WIFI_EVENT_STA_CONNECTED);
                     (30, WIFI_EVENT_STA_DISCONNECTED); (40, WIFI_EVENT_STA_DISCONNECTED)]))
            50 WIFI_EVENT_STA_DISCONNECTED))
    = Z.min (1000 * 2 ^ (Z.of_nat 4 - 1)) 60000
  /\ retry_count
       (fst (wifi_event_handler (ctx_after_init 5) 60 (IP_EVENT_STA_GOT_IP 167772161))) = 0
  /\ retry_delay_ms
       (fst (wifi_event_handler
               (fst (wifi_event_handler (ctx_after_init 5) 60
                       (IP_EVENT_STA_GOT_IP 167772161)))
               70 WIFI_EVENT_STA_DISCONNECTED))
     = 1000.
Proof.
  apply (C3_backoff_of_nth_disconnect (ctx_after_init 5)
           [(10, WIFI_EVENT_STA_DISCONNECTED); (20, WIFI_EVENT_STA_CONNECTED);
            (30, WIFI_EVENT_STA_DISCONNECTED); (40, WIFI_EVENT_STA_DISCONNECTED)]
           50 4%nat (ctx_after_init 5) 60 167772161 70).
  - reflexivity.
  - reflexivity.
  - reflexivity.
  - lia.
  - vm_compute. discriminate.
  - vm_compute. discriminate.
Defined.

(** C4 (as stated, refuted). With a budget of 3, after the start event and
    three link-lost events the retry count has reached the budget, yet the
    state is Disconnected rather than Failed, the failure callback has not
    fired, and the handler has issued a connect for each of the three
    losses on top of the initial one: a fourth attempt is under way. And
    if two more link-lost events arrive, the failure callback has fired
    twice by the end of the run. *)
Lemma C4_budget_reached_not_failed :
  let r := run (ctx_after_init 3)
             [(0, WIFI_EVENT_STA_START); (10, WIFI_EVENT_STA_DISCONNECTED);
              (20, WIFI_EVENT_STA_DISCONNECTED); (30, WIFI_EVENT_STA_DISCONNECTED)] in
  let r' := run (fst r) [(40, WIFI_EVENT_STA_DISCONNECTED);
                         (50, WIFI_EVENT_STA_DISCONNECTED)] in
  retry_count (fst r) = max_retries (config (fst r)) /\
  max_retries (config (fst r)) = 3 /\
  state (fst r) = WIFI_STATE_DISCONNECTED /\
  state (fst r) <> WIFI_STATE_FAILED /\
  count_effect call_on_connect_failed (snd r) = 0%nat /\
  count_effect esp_wifi_connect (snd r) = 4%nat /\
  state (fst r') = WIFI_STATE_FAILED /\
  count_effect call_on_connect_failed (snd r ++ snd r') = 2%nat.
Proof. vm_compute. repeat split; try reflexivity. discriminate. Qed.

(** C4 (amended). Let the manager, at retry count 0 with a budget of m
    retries, receive k link-lost events in a row. While k <= m each loss
    schedules a reconnect and the state is Disconnected. The (m+1)-th loss,
    the first to arrive with the budget used up, makes the state Failed and
    fires the failure callback (if one is set), once up to that point. From
    then on the state remains Failed and no loss schedules a reconnect: the
    number of connects issued stays at m. *)
Theorem C4_failed_when_budget_exceeded :
  forall (c : wifi_context_t) (ts : list Z) (m : Z),
    max_retries (config c) = m ->
    retry_count c = 0 ->
    0 <= m < 2 ^ 32 ->
    let k := Z.of_nat (List.length ts) in
    let c' := fst (run c (disconnects_at ts)) in
    let tr := snd (run c (disconnects_at ts)) in
    (1 <= k <= m ->
       state c' = WIFI_STATE_DISCONNECTED /\ retry_count c' = k /\
       Z.of_nat (count_effect esp_wifi_connect tr) = k /\
       count_effect call_on_connect_failed tr = 0%nat) /\
    (k = m + 1 ->
       state c' = WIFI_STATE_FAILED /\
       Z.of_nat (count_effect esp_wifi_connect tr) = m /\
       count_effect call_on_connect_failed tr =
         (if on_connect_failed (config c) then 1 else 0)%nat) /\
    (m < k ->
       state c' = WIFI_STATE_FAILED /\ retry_count c' = m /\
       Z.of_nat (count_effect esp_wifi_connect tr) = m).
Proof.
  intros c ts m Hm Hr0 Hrange k c' tr.
  pose proof (burst c ts) as B. cbv zeta in B.
  rewrite Hm, Hr0 in B. fold k c' tr in B.
  destruct B as (Br & Bc & Bf & Bs); try lia.
  rewrite Z.sub_0_r in *.
  split; [|split].
  - intros Hk. rewrite Bs by lia.
    assert (E : (k <=? m) = true) by (apply Z.leb_le; lia). rewrite E.
    repeat split; try lia.
    destruct (on_connect_failed (config c)); lia.
  - intros Hk. rewrite Bs by lia.
    assert (E : (k <=? m) = false) by (apply Z.leb_gt; lia). rewrite E.
    repeat split; try lia.
    destruct (on_connect_failed (config c)); lia.
  - intros Hk. rewrite Bs by lia.
    assert (E : (k <=? m) = false) by (apply Z.leb_gt; lia). rewrite E.
    repeat split; lia.
Qed.

(** The amended C4 at a budget of 3 with five losses in a row. *)
Lemma C4_failed_when_budget_exceeded_witness :
  let ts := [10; 20; 30; 40; 50] in
  let c' := fst (run (ctx_after_init 3) (disconnects_at ts)) in
  let tr := snd (run (ctx_after_init 3) (disconnects_at ts)) in
  state c' = WIFI_STATE_FAILED /\ retry_count c' = 3 /\
  Z.of_nat (count_effect esp_wifi_connect tr) = 3.
Proof.
  apply (C4_failed_when_budget_exceeded (ctx_after_init 3) [10; 20; 30; 40; 50] 3).
  - reflexivity.
  - reflexivity.
  - lia.
  - simpl. lia.
Defined.

(** Outside the amended claim: a further loss while Failed fires the
    failure callback again. *)
Lemma failed_callback_fires_per_loss :
  count_effect call_on_connect_failed
    (snd (run (ctx_after_init 3) (disconnects_at [10; 20; 30; 40; 50]))) = 2%nat.
Proof. reflexivity. Qed.

End WifiFacts.

(* ---------------------------------------------------------------------- *)
(** ** Sensor driver                                                       *)
(* ---------------------------------------------------------------------- *)

Module DhtFacts.
Import Dht.

Example frame_55_24 :
  frame_of_line 4 (line_of_frame 2000000 [55; 0; 24; 0; 79]) 2000000
  = Some [55; 0; 24; 0; 79].
Proof. vm_compute. reflexivity. Qed.

Example frame_all_ones :
  frame_of_line 4 (line_of_frame 0 [255; 255; 255; 255; 255]) 0
  = Some [255; 255; 255; 255; 255].
Proof. vm_compute. reflexivity. Qed.

Example frame_mixed :
  frame_of_line 4 (line_of_frame 7 [165; 90; 1; 128; 0]) 7 = Some [165; 90; 1; 128; 0].
Proof. vm_compute. reflexivity. Qed.

(** No answer: the first wait gives up 1001 us after the start signal. *)
Example silent_line_times_out :
  dht_read_raw_data 4 line_silent (Some [0; 0; 0; 0; 0]) 2000000
  = (APP_ERR_SENSOR_READ, Some [0; 0; 0; 0; 0],
     snd (fst (dht_send_start_signal 4 2000000)), 2019031).
Proof. vm_compute. reflexivity. Qed.

(** The transmission breaks off after 13 bits: a bit timeout. *)
Example truncated_line_times_out :
  fst (fst (dht_read_raw_data 4 (line_truncated 0 [255; 0; 170; 1; 82] 13)
              (Some [0; 0; 0; 0; 0]) 0))
  = (APP_ERR_SENSOR_READ, Some [255; 0; 0; 0; 0]).
Proof. vm_compute. reflexivity. Qed.

(** 55.3 %RH and 24.0 C in single precision; the timestamp is taken when
    the protocol has run, 21 ms after the call. *)
Example reading_55_3 :
  snd (fst (fst (sensor_dht_read (ctx_after_init 4) (Some sensor_data_zero)
                   2000000 (line_of_frame 2000000 [55; 3; 24; 0; 82]))))
  = Some (mkSensorData (S754_finite false 12582912 (-19))
            (S754_finite false 14496563 (-18)) 2021 true APP_OK).
Proof. vm_compute. reflexivity. Qed.

(** *** The polling loop *)

(** The fuel given to the polling loop is never used up: any additional
    fuel leaves the result unchanged. *)
Lemma wait_loop_fuel ln target timeout start :
  forall fuel t k,
    start <= t <= start + timeout + 1 ->
    (Z.to_nat (timeout + 2 - (t - start)) <= fuel)%nat ->
    wait_loop (fuel + k) ln target timeout start t
    = wait_loop fuel ln target timeout start t.
Proof.
  induction fuel as [|fuel IH]; intros t k Ht Hfuel; [lia|].
  simpl. destruct (ln t =? target); [reflexivity|].
  destruct (t - start >? timeout) eqn:E; [reflexivity|].
  rewrite Z.gtb_ltb in E. apply Z.ltb_ge in E.
  apply IH; lia.
Qed.

Lemma dht_wait_for_level_fuel ln target timeout t k :
  0 <= timeout ->
  wait_loop (Z.to_nat timeout + 2 + k) ln target timeout t t
  = dht_wait_for_level ln target timeout t.
Proof.
  intros H. unfold dht_wait_for_level. apply wait_loop_fuel; lia.
Qed.

(** The loop returns no earlier than it was entered. *)
Lemma wait_loop_time ln target timeout start :
  forall fuel t, t <= snd (wait_loop fuel ln target timeout start t).
Proof.
  induction fuel as [|fuel IH]; intros t; simpl; [lia|].
  destruct (ln t =? target); simpl; [lia|].
  destruct (t - start >? timeout); simpl; [lia|].
  specialize (IH (t + 1)). lia.
Qed.

(** *** Waiting on a known line *)

(** If the line first shows the target level [d] microseconds after the
    wait starts, and [d] is within the timeout, the wait returns then. *)
Lemma wait_loop_until ln target timeout start :
  forall (d fuel : nat) t,
    (forall k, 0 <= k < Z.of_nat d -> ln (t + k) <> target) ->
    ln (t + Z.of_nat d) = target ->
    t + Z.of_nat d - start <= timeout + 1 ->
    (d < fuel)%nat ->
    wait_loop fuel ln target timeout start t = (APP_OK, t + Z.of_nat d).
Proof.
  induction d as [|d IH]; intros fuel t Hbefore Hat Hlate Hfuel;
    (destruct fuel as [|fuel]; [lia|]); simpl wait_loop.
  - rewrite Z.add_0_r in Hat. rewrite Hat, Z.eqb_refl.
    f_equal. simpl. lia.
  - assert (Hne : (ln t =? target) = false).
    { apply Z.eqb_neq. specialize (Hbefore 0). rewrite Z.add_0_r in Hbefore.
      apply Hbefore. lia. }
    rewrite Hne.
    assert (Hgt : (t - start >? timeout) = false)
      by (rewrite Z.gtb_ltb; apply Z.ltb_ge; lia).
    rewrite Hgt.
    rewrite (IH fuel (t + 1)); try lia.
    + f_equal. lia.
    + intros k Hk. replace (t + 1 + k) with (t + (k + 1)) by lia.
      apply Hbefore. lia.
    + replace (t + 1 + Z.of_nat d) with (t + Z.of_nat (S d)) by lia. exact Hat.
Qed.

Lemma wait_until ln target t d :
  0 <= d <= 1001 ->
  (forall k, 0 <= k < d -> ln (t + k) <> target) ->
  ln (t + d) = target ->
  dht_wait_for_level ln target 1000 t = (APP_OK, t + d).
Proof.
  intros Hd Hbefore Hat. unfold dht_wait_for_level.
  rewrite <- (Z2Nat.id d) by lia.
  apply wait_loop_until; rewrite ?Z2Nat.id by lia; try assumption; lia.
Qed.

Lemma level_at_head lv dur rest k :
  0 <= k < dur -> level_at ((lv, dur) :: rest) k = lv.
Proof.
  intros H. simpl. assert (E : (k <? dur) = true) by (apply Z.ltb_lt; lia).
  rewrite E. reflexivity.
Qed.

Lemma level_at_skip lv dur rest k :
  dur <= k -> level_at ((lv, dur) :: rest) k = level_at rest (k - dur).
Proof.
  intros H. simpl. assert (E : (k <? dur) = false) by (apply Z.ltb_ge; lia).
  rewrite E. reflexivity.
Qed.

(** Waiting across one segment whose level is not the target, the next
    segment having it. *)
Lemma wait_segment ln t lv dur rest target :
  (forall k, 0 <= k -> ln (t + k) = level_at ((lv, dur) :: rest) k) ->
  lv <> target ->
  0 <= dur <= 1001 ->
  level_at rest 0 = target ->
  dht_wait_for_level ln target 1000 t = (APP_OK, t + dur) /\
  (forall k, 0 <= k -> ln (t + dur + k) = level_at rest k).
Proof.
  intros Hln Hlv Hdur Hnext. split.
  - apply wait_until; [lia | |].
    + intros k Hk. rewrite Hln by lia. rewrite level_at_head by lia. exact Hlv.
    + rewrite Hln by lia. rewrite level_at_skip by lia.
      rewrite Z.sub_diag. exact Hnext.
  - intros k Hk. rewrite <- Z.add_assoc, Hln by lia.
    rewrite level_at_skip by lia. f_equal. lia.
Qed.

(** *** Decoding the bits *)

Lemma flat_map_bits_starts_low bits tail :
  level_at tail 0 = 0 ->
  level_at (flat_map bit_segments bits ++ tail) 0 = 0.
Proof. intros H. destruct bits as [|b rest]; [exact H | reflexivity]. Qed.

(** One pass of the loop over a bit on the line: the bit is appended to
    the current byte, and the pass ends where the next low phase starts. *)
Lemma read_one_bit_on_line ln t b rest i data :
  (forall k, 0 <= k -> ln (t + k) = level_at (bit_segments b ++ rest) k) ->
  level_at rest 0 = 0 ->
  read_one_bit ln i data t
  = (APP_OK,
     store_byte data (Nat.div i 8) (pack_bit (nth (Nat.div i 8) data 0) b),
     t + total_duration (bit_segments b)) /\
  (forall k, 0 <= k ->
     ln (t + total_duration (bit_segments b) + k) = level_at rest k).
Proof.
  intros Hln Hnext. unfold bit_segments in *. simpl app in Hln.
  set (w := if b then 70 else 26) in *.
  assert (Hw : 26 <= w <= 70) by (subst w; destruct b; lia).
  destruct (wait_segment ln t 0 50 ((1, w) :: rest) 1 Hln) as [W1 L1];
    [discriminate | lia | apply level_at_head; lia |].
  destruct (wait_segment ln (t + 50) 1 w rest 0 L1) as [W2 L2];
    [discriminate | lia | exact Hnext |].
  split.
  - unfold read_one_bit. rewrite W1. simpl negb. cbv iota.
    rewrite W2. simpl negb. cbv iota.
    replace (t + 50 + w - (t + 50)) with w by lia.
    rewrite u32_small by (change (2 ^ 32) with 4294967296; lia).
    unfold total_duration. subst w. destruct b.
    + replace (t + (50 + (70 + 0))) with (t + 50 + 70) by lia. reflexivity.
    + replace (t + (50 + (26 + 0))) with (t + 50 + 26) by lia. reflexivity.
  - intros k Hk. unfold total_duration.
    replace (t + (50 + (w + 0)) + k) with (t + 50 + w + k) by lia.
    apply L2. exact Hk.
Qed.

Lemma total_duration_app a b :
  total_duration (a ++ b) = total_duration a + total_duration b.
Proof.
  induction a as [|[lv dur] a IH]; simpl; [reflexivity|]. rewrite IH. lia.
Qed.

(** The 40-bit loop over the bits on the line. *)
Lemma read_bits_on_line bits :
  forall ln t tail i data,
    (forall k, 0 <= k ->
       ln (t + k) = level_at (flat_map bit_segments bits ++ tail) k) ->
    level_at tail 0 = 0 ->
    read_bits ln (List.length bits) i data t
    = (APP_OK, pack_bits bits i data,
       t + total_duration (flat_map bit_segments bits)).
Proof.
  induction bits as [|b bits IH]; intros ln t tail i data Hln Htail.
  - simpl. f_equal. lia.
  - change (flat_map bit_segments (b :: bits))
      with (bit_segments b ++ flat_map bit_segments bits) in *.
    rewrite <- app_assoc in Hln.
    destruct (read_one_bit_on_line ln t b (flat_map bit_segments bits ++ tail) i data Hln)
      as [Hbit Hln']; [apply flat_map_bits_starts_low; exact Htail|].
    simpl List.length. simpl read_bits. rewrite Hbit.
    rewrite (IH ln _ tail (S i) _ Hln' Htail).
    simpl pack_bits. rewrite total_duration_app. f_equal. lia.
Qed.

(** A complete transmission is read back bit for bit. *)
Lemma raw_read_on_line p t0 frame :
  List.length frame = 5%nat ->
  fst (fst (dht_read_raw_data p (line_of_frame t0 frame) (Some [0; 0; 0; 0; 0]) t0))
  = (APP_OK, Some (pack_bits (flat_map byte_bits frame) 0 [0; 0; 0; 0; 0])).
Proof.
  intros Hlen.
  set (bits := flat_map byte_bits frame).
  assert (Hbits : List.length bits = 40%nat).
  { subst bits. destruct frame as [|a [|b [|c [|d [|e [|f frame]]]]]];
      try discriminate Hlen. reflexivity. }
  set (ln := line_of_frame t0 frame).
  assert (Hln : forall k, 0 <= k ->
            ln (t0 + 18000 + 30 + k) = level_at (frame_segments frame) k).
  { intros k Hk. subst ln. unfold line_of_frame, line_of_segments.
    assert (E : (t0 + 18000 + 30 + k <? t0 + 18030) = false)
      by (apply Z.ltb_ge; lia).
    rewrite E. f_equal. lia. }
  unfold frame_segments in Hln. fold bits in Hln. simpl app in Hln.
  assert (Hlow : level_at (flat_map bit_segments bits ++ [(0, 50)]) 0 = 0)
    by (apply flat_map_bits_starts_low; reflexivity).
  destruct (wait_segment ln _ 1 10 _ 0 Hln) as [W1 L1];
    [discriminate | lia | reflexivity |].
  destruct (wait_segment ln _ 0 80 _ 1 L1) as [W2 L2];
    [discriminate | lia | reflexivity |].
  destruct (wait_segment ln _ 1 80 _ 0 L2) as [W3 L3];
    [discriminate | lia | exact Hlow |].
  unfold dht_read_raw_data, dht_send_start_signal. cbv beta iota zeta.
  change (negb (app_err_eqb APP_OK APP_OK)) with false. cbv iota.
  rewrite W1. cbv beta iota zeta.
  change (negb (app_err_eqb APP_OK APP_OK)) with false. cbv iota.
  rewrite W2. cbv beta iota zeta.
  change (negb (app_err_eqb APP_OK APP_OK)) with false. cbv iota.
  rewrite W3. cbv beta iota zeta.
  change (negb (app_err_eqb APP_OK APP_OK)) with false. cbv iota.
  change 40%nat with (List.length bits) at 1 || rewrite <- Hbits.
  rewrite (read_bits_on_line bits ln _ [(0, 50)] 0%nat [0; 0; 0; 0; 0] L3 eq_refl).
  reflexivity.
Qed.

(** *** Bytes and bits *)

(** Spelling a byte as eight bits and reading them back gives the byte:
    checked for each of the 256 values. *)
Lemma all_bytes_roundtrip :
  forallb (fun n => byte_of_bits (byte_bits (Z.of_nat n)) =? Z.of_nat n)
    (seq 0 256) = true.
Proof. vm_compute. reflexivity. Qed.

Lemma byte_roundtrip_nat n :
  (n < 256)%nat -> byte_of_bits (byte_bits (Z.of_nat n)) = Z.of_nat n.
Proof.
  intros Hn.
  pose proof (proj1 (forallb_forall _ _) all_bytes_roundtrip n) as H.
  cbv beta in H. apply Z.eqb_eq. apply H. apply in_seq. lia.
Qed.

Lemma byte_of_bits_byte_bits b :
  0 <= b < 256 -> byte_of_bits (byte_bits b) = b.
Proof.
  intros Hb. rewrite <- (Z2Nat.id b) by lia. apply byte_roundtrip_nat. lia.
Qed.

(** Five bytes sent most significant bit first are packed back into the
    same five bytes. *)
Lemma pack_bits_frame b0 b1 b2 b3 b4 :
  0 <= b0 < 256 -> 0 <= b1 < 256 -> 0 <= b2 < 256 -> 0 <= b3 < 256 ->
  0 <= b4 < 256 ->
  pack_bits (flat_map byte_bits [b0; b1; b2; b3; b4]) 0 [0; 0; 0; 0; 0]
  = [b0; b1; b2; b3; b4].
Proof.
  intros H0 H1 H2 H3 H4.
  transitivity [byte_of_bits (byte_bits b0); byte_of_bits (byte_bits b1);
                byte_of_bits (byte_bits b2); byte_of_bits (byte_bits b3);
                byte_of_bits (byte_bits b4)].
  - cbv [pack_bits flat_map byte_bits map app store_byte nth Nat.div Nat.divmod fst
         byte_of_bits fold_left].
    reflexivity.
  - rewrite !byte_of_bits_byte_bits by assumption. reflexivity.
Qed.

(** Every frame of five bytes can be read: on a line carrying it, the
    protocol completes and delivers exactly these bytes. *)
Lemma every_frame_readable p t0 b0 b1 b2 b3 b4 :
  0 <= b0 < 256 -> 0 <= b1 < 256 -> 0 <= b2 < 256 -> 0 <= b3 < 256 ->
  0 <= b4 < 256 ->
  frame_of_line p (line_of_frame t0 [b0; b1; b2; b3; b4]) t0
  = Some [b0; b1; b2; b3; b4].
Proof.
  intros H0 H1 H2 H3 H4. unfold frame_of_line.
  pose proof (raw_read_on_line p t0 [b0; b1; b2; b3; b4] eq_refl) as H.
  destruct (dht_read_raw_data p (line_of_frame t0 [b0; b1; b2; b3; b4])
              (Some [0; 0; 0; 0; 0]) t0) as [[[e d] ops] te].
  cbn [fst] in H.
  pose proof (f_equal fst H) as He. pose proof (f_equal snd H) as Hd.
  cbn [fst snd] in He, Hd. subst e d.
  rewrite pack_bits_frame by assumption. reflexivity.
Qed.

(** *** The raw read *)

Lemma read_one_bit_err ln i data t :
  fst (fst (read_one_bit ln i data t)) = APP_OK \/
  fst (fst (read_one_bit ln i data t)) = APP_ERR_SENSOR_READ.
Proof.
  unfold read_one_bit.
  destruct (dht_wait_for_level ln 1 1000 t) as [r1 t1].
  destruct (negb (app_err_eqb r1 APP_OK)); simpl; auto.
  destruct (dht_wait_for_level ln 0 1000 t1) as [r2 t2].
  destruct (negb (app_err_eqb r2 APP_OK)); simpl; auto.
Qed.

Lemma read_bits_err ln n i data t :
  fst (fst (read_bits ln n i data t)) = APP_OK \/
  fst (fst (read_bits ln n i data t)) = APP_ERR_SENSOR_READ.
Proof.
  revert i data t. induction n as [|n IH]; intros i data t; simpl; auto.
  pose proof (read_one_bit_err ln i data t) as H.
  destruct (read_one_bit ln i data t) as [[e d] t']. simpl in H.
  destruct H as [-> | ->]; simpl; auto.
Qed.

(** The raw read always performs the start signal, and ends either with a
    complete buffer or with [APP_ERR_SENSOR_READ]. *)
Lemma raw_cases p ln t :
  exists ops, ops <> [] /\
    ((exists buf te, dht_read_raw_data p ln (Some [0; 0; 0; 0; 0]) t
                     = (APP_ERR_SENSOR_READ, Some buf, ops, te))
     \/ (exists d te, dht_read_raw_data p ln (Some [0; 0; 0; 0; 0]) t
                      = (APP_OK, Some d, ops, te))).
Proof.
  exists (snd (fst (dht_send_start_signal p t))).
  split; [discriminate|].
  unfold dht_read_raw_data, dht_send_start_signal.
  cbv beta iota zeta. change (negb (app_err_eqb APP_OK APP_OK)) with false. cbv iota.
  destruct (dht_wait_for_level ln 0 1000 (t + 18000 + 30)) as [r1 t1].
  destruct (negb (app_err_eqb r1 APP_OK)); [left; do 2 eexists; reflexivity|].
  destruct (dht_wait_for_level ln 1 1000 t1) as [r2 t2].
  destruct (negb (app_err_eqb r2 APP_OK)); [left; do 2 eexists; reflexivity|].
  destruct (dht_wait_for_level ln 0 1000 t2) as [r3 t3].
  destruct (negb (app_err_eqb r3 APP_OK)); [left; do 2 eexists; reflexivity|].
  pose proof (read_bits_err ln 40 0 [0; 0; 0; 0; 0] t3) as H.
  destruct (read_bits ln 40 0 [0; 0; 0; 0; 0] t3) as [[e d] t4]. simpl in H.
  destruct H as [-> | ->]; [right | left]; do 2 eexists; reflexivity.
Qed.

(** *** The three ways a call on an initialised driver can go *)

Lemma read_cases ctx out now ln :
  initialized ctx = true ->
  (interval_elapsed ctx now = false /\
   sensor_dht_read ctx (Some out) now ln
   = (APP_OK, Some (last_reading ctx), ctx, []))
  \/
  (interval_elapsed ctx now = true /\
   exists ops, ops <> [] /\
     sensor_dht_read ctx (Some out) now ln
     = (APP_ERR_SENSOR_READ, Some (invalidated out APP_ERR_SENSOR_READ),
        set_cache_error ctx APP_ERR_SENSOR_READ, ops) /\
     (frame_of_line (pin ctx) ln now = None \/
      exists d, frame_of_line (pin ctx) ln now = Some d /\
                dht_validate_data (Some d) = false))
  \/
  (interval_elapsed ctx now = true /\
   exists ops d, ops <> [] /\
     frame_of_line (pin ctx) ln now = Some d /\
     dht_validate_data (Some d) = true /\
     sensor_dht_read ctx (Some out) now ln
     = (APP_OK, Some (decoded_reading d (raw_end_time (pin ctx) ln now)),
        mkDhtContext (pin ctx) true (u32 (us_to_ms now))
          (decoded_reading d (raw_end_time (pin ctx) ln now)),
        ops)).
Proof.
  intros Hinit.
  unfold sensor_dht_read, interval_elapsed, frame_of_line, raw_end_time,
    set_cache_error.
  rewrite Hinit. simpl negb. cbv iota.
  destruct (u32 (u32 (us_to_ms now) - last_read_ms ctx) <? 1000) eqn:Hthr.
  - left. split; reflexivity.
  - right. simpl negb.
    destruct (raw_cases (pin ctx) ln now)
      as (ops & Hops & [(buf & te & Hraw) | (d & te & Hraw)]);
      rewrite Hraw.
    + left. split; [reflexivity|]. exists ops. split; [exact Hops|].
      split; [reflexivity | left; reflexivity].
    + destruct (dht_validate_data (Some d)) eqn:Hval.
      * right. split; [reflexivity|]. exists ops, d.
        split; [exact Hops|]. split; [reflexivity|]. split; [exact Hval | reflexivity].
      * left. split; [reflexivity|]. exists ops. split; [exact Hops|].
        split; [reflexivity|]. right. exists d. split; [reflexivity | exact Hval].
Qed.

(** *** Checksum and decoding *)

Lemma validate_iff b0 b1 b2 b3 b4 :
  dht_validate_data (Some [b0; b1; b2; b3; b4]) = true <->
  b4 = (b0 + b1 + b2 + b3) mod 256.
Proof.
  unfold dht_validate_data, u8. simpl nth. change (2 ^ 8) with 256.
  destruct ((b0 + b1 + b2 + b3) mod 256 =? b4) eqn:E; simpl.
  - apply Z.eqb_eq in E. split; [intros _; lia | reflexivity].
  - apply Z.eqb_neq in E. split; [discriminate | intros H; lia].
Qed.

(** What a call that gets a complete frame off the line returns. *)
Lemma read_frame_outcome :
  forall ctx out now ln b0 b1 b2 b3 b4 ret out' ctx' ops,
    initialized ctx = true ->
    interval_elapsed ctx now = true ->
    frame_of_line (pin ctx) ln now = Some [b0; b1; b2; b3; b4] ->
    sensor_dht_read ctx (Some out) now ln = (ret, out', ctx', ops) ->
    (ret = APP_OK <-> b4 = (b0 + b1 + b2 + b3) mod 256) /\
    (b4 = (b0 + b1 + b2 + b3) mod 256 ->
       ret = APP_OK /\
       exists r, out' = Some r /\ is_valid r = true /\ last_error r = APP_OK /\
         humidity r = f32_add (f32_of_Z b0) (f32_mul (f32_of_Z b1) f32_tenth) /\
         temperature r = f32_add (f32_of_Z b2) (f32_mul (f32_of_Z b3) f32_tenth)) /\
    (b4 <> (b0 + b1 + b2 + b3) mod 256 ->
       ret = APP_ERR_SENSOR_READ /\
       exists r, out' = Some r /\ is_valid r = false /\
         last_error r = APP_ERR_SENSOR_READ).
Proof.
  intros ctx out now ln b0 b1 b2 b3 b4 ret out' ctx' ops Hinit Hel Hframe Hread.
  destruct (read_cases ctx out now ln Hinit)
    as [[Hno _] | [(_ & ops1 & _ & Heq & Hwhy) | (_ & ops1 & d & _ & Hd & Hval & Heq)]].
  - congruence.
  - rewrite Heq in Hread. injection Hread as <- <- <- <-.
    assert (Hbad : b4 <> (b0 + b1 + b2 + b3) mod 256).
    { destruct Hwhy as [Hnone | (d & Hd & Hval)]; [congruence|].
      rewrite Hframe in Hd. injection Hd as <-.
      intros Hsum. apply validate_iff in Hsum. congruence. }
    split; [split; [discriminate | intros; contradiction]|].
    split; [intros; contradiction|].
    intros _. split; [reflexivity|].
    eexists. split; [reflexivity|]. split; reflexivity.
  - rewrite Heq in Hread. injection Hread as <- <- <- <-.
    rewrite Hframe in Hd. injection Hd as <-.
    apply validate_iff in Hval.
    split; [split; [intros _; exact Hval | reflexivity]|].
    split; [|intros; contradiction].
    intros _. split; [reflexivity|].
    eexists. split; [reflexivity|]. repeat split.
Qed.


(** C2. Whenever a call of [sensor_dht_read] reads a complete 5-byte frame
    from the sensor, it succeeds exactly when byte 4 equals the sum of
    bytes 0..3 modulo 256. On success the reading handed back is valid,
    with humidity byte0 + byte1 * 0.1 and temperature byte2 + byte3 * 0.1
    (in single-precision arithmetic); otherwise the call returns the
    sensor-read error and the reading handed back is marked invalid. *)
Theorem C2_decode_iff_checksum :
  forall ctx out now ln b0 b1 b2 b3 b4 ret out' ctx' ops,
    initialized ctx = true ->
    interval_elapsed ctx now = true ->
    frame_of_line (pin ctx) ln now = Some [b0; b1; b2; b3; b4] ->
    sensor_dht_read ctx (Some out) now ln = (ret, out', ctx', ops) ->
    (ret = APP_OK <-> b4 = (b0 + b1 + b2 + b3) mod 256) /\
    (b4 = (b0 + b1 + b2 + b3) mod 256 ->
       ret = APP_OK /\
       exists r, out' = Some r /\ is_valid r = true /\ last_error r = APP_OK /\
         humidity r = f32_add (f32_of_Z b0) (f32_mul (f32_of_Z b1) f32_tenth) /\
         temperature r = f32_add (f32_of_Z b2) (f32_mul (f32_of_Z b3) f32_tenth)) /\
    (b4 <> (b0 + b1 + b2 + b3) mod 256 ->
       ret = APP_ERR_SENSOR_READ /\
       exists r, out' = Some r /\ is_valid r = false /\
         last_error r = APP_ERR_SENSOR_READ).
Proof. exact read_frame_outcome. Qed.

(** The same for the line carrying any given five bytes: the hypothesis
    of a complete frame is met by every frame. *)
Lemma decode_every_frame ctx out now b0 b1 b2 b3 b4 :
  initialized ctx = true ->
  interval_elapsed ctx now = true ->
  0 <= b0 < 256 -> 0 <= b1 < 256 -> 0 <= b2 < 256 -> 0 <= b3 < 256 ->
  0 <= b4 < 256 ->
  (fst (fst (fst (sensor_dht_read ctx (Some out) now
                    (line_of_frame now [b0; b1; b2; b3; b4])))) = APP_OK
   <-> b4 = (b0 + b1 + b2 + b3) mod 256).
Proof.
  intros Hinit Hel H0 H1 H2 H3 H4.
  destruct (sensor_dht_read ctx (Some out) now (line_of_frame now [b0; b1; b2; b3; b4]))
    as [[[ret o] c] ops] eqn:E.
  exact (proj1 (read_frame_outcome ctx out now _ b0 b1 b2 b3 b4 ret o c ops Hinit Hel
                  (every_frame_readable (pin ctx) now b0 b1 b2 b3 b4 H0 H1 H2 H3 H4) E)).
Qed.

(** C2 on the line: a frame with a correct checksum and the same frame
    with byte 1 corrupted. *)
Lemma C2_decode_iff_checksum_witness :
  (APP_OK = APP_OK <-> 79 = (55 + 0 + 24 + 0) mod 256) /\
  (APP_ERR_SENSOR_READ = APP_OK <-> 79 = (55 + 1 + 24 + 0) mod 256).
Proof.
  split.
  - refine (proj1 (C2_decode_iff_checksum (ctx_after_init 4) sensor_data_zero
              2000000 (line_of_frame 2000000 [55; 0; 24; 0; 79])
              55 0 24 0 79 _ _ _ _ _ _ _ _)); vm_compute; reflexivity.
  - refine (proj1 (C2_decode_iff_checksum (ctx_after_init 4) sensor_data_zero
              2000000 (line_of_frame 2000000 [55; 1; 24; 0; 79])
              55 1 24 0 79 _ _ _ _ _ _ _ _)); vm_compute; reflexivity.
Defined.

(** *** The interval check *)

Lemma interval_not_elapsed_after ctx now1 now2 :
  last_read_ms ctx = u32 (us_to_ms now1) ->
  0 <= us_to_ms now2 - us_to_ms now1 < 1000 ->
  interval_elapsed ctx now2 = false.
Proof.
  intros Hl Hd. unfold interval_elapsed. rewrite Hl, u32_sub_u32.
  rewrite u32_small by (change (2 ^ 32) with 4294967296; lia).
  apply negb_false_iff. apply Z.ltb_lt. lia.
Qed.

(** C6. If a call of [sensor_dht_read] ran the protocol and succeeded, a
    second call made less than 1000 ms later (on the driver's millisecond
    clock) performs no pin operation at all, returns [APP_OK] and hands
    back exactly the reading the first call produced, which is the cached
    one; the driver state is unchanged. *)
Theorem C6_second_read_hits_cache :
  forall ctx out1 now1 ln1 r1 ctx1 ops1 out2 now2 ln2,
    sensor_dht_read ctx (Some out1) now1 ln1 = (APP_OK, r1, ctx1, ops1) ->
    ops1 <> [] ->
    0 <= us_to_ms now2 - us_to_ms now1 < 1000 ->
    sensor_dht_read ctx1 (Some out2) now2 ln2 = (APP_OK, r1, ctx1, []) /\
    r1 = Some (last_reading ctx1).
Proof.
  intros ctx out1 now1 ln1 r1 ctx1 ops1 out2 now2 ln2 H1 Hops Hd.
  assert (Hinit : initialized ctx = true).
  { destruct (initialized ctx) eqn:E; [reflexivity|].
    unfold sensor_dht_read in H1. rewrite E in H1. discriminate H1. }
  destruct (read_cases ctx out1 now1 ln1 Hinit)
    as [[_ Heq] | [(_ & o & _ & Heq & _) | (_ & o & d & _ & _ & _ & Heq)]];
    rewrite Heq in H1.
  - injection H1 as _ _ <-. contradiction.
  - discriminate H1.
  - injection H1 as <- <- <-.
    set (c1 := mkDhtContext (pin ctx) true (u32 (us_to_ms now1))
                 (decoded_reading d (raw_end_time (pin ctx) ln1 now1))).
    destruct (read_cases c1 out2 now2 ln2 eq_refl)
      as [[_ Heq2] | [(Hel & _) | (Hel & _)]].
    + split; [exact Heq2 | reflexivity].
    + rewrite (interval_not_elapsed_after c1 now1 now2 eq_refl Hd) in Hel.
      discriminate Hel.
    + rewrite (interval_not_elapsed_after c1 now1 now2 eq_refl Hd) in Hel.
      discriminate Hel.
Qed.

(** C6 on the line: a read at 2.000 s followed by one at 2.999 s. *)
Lemma C6_second_read_hits_cache_witness :
  let first := sensor_dht_read (ctx_after_init 4) (Some sensor_data_zero)
                 2000000 (line_of_frame 2000000 [55; 0; 24; 0; 79]) in
  sensor_dht_read (snd (fst first)) (Some sensor_data_zero) 2999999 (line_of_frame 2999999 [60; 0; 25; 0; 85])
  = (APP_OK, snd (fst (fst first)), snd (fst first), []) /\
  snd (fst (fst first)) = Some (last_reading (snd (fst first))).
Proof.
  apply (C6_second_read_hits_cache (ctx_after_init 4) sensor_data_zero
           2000000 (line_of_frame 2000000 [55; 0; 24; 0; 79])
           _ _ (snd (sensor_dht_read (ctx_after_init 4) (Some sensor_data_zero)
                       2000000 (line_of_frame 2000000 [55; 0; 24; 0; 79])))).
  - vm_compute. reflexivity.
  - vm_compute. discriminate.
  - vm_compute. split; [discriminate | reflexivity].
Defined.

(** *** Failing reads and the cache *)

(** C8 (as stated, refuted). A successful read at 2.000 s, then a read at
    5.000 s whose frame has a corrupted byte: the failing read changes the
    cached error code, so the cache no longer equals the last valid
    reading. *)
Lemma C8_cached_error_code_changes :
  let good := snd (fst (sensor_dht_read (ctx_after_init 4) (Some sensor_data_zero)
                          2000000 (line_of_frame 2000000 [55; 0; 24; 0; 79]))) in
  let res := sensor_dht_read good (Some sensor_data_zero)
               5000000 (line_of_frame 5000000 [55; 1; 24; 0; 79]) in
  let bad := snd (fst res) in
  fst (fst (fst res)) = APP_ERR_SENSOR_READ /\
  is_valid (last_reading good) = true /\
  last_error (last_reading good) = APP_OK /\
  last_error (last_reading bad) = APP_ERR_SENSOR_READ /\
  last_error (last_reading bad) <> last_error (last_reading good) /\
  sensor_dht_get_last_reading bad (Some sensor_data_zero)
    <> (APP_OK, Some (last_reading good)).
Proof. vm_compute. repeat split; try reflexivity; discriminate. Qed.

(** C8 (amended). A failing [sensor_dht_read] on an initialised driver
    leaves the cached reading's temperature, humidity, timestamp and
    validity flag, and the time of the last successful read, unchanged; it
    overwrites the cached error code with the failure's code. Afterwards
    [sensor_dht_get_last_reading] returns the previous reading with that
    error code. *)
Theorem C8_failure_keeps_data_sets_error :
  forall ctx out now ln ret out' ctx' ops buf,
    initialized ctx = true ->
    sensor_dht_read ctx (Some out) now ln = (ret, out', ctx', ops) ->
    ret <> APP_OK ->
    temperature (last_reading ctx') = temperature (last_reading ctx) /\
    humidity (last_reading ctx') = humidity (last_reading ctx) /\
    timestamp_ms (last_reading ctx') = timestamp_ms (last_reading ctx) /\
    is_valid (last_reading ctx') = is_valid (last_reading ctx) /\
    last_read_ms ctx' = last_read_ms ctx /\
    last_error (last_reading ctx') = ret /\
    sensor_dht_get_last_reading ctx' (Some buf)
      = (APP_OK, Some (with_error (last_reading ctx) ret)).
Proof.
  intros ctx out now ln ret out' ctx' ops buf Hinit Hread Hret.
  destruct (read_cases ctx out now ln Hinit)
    as [[_ Heq] | [(_ & o & _ & Heq & _) | (_ & o & d & _ & _ & _ & Heq)]];
    rewrite Heq in Hread; injection Hread as <- <- <- <-;
    try (exfalso; apply Hret; reflexivity).
  unfold sensor_dht_get_last_reading, set_cache_error. simpl.
  rewrite Hinit. simpl. repeat split.
Qed.

(** The amended C8 where the sensor does not answer at all. *)
Lemma C8_failure_keeps_data_sets_error_witness :
  let good := snd (fst (sensor_dht_read (ctx_after_init 4) (Some sensor_data_zero)
                          2000000 (line_of_frame 2000000 [55; 0; 24; 0; 79]))) in
  let bad := snd (fst (sensor_dht_read good (Some sensor_data_zero)
                         5000000 line_silent)) in
  temperature (last_reading bad) = temperature (last_reading good) /\
  humidity (last_reading bad) = humidity (last_reading good) /\
  timestamp_ms (last_reading bad) = timestamp_ms (last_reading good) /\
  is_valid (last_reading bad) = is_valid (last_reading good) /\
  last_read_ms bad = last_read_ms good /\
  last_error (last_reading bad) = APP_ERR_SENSOR_READ /\
  sensor_dht_get_last_reading bad (Some sensor_data_zero)
    = (APP_OK, Some (with_error (last_reading good) APP_ERR_SENSOR_READ)).
Proof.
  refine (C8_failure_keeps_data_sets_error _ sensor_data_zero 5000000 line_silent APP_ERR_SENSOR_READ _ _ _ sensor_data_zero _ _ _).
  - vm_compute. reflexivity.
  - vm_compute. reflexivity.
  - discriminate.
Defined.

(** *** Success reported with an invalid reading *)

Lemma init_ok p :
  0 <= p <= 39 ->
  sensor_dht_init g_dht_context_zero p true
  = (APP_OK,
     mkDhtContext p true 0 (mkSensorData f32_zero f32_zero 0 false APP_OK),
     [gpio_config_od_pullup p; gpio_set_level p 1]).
Proof.
  intros Hp. unfold sensor_dht_init.
  assert (E : (p >? 39) = false) by (rewrite Z.gtb_ltb; apply Z.ltb_ge; lia).
  rewrite E. reflexivity.
Qed.

(** C10. Right after a successful initialisation (from the zeroed driver
    state, on any valid pin), any call of [sensor_dht_read] made during the
    first 1000 ms since boot returns [APP_OK] without touching the pin, and
    the reading it hands back is the zero-initialised cache, whose validity
    flag is false. *)
Theorem C10_ok_with_invalid_reading :
  forall p out now ln,
    0 <= p <= 39 ->
    0 <= now < 1000000 ->
    let ctx := ctx_after_init p in
    fst (fst (sensor_dht_init g_dht_context_zero p true)) = APP_OK /\
    initialized ctx = true /\
    last_read_ms ctx = 0 /\
    last_reading ctx = mkSensorData f32_zero f32_zero 0 false APP_OK /\
    sensor_dht_read ctx (Some out) now ln
      = (APP_OK, Some (last_reading ctx), ctx, []) /\
    is_valid (last_reading ctx) = false.
Proof.
  intros p out now ln Hp Hnow ctx. subst ctx. unfold ctx_after_init.
  rewrite (init_ok p Hp). simpl fst. simpl snd.
  repeat split.
  unfold sensor_dht_read. simpl initialized. simpl negb. cbv iota.
  simpl last_read_ms. rewrite Z.sub_0_r.
  assert (Hms : 0 <= us_to_ms now < 1000).
  { unfold us_to_ms. split.
    - apply Z.quot_pos; lia.
    - apply Z.quot_lt_upper_bound; lia. }
  rewrite !u32_small by (change (2 ^ 32) with 4294967296;
                         rewrite ?u32_small; change (2 ^ 32) with 4294967296; lia).
  assert (E : (us_to_ms now <? 1000) = true) by (apply Z.ltb_lt; lia).
  rewrite E. reflexivity.
Qed.

(** C10 at half a second after boot, on pin 4. *)
Lemma C10_ok_with_invalid_reading_witness :
  sensor_dht_read (ctx_after_init 4) (Some sensor_data_zero) 500000 (line_of_frame 500000 [55; 0; 24; 0; 79])
  = (APP_OK, Some (last_reading (ctx_after_init 4)), ctx_after_init 4, []) /\
  is_valid (last_reading (ctx_after_init 4)) = false.
Proof.
  pose proof (C10_ok_with_invalid_reading 4 sensor_data_zero 500000 (line_of_frame 500000 [55; 0; 24; 0; 79])) as H.
  cbv zeta in H.
  destruct H as (_ & _ & _ & _ & Hread & Hvalid); [lia | lia |].
  split; [exact Hread | exact Hvalid].
Defined.

(** *** Health *)

Lemma replay_cons_fst ctx call rest :
  fst (replay ctx (call :: rest)) = fst (replay (snd (fst (read_step ctx call))) rest).
Proof.
  simpl. destruct (read_step ctx call) as [[[ret o] ctx'] ops]. simpl.
  destruct (replay ctx' rest). reflexivity.
Qed.

Lemma replay_cons_snd ctx call rest :
  snd (replay ctx (call :: rest)) =
  if fresh_decode (read_step ctx call)
  then rc_now_us call :: snd (replay (snd (fst (read_step ctx call))) rest)
  else snd (replay (snd (fst (read_step ctx call))) rest).
Proof.
  simpl. destruct (read_step ctx call) as [[[ret o] ctx'] ops]. simpl.
  destruct (replay ctx' rest). reflexivity.
Qed.

Lemma chronological_last t0 calls :
  chronological t0 calls = true -> t0 <= last_time t0 calls.
Proof.
  revert t0. induction calls as [|call rest IH]; intros t0 H; simpl in *; [lia|].
  apply andb_true_iff in H as [H1 H2]. apply Z.leb_le in H1.
  specialize (IH _ H2). lia.
Qed.

(** Health of a driver whose last successful read lies in the past, while
    the millisecond clock has not wrapped. *)
Lemma healthy_now ctx now :
  initialized ctx = true ->
  0 <= last_read_ms ctx <= us_to_ms now ->
  us_to_ms now < 2 ^ 32 ->
  (sensor_dht_is_healthy ctx now = true <->
   is_valid (last_reading ctx) = true /\ us_to_ms now - last_read_ms ctx < 30000).
Proof.
  intros Hinit Hl Hw. unfold sensor_dht_is_healthy. rewrite Hinit. simpl negb. cbv iota.
  rewrite (u32_small (us_to_ms now)) by lia.
  rewrite u32_small by lia.
  rewrite andb_true_iff, Z.ltb_lt. reflexivity.
Qed.

(** The general form: the driver is healthy after a run of calls exactly
    when the reading cached before the run is valid and recent, or some
    call of the run decoded a fresh sample recently. *)
Lemma healthy_after_replay calls :
  forall ctx t0 now,
    initialized ctx = true ->
    0 <= t0 ->
    0 <= last_read_ms ctx <= us_to_ms t0 ->
    chronological t0 calls = true ->
    last_time t0 calls <= now ->
    us_to_ms now < 2 ^ 32 ->
    (sensor_dht_is_healthy (fst (replay ctx calls)) now = true <->
     (is_valid (last_reading ctx) = true /\ us_to_ms now - last_read_ms ctx < 30000)
     \/ exists t, In t (snd (replay ctx calls)) /\ us_to_ms now - us_to_ms t < 30000).
Proof.
  induction calls as [|call rest IH]; intros ctx t0 now Hinit Ht0 Hl Hch Hlast Hw.
  - simpl in *.
    assert (Hm : us_to_ms t0 <= us_to_ms now) by (apply us_to_ms_mono; lia).
    rewrite healthy_now by (try assumption; lia).
    split; [intros H; left; exact H | intros [H | (t & [] & _)]; exact H].
  - simpl in Hch, Hlast. apply andb_true_iff in Hch as [Hle Hch].
    apply Z.leb_le in Hle.
    pose proof (chronological_last _ _ Hch) as Hlt.
    set (t := rc_now_us call) in *.
    assert (Hm0 : us_to_ms t0 <= us_to_ms t) by (apply us_to_ms_mono; lia).
    assert (Hm1 : us_to_ms t <= us_to_ms now) by (apply us_to_ms_mono; lia).
    assert (Hm2 : 0 <= us_to_ms t) by (apply us_to_ms_nonneg; lia).
    rewrite replay_cons_fst, replay_cons_snd. unfold read_step.
    destruct (read_cases ctx (rc_out call) t (rc_line call) Hinit)
      as [[_ Heq] | [(_ & o & Ho & Heq & _) | (_ & o & d & Ho & _ & _ & Heq)]];
      fold t; rewrite Heq; simpl fst; simpl snd.
    + change (fresh_decode (APP_OK, Some (last_reading ctx), ctx, [])) with false.
      cbv iota. apply (IH ctx t now); try assumption; lia.
    + change (fresh_decode
                (APP_ERR_SENSOR_READ, Some (invalidated (rc_out call) APP_ERR_SENSOR_READ),
                 set_cache_error ctx APP_ERR_SENSOR_READ, o)) with false.
      cbv iota.
      apply (IH (set_cache_error ctx APP_ERR_SENSOR_READ) t now);
        simpl; try assumption; lia.
    + assert (Hf : fresh_decode
                (APP_OK, Some (decoded_reading d (raw_end_time (pin ctx) (rc_line call) t)),
                 mkDhtContext (pin ctx) true (u32 (us_to_ms t))
                   (decoded_reading d (raw_end_time (pin ctx) (rc_line call) t)), o) = true).
      { unfold fresh_decode. destruct o; [contradiction | reflexivity]. }
      rewrite Hf.
      assert (Hu : u32 (us_to_ms t) = us_to_ms t) by (apply u32_small; lia).
      rewrite (IH (mkDhtContext (pin ctx) true (u32 (us_to_ms t))
                     (decoded_reading d (raw_end_time (pin ctx) (rc_line call) t))) t now);
        try assumption; try reflexivity; try lia; [|simpl; lia].
      simpl last_read_ms. simpl last_reading. rewrite Hu.
      split.
      * intros [[_ H] | (t' & Hin & H)]; right.
        -- exists t. split; [left; reflexivity | exact H].
        -- exists t'. split; [right; exact Hin | exact H].
      * intros [[_ H] | (t' & [<- | Hin] & H)].
        -- left. split; [reflexivity | lia].
        -- left. split; [reflexivity | exact H].
        -- right. exists t'. split; assumption.
Qed.

(** C9 (the code departs from the claim). One successful read at 2 s, then
    no further read: 2^32 ms later the 32-bit millisecond clock has come
    round to the same value, and the driver reports healthy although the
    only decode lies about 49.7 days back. *)
Theorem C9_healthy_after_clock_wrap :
  let calls := [mkReadCall 2000000 (line_of_frame 2000000 [55; 0; 24; 0; 79])
                  sensor_data_zero] in
  let now := (2 ^ 32 + 2000) * 1000 in
  snd (replay (ctx_after_init 4) calls) = [2000000] /\
  sensor_dht_is_healthy (fst (replay (ctx_after_init 4) calls)) now = true /\
  ~ (exists t, In t (snd (replay (ctx_after_init 4) calls)) /\
               us_to_ms now - us_to_ms t < 30000).
Proof.
  split; [vm_compute; reflexivity|].
  split; [vm_compute; reflexivity|].
  intros (t & Hin & Hlt).
  assert (Hds : snd (replay (ctx_after_init 4)
                       [mkReadCall 2000000 (line_of_frame 2000000 [55; 0; 24; 0; 79])
                          sensor_data_zero]) = [2000000])
    by (vm_compute; reflexivity).
  rewrite Hds in Hin. destruct Hin as [<- | []].
  vm_compute in Hlt. discriminate Hlt.
Qed.

(** Health while the millisecond clock has not wrapped. Take the driver
    right after initialisation and any chronological sequence of
    [sensor_dht_read] calls. As long as the uptime in milliseconds fits in
    32 bits (about 49.7 days), [sensor_dht_is_healthy] is true exactly when
    one of the calls decoded a fresh sample less than 30000 ms (on the
    millisecond clock) before the current time; consequently, once every
    decode is 30000 ms old or older and no new read has taken place, it is
    false. *)
Theorem healthy_iff_recent_decode :
  forall p calls now,
    0 <= p <= 39 ->
    chronological 0 calls = true ->
    last_time 0 calls <= now ->
    us_to_ms now < 2 ^ 32 ->
    let ctx := fst (replay (ctx_after_init p) calls) in
    let decodes := snd (replay (ctx_after_init p) calls) in
    (sensor_dht_is_healthy ctx now = true <->
     exists t, In t decodes /\ us_to_ms now - us_to_ms t < 30000) /\
    ((forall t, In t decodes -> 30000 <= us_to_ms now - us_to_ms t) ->
     sensor_dht_is_healthy ctx now = false).
Proof.
  intros p calls now Hp Hch Hlast Hw ctx decodes.
  assert (Hiff : sensor_dht_is_healthy ctx now = true <->
                 exists t, In t decodes /\ us_to_ms now - us_to_ms t < 30000).
  { subst ctx decodes.
    rewrite (healthy_after_replay calls (ctx_after_init p) 0 now); try assumption.
    - unfold ctx_after_init. rewrite (init_ok p Hp). simpl.
      split; [intros [[H _] | H]; [discriminate H | exact H] | intros H; right; exact H].
    - unfold ctx_after_init. rewrite (init_ok p Hp). reflexivity.
    - lia.
    - unfold ctx_after_init. rewrite (init_ok p Hp). simpl last_read_ms.
      change (us_to_ms 0) with 0. lia. }
  split; [exact Hiff|].
  intros Hold. destruct (sensor_dht_is_healthy ctx now) eqn:E; [|reflexivity].
  destruct (proj1 Hiff eq_refl) as (t & Hin & Hlt).
  specialize (Hold t Hin). lia.
Qed.

(** One read at 2 s: healthy at 31.999 s, not at 32 s. *)
Lemma healthy_iff_recent_decode_example :
  let calls := [mkReadCall 2000000 (line_of_frame 2000000 [55; 0; 24; 0; 79])
                  sensor_data_zero] in
  let ctx := fst (replay (ctx_after_init 4) calls) in
  let decodes := snd (replay (ctx_after_init 4) calls) in
  (sensor_dht_is_healthy ctx 31999999 = true <->
   exists t, In t decodes /\ us_to_ms 31999999 - us_to_ms t < 30000) /\
  sensor_dht_is_healthy ctx 32000000 = false.
Proof.
  intros calls ctx decodes. split.
  - refine (proj1 (healthy_iff_recent_decode 4 calls 31999999 _ _ _ _)).
    + lia.
    + reflexivity.
    + vm_compute. discriminate.
    + vm_compute. reflexivity.
  - refine (proj2 (healthy_iff_recent_decode 4 calls 32000000 _ _ _ _) _).
    + lia.
    + reflexivity.
    + vm_compute. discriminate.
    + vm_compute. reflexivity.
    + intros t Hin.
      assert (Hds : snd (replay (ctx_after_init 4) calls) = [2000000])
        by (vm_compute; reflexivity).
      rewrite Hds in Hin. destruct Hin as [<- | []]. vm_compute. discriminate.
Defined.

End DhtFacts.

(* ---------------------------------------------------------------------- *)
(** ** Bounded queues                                                      *)
(* ---------------------------------------------------------------------- *)

Module QueueFacts.

Lemma send_full {A} (q : queue A) x :
  is_full q = true -> xQueueSend q x 0 = (errQUEUE_FULL, q).
Proof. intros H. unfold xQueueSend. rewrite H. reflexivity. Qed.

Lemma send_room {A} (q : queue A) x t :
  is_full q = false ->
  xQueueSend q x t = (pdTRUE_sent, mkQueue (q_items q ++ [x]) (q_capacity q)).
Proof. intros H. unfold xQueueSend. rewrite H. reflexivity. Qed.

(** A send with a zero tick budget never suspends the caller. *)
Lemma send_zero_ticks_never_blocks {A} (q : queue A) x t :
  fst (xQueueSend q x 0) <> blocked t.
Proof. unfold xQueueSend. destruct (is_full q); simpl; discriminate. Qed.





End QueueFacts.
Import QueueFacts.

(* ---------------------------------------------------------------------- *)
(** ** The workers and their queues                                        *)
(* ---------------------------------------------------------------------- *)

Module TaskFacts.
Import SystemTask.

(** *** The sampler and the sensor queue *)




(** A dropped reading is reported by the warning and by nothing else. *)
Lemma sampler_body_full_log s now ln :
  is_full (sm_sensor_queue s) = true ->
  snd (task_sensor_read_body s now ln) = [warn_sensor_queue_full_dropping_reading]
  \/ snd (task_sensor_read_body s now ln) = [error_sensor_read_failed].
Proof.
  intros Hfull. unfold task_sensor_read_body.
  destruct (Dht.sensor_dht_read (sm_dht s) (Some Dht.sensor_data_zero) now ln)
    as [[[ret ro] dht'] ops].
  destruct (app_err_eqb ret APP_OK &&
            Dht.is_valid match ro with Some r => r | None => Dht.sensor_data_zero end).
  - left. rewrite send_full by exact Hfull. reflexivity.
  - right. reflexivity.
Qed.


(** *** The broker manager and the command queue *)


Lemma parse_full_log c q ty v :
  Mqtt.command_queue c = Some q -> is_full q = true ->
  snd (Mqtt.mqtt_parse_and_queue_command c (Mqtt.command_payload ty v))
  = [Mqtt.warn_queue_full_dropping_command].
Proof.
  intros Hq Hfull. unfold Mqtt.mqtt_parse_and_queue_command. rewrite Hq. simpl.
  rewrite send_full by exact Hfull. reflexivity.
Qed.










(** *** The command consumer *)






Lemma type_bytes_length ty : List.length (type_bytes_written ty) = 32%nat.
Proof.
  unfold type_bytes_written. rewrite length_app, firstn_length_le; [reflexivity|].
  rewrite length_app, repeat_length. lia.
Qed.













End TaskFacts.

(* ====================================================================== *)
(** ** The sensor driver: waits, latency, timing tolerance, life cycle    *)
(* ====================================================================== *)

Module DhtClockFacts.
Import Dht DhtApi DhtClock.

(** *** The clock of module [Dht] is the platform whose calls take no time *)

Lemma instant_wait_loop ln target timeout start :
  forall fuel t,
    DhtClock.wait_loop instant fuel ln target timeout start t
    = Dht.wait_loop fuel ln target timeout start t.
Proof.
  induction fuel as [|fuel IH]; intros t; [reflexivity|].
  cbn [DhtClock.wait_loop Dht.wait_loop instant gpio_get_level_end
       esp_timer_get_time_end ets_delay_us_end].
  rewrite IH. reflexivity.
Qed.

Lemma instant_wait_for_level ln target timeout t :
  DhtClock.dht_wait_for_level instant ln target timeout t
  = Dht.dht_wait_for_level ln target timeout t.
Proof. apply instant_wait_loop. Qed.

Lemma instant_read_one_bit ln i data t :
  DhtClock.read_one_bit instant ln i data t = Dht.read_one_bit ln i data t.
Proof.
  unfold DhtClock.read_one_bit, Dht.read_one_bit.
  rewrite instant_wait_for_level.
  destruct (Dht.dht_wait_for_level ln 1 1000 t) as [r1 t1].
  destruct (negb (app_err_eqb r1 APP_OK)); [reflexivity|].
  cbn [instant esp_timer_get_time_end]. rewrite instant_wait_for_level.
  reflexivity.
Qed.

Lemma instant_read_bits ln :
  forall n i data t,
    DhtClock.read_bits instant ln n i data t = Dht.read_bits ln n i data t.
Proof.
  induction n as [|n IH]; intros i data t; [reflexivity|].
  cbn [DhtClock.read_bits Dht.read_bits]. rewrite instant_read_one_bit.
  destruct (Dht.read_one_bit ln i data t) as [[e d] t'].
  destruct e; try reflexivity. apply IH.
Qed.

Lemma instant_read_raw_data p ln data t :
  DhtClock.dht_read_raw_data instant p ln data t = Dht.dht_read_raw_data p ln data t.
Proof.
  destruct data as [buf|]; [|reflexivity].
  unfold DhtClock.dht_read_raw_data, Dht.dht_read_raw_data,
    DhtClock.dht_send_start_signal, Dht.dht_send_start_signal.
  cbn [instant gpio_set_end ets_delay_us_end].
  cbv beta iota zeta.
  rewrite !instant_wait_for_level.
  destruct (Dht.dht_wait_for_level ln 0 1000 (t + 18000 + 30)) as [r1 t1].
  destruct (negb (app_err_eqb r1 APP_OK)); [reflexivity|].
  rewrite !instant_wait_for_level.
  destruct (Dht.dht_wait_for_level ln 1 1000 t1) as [r2 t2].
  destruct (negb (app_err_eqb r2 APP_OK)); [reflexivity|].
  rewrite !instant_wait_for_level.
  destruct (Dht.dht_wait_for_level ln 0 1000 t2) as [r3 t3].
  destruct (negb (app_err_eqb r3 APP_OK)); [reflexivity|].
  rewrite instant_read_bits. reflexivity.
Qed.

Lemma instant_progress : progress instant.
Proof. intros t. cbn. repeat split; intros; lia. Qed.

Lemma uniform_progress c : 0 <= c -> progress (uniform c).
Proof. intros Hc t. cbn. repeat split; intros; lia. Qed.

Lemma uniform_overhead c : overhead_within (uniform c) c.
Proof. intros t. cbn. repeat split; intros; lia. Qed.

(** *** The polling loop, whatever the calls cost *)

Lemma wait_loop_sound pf ln target timeout start :
  progress pf ->
  forall fuel t,
    start <= t ->
    (1 <= fuel)%nat ->
    timeout + 2 - (t - start) <= Z.of_nat fuel ->
    let r := DhtClock.wait_loop pf fuel ln target timeout start t in
    (forall extra,
        DhtClock.wait_loop pf (fuel + extra) ln target timeout start t = r) /\
    t <= snd r /\
    ((fst r = APP_OK /\ exists ts, t <= ts <= snd r /\ ln ts = target) \/
     (fst r = APP_ERR_TIMEOUT /\ start + timeout < snd r /\
      exists ts, t <= ts <= snd r /\ ln ts <> target)).
Proof.
  intros Hp. induction fuel as [|fuel IH]; intros t Hst Hf1 Hfuel; [lia|].
  destruct (Hp t) as (Hg & _).
  destruct (Hp (gpio_get_level_end pf t)) as (_ & Ht & _).
  destruct (Hp (esp_timer_get_time_end pf (gpio_get_level_end pf t)))
    as (_ & _ & _ & Hd).
  specialize (Hd 1).
  cbn [DhtClock.wait_loop Nat.add]. cbv zeta.
  destruct (ln t =? target) eqn:E.
  - apply Z.eqb_eq in E. cbn [fst snd].
    split; [reflexivity|]. split; [lia|]. left. split; [reflexivity|].
    exists t. split; [lia | exact E].
  - apply Z.eqb_neq in E.
    destruct (gpio_get_level_end pf t - start >? timeout) eqn:G.
    + rewrite Z.gtb_ltb in G. apply Z.ltb_lt in G. cbn [fst snd].
      split; [reflexivity|]. split; [lia|]. right. split; [reflexivity|].
      split; [lia|]. exists t. split; [lia | exact E].
    + rewrite Z.gtb_ltb in G. apply Z.ltb_ge in G.
      destruct (IH (ets_delay_us_end pf 1
                      (esp_timer_get_time_end pf (gpio_get_level_end pf t))))
        as (Hx & Hr & Hc); [lia | lia | lia |].
      split; [exact Hx|]. split; [lia|].
      destruct Hc as [[Hok (ts & Hts & Hl)] | [Hto [Hlate (ts & Hts & Hl)]]].
      * left. split; [exact Hok|]. exists ts. split; [lia | exact Hl].
      * right. split; [exact Hto|]. split; [exact Hlate|].
        exists ts. split; [lia | exact Hl].
Qed.

(** X1. Whatever time the platform's calls take, as long as none returns
    before it was entered and the delay lasts its microsecond,
    [dht_wait_for_level] leaves its loop within [timeout_us + 2] passes.
    It returns [APP_OK] only if a sample of the line taken between entry
    and return showed the target level, and [APP_ERR_TIMEOUT] only if a
    sample showed another level and more than [timeout_us] microseconds
    have passed since entry. *)
Theorem wait_for_level_on_any_clock pf ln target timeout t :
  progress pf ->
  0 <= timeout ->
  let r := DhtClock.dht_wait_for_level pf ln target timeout t in
  (forall extra,
      DhtClock.wait_loop pf (Z.to_nat timeout + 2 + extra) ln target timeout t
        (esp_timer_get_time_end pf t) = r) /\
  t <= snd r /\
  ((fst r = APP_OK /\ exists ts, t <= ts <= snd r /\ ln ts = target) \/
   (fst r = APP_ERR_TIMEOUT /\ t + timeout < snd r /\
    exists ts, t <= ts <= snd r /\ ln ts <> target)).
Proof.
  intros Hp Ht. destruct (Hp t) as (_ & Hs & _).
  unfold DhtClock.dht_wait_for_level.
  destruct (wait_loop_sound pf ln target timeout t Hp (Z.to_nat timeout + 2)
              (esp_timer_get_time_end pf t)) as (Hx & Hr & Hc);
    [lia | lia | lia |].
  split; [exact Hx|]. split; [lia|].
  destruct Hc as [[Hok (ts & Hts & Hl)] | [Hto [Hlate (ts & Hts & Hl)]]].
  - left. split; [exact Hok|]. exists ts. split; [lia | exact Hl].
  - right. split; [exact Hto|]. split; [exact Hlate|].
    exists ts. split; [lia | exact Hl].
Qed.

Lemma wait_for_level_on_any_clock_witness :
  fst (DhtClock.dht_wait_for_level (uniform 3) line_silent 0 1000 7) = APP_ERR_TIMEOUT /\
  7 + 1000 < snd (DhtClock.dht_wait_for_level (uniform 3) line_silent 0 1000 7).
Proof.
  destruct (wait_for_level_on_any_clock (uniform 3) line_silent 0 1000 7)
    as (_ & _ & [[_ (ts & _ & Hl)] | [H1 [H2 _]]]).
  - intros t. cbn. repeat split; intros; lia.
  - lia.
  - discriminate Hl.
  - split; [exact H1 | exact H2].
Defined.

(** *** How long a read can take *)








(** *** Decoding pulses *)









End DhtClockFacts.

Module DhtApiFacts.
Import Dht DhtApi.

(** *** The driver's life cycle *)

Lemma read_keeps_pin ctx out now ln :
  pin (snd (fst (sensor_dht_read ctx out now ln))) = pin ctx /\
  initialized (snd (fst (sensor_dht_read ctx out now ln))) = initialized ctx.
Proof.
  destruct out as [out|]; [|split; reflexivity].
  destruct (initialized ctx) eqn:Hinit.
  - destruct (DhtFacts.read_cases ctx out now ln Hinit)
      as [[_ H] | [[_ (ops & _ & H & _)] | [_ (ops & d & _ & _ & _ & H)]]];
      rewrite H; cbn [fst snd pin initialized set_cache_error]; auto.
  - unfold sensor_dht_read. rewrite Hinit. cbn. auto.
Qed.

Lemma init_keeps_initialised ctx p ok :
  initialized ctx = true -> snd (fst (sensor_dht_init ctx p ok)) = ctx.
Proof.
  intros H. unfold sensor_dht_init. rewrite H.
  destruct (p >? 39); reflexivity.
Qed.

Lemma step_keeps_pin ctx c :
  initialized ctx = true ->
  initialized (dht_call_step ctx c) = true /\
  pin (dht_call_step ctx c) = pin ctx.
Proof.
  intros H. destruct c as [p ok | out now ln | out | now |]; cbn [dht_call_step];
    try (split; [exact H | reflexivity]).
  - rewrite init_keeps_initialised by exact H. split; [exact H | reflexivity].
  - destruct (read_keeps_pin ctx out now ln) as [Hp Hi].
    rewrite Hi, Hp. split; [exact H | reflexivity].
Qed.

Lemma calls_keep_pin calls :
  forall ctx, initialized ctx = true ->
    initialized (dht_calls ctx calls) = true /\
    pin (dht_calls ctx calls) = pin ctx.
Proof.
  induction calls as [|c calls IH]; intros ctx H; [split; [exact H | reflexivity]|].
  destruct (step_keeps_pin ctx c H) as [Hi Hp].
  destruct (IH (dht_call_step ctx c) Hi) as [Hi' Hp'].
  unfold dht_calls in *. cbn [fold_left]. rewrite Hi', Hp', Hp. split; reflexivity.
Qed.

(** X4. The pin is fixed by the first successful initialisation. Whatever
    calls follow, including further [sensor_dht_init] calls naming another
    pin or failing to configure it, the driver stays initialised and
    [sensor_dht_get_pin] keeps returning the first pin. *)
Theorem pin_fixed_by_first_init p calls :
  0 <= p <= 39 ->
  initialized (dht_calls (ctx_after_init p) calls) = true /\
  sensor_dht_get_pin (dht_calls (ctx_after_init p) calls) = p.
Proof.
  intros Hp. unfold ctx_after_init. rewrite (DhtFacts.init_ok p Hp). cbn [fst snd].
  destruct (calls_keep_pin calls
              (mkDhtContext p true 0 (mkSensorData f32_zero f32_zero 0 false APP_OK))
              eq_refl) as [Hi Hpin].
  unfold sensor_dht_get_pin. rewrite Hi. split; [reflexivity | exact Hpin].
Qed.

Lemma pin_fixed_by_first_init_witness :
  0 <= 4 <= 39 /\
  sensor_dht_get_pin
    (dht_calls (ctx_after_init 4)
       [call_init 17 true; call_read (Some sensor_data_zero) 5000000 line_silent;
        call_init 99 false; call_get_pin]) = 4.
Proof.
  split; [lia|]. apply (pin_fixed_by_first_init 4); lia.
Defined.

Lemma step_stays_uninitialised ctx c :
  initialized ctx = false -> is_good_init c = false ->
  initialized (dht_call_step ctx c) = false.
Proof.
  intros H Hc. destruct c as [p ok | out now ln | out | now |]; cbn [dht_call_step];
    try exact H.
  - unfold sensor_dht_init. cbn [is_good_init] in Hc.
    destruct (p >? 39); [exact H|]. cbn [negb andb] in Hc. subst ok.
    rewrite H. reflexivity.
  - destruct (read_keeps_pin ctx out now ln) as [_ Hi]. rewrite Hi. exact H.
Qed.

Lemma calls_stay_uninitialised calls :
  forall ctx, initialized ctx = false -> existsb is_good_init calls = false ->
    initialized (dht_calls ctx calls) = false.
Proof.
  induction calls as [|c calls IH]; intros ctx H Hc; [exact H|].
  cbn [existsb] in Hc. apply orb_false_elim in Hc. destruct Hc as [Hc Hrest].
  unfold dht_calls in *. cbn [fold_left].
  apply IH; [apply step_stays_uninitialised; assumption | exact Hrest].
Qed.

(** X5. Without a successful initialisation the driver gives no service:
    after any calls among which no [sensor_dht_init] had a pin of at most
    39 and a working pin configuration, [sensor_dht_get_pin] returns 0xFF,
    the health check is false, and reads and cache queries return
    [APP_ERR_UNKNOWN], leaving the caller's buffer, the driver state and
    the pin untouched. *)
Theorem no_init_no_service calls out now ln :
  existsb is_good_init calls = false ->
  sensor_dht_get_pin (dht_calls g_dht_context_zero calls) = 255 /\
  sensor_dht_is_healthy (dht_calls g_dht_context_zero calls) now = false /\
  sensor_dht_read (dht_calls g_dht_context_zero calls) (Some out) now ln
  = (APP_ERR_UNKNOWN, Some out, dht_calls g_dht_context_zero calls, []) /\
  sensor_dht_get_last_reading (dht_calls g_dht_context_zero calls) (Some out)
  = (APP_ERR_UNKNOWN, Some out).
Proof.
  intros Hc.
  pose proof (calls_stay_uninitialised calls g_dht_context_zero eq_refl Hc) as H.
  unfold sensor_dht_get_pin, sensor_dht_is_healthy, sensor_dht_read,
    sensor_dht_get_last_reading.
  rewrite H. repeat split; reflexivity.
Qed.

Lemma no_init_no_service_witness :
  sensor_dht_get_pin
    (dht_calls g_dht_context_zero
       [call_init 40 true; call_init 4 false;
        call_read (Some sensor_data_zero) 2000000 line_silent]) = 255.
Proof.
  apply (no_init_no_service _ sensor_data_zero 0 line_silent). reflexivity.
Defined.

(** *** What an [APP_OK] return delivers *)

Lemma consistent_step ctx t0 call :
  cache_consistent ctx t0 ->
  0 <= t0 <= rc_now_us call ->
  us_to_ms (rc_now_us call) < 2 ^ 32 ->
  cache_consistent (read_ctx ctx call) (rc_now_us call) /\
  match read_result ctx call with
  | (APP_OK, Some r) => (rc_now_us call <? 1000000) || valid_and_clean r = true
  | (APP_OK, None) => False
  | _ => True
  end.
Proof.
  intros (Hinit & Hlr & Hval & Herr) Ht Hwrap.
  destruct call as [now ln out]. cbn [rc_now_us] in *.
  pose proof (us_to_ms_mono t0 now Ht) as Hmono.
  assert (Hms : u32 (us_to_ms now) = us_to_ms now) by (apply u32_small; lia).
  assert (Hdiff : u32 (us_to_ms now - last_read_ms ctx)
                  = us_to_ms now - last_read_ms ctx) by (apply u32_small; lia).
  unfold read_ctx, read_result, read_step. cbn [rc_now_us rc_line rc_out].
  destruct (DhtFacts.read_cases ctx out now ln Hinit)
    as [[Hiv H] | [[Hiv (ops & _ & H & _)] | [Hiv (ops & d & _ & _ & _ & H)]]];
    rewrite H; cbn [fst snd]; unfold interval_elapsed in Hiv;
    rewrite Hms, Hdiff in Hiv.
  - apply negb_false_iff in Hiv. apply Z.ltb_lt in Hiv.
    split.
    + repeat split; try assumption; try lia.
      intros He. specialize (Herr He). lia.
    + destruct (now <? 1000000) eqn:Hearly; [reflexivity|].
      apply Z.ltb_ge in Hearly. cbn [orb].
      assert (1000 <= us_to_ms now).
      { change 1000 with (us_to_ms 1000000). apply us_to_ms_mono. lia. }
      unfold valid_and_clean.
      destruct (is_valid (last_reading ctx)); [|specialize (Hval eq_refl); lia].
      cbn [andb]. apply app_err_eqb_eq.
      destruct (last_error (last_reading ctx)); try reflexivity;
        (assert (Hc : last_read_ms ctx + 1000 <= us_to_ms t0)
           by (apply Herr; discriminate); lia).
  - apply negb_true_iff in Hiv. apply Z.ltb_ge in Hiv.
    split; [|exact I].
    unfold cache_consistent, set_cache_error, with_error.
    cbn [initialized last_read_ms last_reading is_valid last_error].
    repeat split; try assumption; try lia.
  - split.
    + unfold cache_consistent, decoded_reading.
      cbn [initialized last_read_ms last_reading is_valid last_error].
      rewrite Hms. split; [reflexivity|].
      split; [split; [apply us_to_ms_nonneg; lia | lia]|].
      split; [intros Hc; discriminate Hc | intros Hc; exfalso; apply Hc; reflexivity].
    + apply orb_true_r.
Qed.

Lemma consistent_calls calls :
  forall ctx t0,
    cache_consistent ctx t0 -> 0 <= t0 ->
    chronological t0 calls = true ->
    before_wrap calls = true ->
    ok_calls_deliver valid_and_clean 1000000 ctx calls = true.
Proof.
  induction calls as [|call calls IH]; intros ctx t0 Hinv Ht0 Hchr Hwrap;
    [reflexivity|].
  cbn [chronological] in Hchr. apply andb_prop in Hchr. destruct Hchr as [Hle Hchr].
  apply Z.leb_le in Hle.
  unfold before_wrap in Hwrap. cbn [forallb] in Hwrap.
  apply andb_prop in Hwrap. destruct Hwrap as [Hw Hwrap]. apply Z.ltb_lt in Hw.
  destruct (consistent_step ctx t0 call Hinv (conj Ht0 Hle) Hw) as [Hinv' Hres].
  cbn [ok_calls_deliver]. apply andb_true_intro. split.
  - destruct (read_result ctx call) as [e [r|]]; destruct e; try reflexivity;
      try exact Hres. contradiction.
  - apply (IH _ (rc_now_us call)); try assumption. lia.
Qed.

(** X6. After the first second, [APP_OK] means a good reading. For calls
    made in timer order on a freshly initialised driver, before the 32-bit
    millisecond counter wraps: every [sensor_dht_read] made at 1 s after
    boot or later that returns [APP_OK] hands back a reading whose
    validity flag is true and whose error code is [APP_OK], whether it was
    decoded by this call or served from the cache. *)
Theorem ok_means_valid_after_first_second p calls :
  0 <= p <= 39 ->
  chronological 0 calls = true ->
  before_wrap calls = true ->
  ok_calls_deliver valid_and_clean 1000000 (ctx_after_init p) calls = true.
Proof.
  intros Hp Hchr Hwrap.
  apply (consistent_calls calls _ 0); try assumption; [|lia].
  unfold ctx_after_init. rewrite (DhtFacts.init_ok p Hp). cbn [fst snd].
  unfold cache_consistent.
  cbn [initialized last_read_ms last_reading is_valid last_error].
  change (us_to_ms 0) with 0.
  split; [reflexivity|]. split; [lia|].
  split; [reflexivity | intros Hc; exfalso; apply Hc; reflexivity].
Qed.

Lemma ok_means_valid_after_first_second_witness :
  ok_calls_deliver valid_and_clean 1000000 (ctx_after_init 4)
    [mkReadCall 500000 line_silent sensor_data_zero;
     mkReadCall 2000000 (line_of_frame 2000000 [55; 3; 24; 6; 88]) sensor_data_zero;
     mkReadCall 2500000 line_silent sensor_data_zero;
     mkReadCall 4000000 line_silent sensor_data_zero] = true.
Proof.
  apply ok_means_valid_after_first_second; [lia | reflexivity | reflexivity].
Defined.

End DhtApiFacts.

(* ====================================================================== *)
(** ** Wrapping counters                                                   *)
(* ====================================================================== *)

Module WordFacts.

Lemma u32_add_l a b : u32 (u32 a + b) = u32 (a + b).
Proof. unfold u32. apply Z.add_mod_idemp_l. lia. Qed.

Lemma u32_add_r a b : u32 (a + u32 b) = u32 (a + b).
Proof. unfold u32. apply Z.add_mod_idemp_r. lia. Qed.

Lemma u32_idem a : u32 (u32 a) = u32 a.
Proof. unfold u32. apply Z.mod_mod. lia. Qed.

Lemma u8_idem a : u8 (u8 a) = u8 a.
Proof. unfold u8. apply Z.mod_mod. lia. Qed.

End WordFacts.
Import WordFacts.

(* ====================================================================== *)
(** ** Strings and bounded copies                                         *)
(* ====================================================================== *)

Module StringFacts.

Lemma string_length_app (s1 s2 : string) :
  String.length (s1 ++ s2) = (String.length s1 + String.length s2)%nat.
Proof. induction s1 as [|a s1 IH]; cbn; [reflexivity | now rewrite IH]. Qed.

(** A copy bounded by at least the length copies everything. *)
Lemma substring_all (s : string) :
  forall n, (String.length s <= n)%nat -> substring 0 n s = s.
Proof.
  induction s as [|a s IH]; intros n H.
  - destruct n; reflexivity.
  - destruct n as [|n]; cbn in H; [lia|]. cbn. rewrite IH by lia. reflexivity.
Qed.

Lemma substring_length_le (s : string) :
  forall n, (String.length (substring 0 n s) <= n)%nat.
Proof.
  induction s as [|a s IH]; intros n.
  - destruct n; cbn; lia.
  - destruct n as [|n]; cbn; [lia|]. specialize (IH n). lia.
Qed.

(** Cutting twice to the same bound is cutting once. *)
Lemma substring_idem (s : string) n :
  substring 0 n (substring 0 n s) = substring 0 n s.
Proof. apply substring_all, substring_length_le. Qed.

End StringFacts.
Import StringFacts.

(* ====================================================================== *)
(** ** The link manager: event bits, bounds, counters, address string     *)
(* ====================================================================== *)

Module WifiApiFacts.
Import Wifi WifiApi.

Section RunInvariant.

Variable P : wifi_context_t -> Prop.
Hypothesis P_step : forall c t ev, P c -> P (fst (wifi_event_handler c t ev)).

Lemma run_preserves evs : forall c, P c -> P (fst (run c evs)).
Proof.
  induction evs as [|[t ev] evs IH]; intros c H; [exact H|].
  rewrite WifiFacts.run_cons_fst. apply IH, P_step, H.
Qed.

End RunInvariant.

Lemma run_app_fst c evs1 evs2 :
  fst (run c (evs1 ++ evs2)) = fst (run (fst (run c evs1)) evs2).
Proof.
  rewrite WifiFacts.run_app. destruct (run c evs1) as [c1 tr1]. cbn [fst].
  destruct (run c1 evs2) as [c2 tr2]. reflexivity.
Qed.

Lemma handler_initialized c t ev :
  initialized (fst (wifi_event_handler c t ev)) = initialized c.
Proof.
  destruct ev; WifiFacts.handler_unfold c; try reflexivity.
  destruct (rc <? m); reflexivity.
Qed.

Lemma init_initialised cf : initialized (ctx_after_init_with cf) = true.
Proof. reflexivity. Qed.

(** *** Event bits are only ever set *)

Lemma land_lor_keeps x b k : Z.land x k <> 0 -> Z.land (Z.lor x b) k <> 0.
Proof.
  intros H. rewrite Z.land_lor_distr_l. intros E.
  apply Z.lor_eq_0_iff in E. destruct E as [E _]. contradiction.
Qed.

Lemma handler_keeps_bits c t ev k :
  Z.land (event_group c) k <> 0 ->
  Z.land (event_group (fst (wifi_event_handler c t ev))) k <> 0.
Proof.
  destruct ev; WifiFacts.handler_unfold c; intros H; try exact H.
  - destruct (rc <? m); cbn [fst event_group]; repeat apply land_lor_keeps; exact H.
  - apply land_lor_keeps. exact H.
Qed.

Lemma got_ip_sets_bit c t a :
  Z.land (event_group (fst (wifi_event_handler c t (IP_EVENT_STA_GOT_IP a))))
    WIFI_CONNECTED_BIT <> 0.
Proof.
  WifiFacts.handler_unfold c. rewrite Z.land_lor_distr_l.
  change (Z.land WIFI_CONNECTED_BIT WIFI_CONNECTED_BIT) with 1.
  intros E. apply Z.lor_eq_0_iff in E. destruct E as [_ E]. discriminate E.
Qed.

(** X7. The connected bit is never cleared. Once an address has been
    assigned, [app_wifi_wait_connected] returns [APP_OK] at once, whatever
    events follow: also after the link was lost again and after the retry
    budget was used up, when the manager itself reports the link as
    down. *)
Theorem wait_connected_ok_once_connected cf evs1 t addr evs2 tmo at_wake :
  fst (app_wifi_wait_connected
         (fst (run (ctx_after_init_with cf)
                 (evs1 ++ (t, IP_EVENT_STA_GOT_IP addr) :: evs2)))
         tmo at_wake) = APP_OK.
Proof.
  rewrite run_app_fst, WifiFacts.run_cons_fst.
  set (c1 := fst (run (ctx_after_init_with cf) evs1)).
  set (c2 := fst (wifi_event_handler c1 t (IP_EVENT_STA_GOT_IP addr))).
  assert (Hini : initialized (fst (run c2 evs2)) = true).
  { apply (run_preserves (fun c => initialized c = true)).
    - intros c t' ev H. rewrite handler_initialized. exact H.
    - subst c2. rewrite handler_initialized. subst c1.
      apply (run_preserves (fun c => initialized c = true)).
      + intros c t' ev H. rewrite handler_initialized. exact H.
      + apply init_initialised. }
  assert (Hbit : Z.land (event_group (fst (run c2 evs2))) WIFI_CONNECTED_BIT <> 0).
  { apply (run_preserves (fun c => Z.land (event_group c) WIFI_CONNECTED_BIT <> 0)).
    - intros c t' ev H. apply handler_keeps_bits. exact H.
    - apply got_ip_sets_bit. }
  unfold app_wifi_wait_connected, xEventGroupWaitBits. rewrite Hini. cbn [negb].
  assert (Hany : Z.land (event_group (fst (run c2 evs2)))
                   (Z.lor WIFI_CONNECTED_BIT WIFI_FAIL_BIT) <> 0).
  { rewrite Z.land_lor_distr_r. intros E.
    apply Z.lor_eq_0_iff in E. destruct E as [E _]. contradiction. }
  apply Z.eqb_neq in Hany. rewrite Hany. cbn [negb].
  apply Z.eqb_neq in Hbit. rewrite Hbit. reflexivity.
Qed.

(** *** The connected flag *)

Lemma handler_connected c t ev :
  connected (fst (wifi_event_handler c t ev)) = link_up_after (connected c) [(t, ev)].
Proof.
  destruct ev; WifiFacts.handler_unfold c; try reflexivity.
  destruct (rc <? m); reflexivity.
Qed.

Lemma run_connected evs :
  forall c, connected (fst (run c evs)) = link_up_after (connected c) evs.
Proof.
  induction evs as [|[t ev] evs IH]; intros c; [reflexivity|].
  rewrite WifiFacts.run_cons_fst, IH, handler_connected. reflexivity.
Qed.

Lemma link_up_after_app up evs1 evs2 :
  link_up_after up (evs1 ++ evs2) = link_up_after (link_up_after up evs1) evs2.
Proof. unfold link_up_after. apply fold_left_app. Qed.

Lemma link_up_quiet evs :
  forall up,
    forallb (fun p => negb (is_link_down (snd p))) evs = true ->
    up = true -> link_up_after up evs = true.
Proof.
  induction evs as [|[t ev] evs IH]; intros up Hq Hup; [exact Hup|].
  cbn [forallb snd] in Hq. apply andb_prop in Hq. destruct Hq as [Hev Hq].
  unfold link_up_after in *. cbn [fold_left snd].
  apply IH; [exact Hq|]. destruct ev; try exact Hup; try reflexivity; discriminate Hev.
Qed.

Lemma link_up_iff evs :
  link_up_after false evs = true <->
  exists evs1 t addr evs2,
    evs = evs1 ++ (t, IP_EVENT_STA_GOT_IP addr) :: evs2 /\
    forallb (fun p => negb (is_link_down (snd p))) evs2 = true.
Proof.
  split.
  - induction evs as [|[t ev] evs IH] using rev_ind; [discriminate|].
    rewrite link_up_after_app. unfold link_up_after at 1. cbn [fold_left snd].
    intros H.
    assert (Hcarry : forall e,
              is_link_down e = false ->
              link_up_after false evs = true ->
              exists evs1 t1 a1 evs2,
                evs ++ [(t, e)] = evs1 ++ (t1, IP_EVENT_STA_GOT_IP a1) :: evs2 /\
                forallb (fun p => negb (is_link_down (snd p))) evs2 = true).
    { intros e He Hup. destruct (IH Hup) as (evs1 & t1 & a1 & evs2 & -> & Hq).
      exists evs1, t1, a1, (evs2 ++ [(t, e)]).
      split; [rewrite <- app_assoc; reflexivity|].
      rewrite forallb_app, Hq. cbn [forallb snd]. rewrite He. reflexivity. }
    destruct ev as [ | | | id | addr | | id | ]; try discriminate H;
      try (apply Hcarry; [reflexivity | exact H]).
    exists evs, t, addr, []. split; reflexivity.
  - intros (evs1 & t & addr & evs2 & -> & Hq).
    rewrite link_up_after_app. unfold link_up_after at 1. cbn [fold_left snd].
    apply (link_up_quiet evs2 _ Hq).
    unfold link_up_after. reflexivity.
Qed.

(** X8. When the link counts as up. After initialisation and any sequence
    of events, [app_wifi_is_connected] is true exactly when an address
    assignment has been received and neither a link-lost nor an
    address-lost event has arrived since. Association with the access
    point ([WIFI_EVENT_STA_CONNECTED]) alone never makes the link count as
    up, and reaching the FAILED state never takes it down. *)
Theorem is_connected_tracks_events cf evs :
  app_wifi_is_connected (fst (run (ctx_after_init_with cf) evs)) = true <->
  exists evs1 t addr evs2,
    evs = evs1 ++ (t, IP_EVENT_STA_GOT_IP addr) :: evs2 /\
    forallb (fun p => negb (is_link_down (snd p))) evs2 = true.
Proof.
  unfold app_wifi_is_connected.
  assert (Hini : initialized (fst (run (ctx_after_init_with cf) evs)) = true).
  { apply (run_preserves (fun c => initialized c = true)).
    - intros c t' ev H. rewrite handler_initialized. exact H.
    - apply init_initialised. }
  rewrite Hini, run_connected. cbn [andb]. apply link_up_iff.
Qed.

(** *** Bounds on the retry state *)

Lemma backoff_range k :
  0 <= wifi_calculate_backoff k <= WIFI_RETRY_MAX_MS.
Proof.
  unfold wifi_calculate_backoff.
  pose proof (u32_range (Z.shiftl WIFI_RETRY_MIN_MS k)) as H.
  destruct (u32 (Z.shiftl WIFI_RETRY_MIN_MS k) >? WIFI_RETRY_MAX_MS) eqn:E.
  - unfold WIFI_RETRY_MAX_MS. lia.
  - rewrite Z.gtb_ltb in E. apply Z.ltb_ge in E. lia.
Qed.

Lemma handler_retry_bounded c t ev :
  retry_bounded c -> retry_bounded (fst (wifi_event_handler c t ev)).
Proof.
  unfold retry_bounded. intros (Hm & Hr & Hd).
  pose proof (WifiFacts.handler_config c t ev) as Hcfg. rewrite Hcfg.
  destruct ev;
    try (rewrite WifiFacts.handler_retry_count_other by reflexivity);
    try (WifiFacts.handler_unfold c;
         cbn [max_retries config retry_count retry_delay_ms] in *;
         repeat split; assumption || lia).
  - pose proof (WifiFacts.disconnect_retry c t) as H. cbv zeta in H.
    destruct (retry_count c <? max_retries (config c)) eqn:E.
    + apply Z.ltb_lt in E. destruct H as (H1 & H2 & _). rewrite H1, H2.
      rewrite u32_small by lia. split; [lia|]. split; [lia | apply backoff_range].
    + destruct H as (H1 & H2 & _). rewrite H1, H2. repeat split; lia.
  - destruct (WifiFacts.got_ip_resets c t addr) as (H1 & H2 & _).
    rewrite H1, H2. unfold WIFI_RETRY_MAX_MS. repeat split; lia.
Qed.

(** X9. Bounds of the retry state. After initialisation with a retry
    budget that fits 32 bits, and any sequence of events, the budget in
    force is at least 1 (0 selects the default of 15), the retry count
    never exceeds it, and the reconnect delay never exceeds 60000 ms. *)
Theorem retry_state_bounded cf evs :
  0 <= max_retries cf < 2 ^ 32 ->
  1 <= max_retries (config (fst (run (ctx_after_init_with cf) evs))) /\
  0 <= retry_count (fst (run (ctx_after_init_with cf) evs))
    <= max_retries (config (fst (run (ctx_after_init_with cf) evs))) /\
  0 <= retry_delay_ms (fst (run (ctx_after_init_with cf) evs)) <= 60000.
Proof.
  intros Hm.
  assert (Hcfg : max_retries (config (ctx_after_init_with cf))
                 = if max_retries cf =? 0 then 15 else max_retries cf).
  { unfold ctx_after_init_with, app_wifi_init. cbn [initialized g_wifi_ctx_zero].
    destruct cf as [mr tm c1 c2 c3]. cbn [max_retries timeout_ms].
    destruct (mr =? 0); cbn [max_retries timeout_ms];
      destruct (tm =? 0); reflexivity. }
  assert (Hinit : retry_bounded (ctx_after_init_with cf)).
  { unfold retry_bounded. rewrite Hcfg.
    change (retry_count (ctx_after_init_with cf)) with 0.
    change (retry_delay_ms (ctx_after_init_with cf)) with 1000.
    unfold WIFI_RETRY_MAX_MS.
    destruct (max_retries cf =? 0) eqn:E; [lia|]. apply Z.eqb_neq in E. lia. }
  pose proof (run_preserves retry_bounded handler_retry_bounded evs _ Hinit)
    as (H1 & H2 & H3).
  rewrite WifiFacts.run_config in *. rewrite Hcfg in *.
  unfold WIFI_RETRY_MAX_MS in H3.
  split; [|split; assumption].
  destruct (max_retries cf =? 0) eqn:E; [lia|]. apply Z.eqb_neq in E. lia.
Qed.

Lemma retry_state_bounded_witness :
  0 <= 0 < 2 ^ 32 /\
  retry_delay_ms
    (fst (run (ctx_after_init_with (mkWifiConfig 0 0 false false false))
            (disconnects_at [1; 2; 3; 4; 5; 6; 7; 8]))) <= 60000.
Proof.
  split; [lia|].
  apply (retry_state_bounded (mkWifiConfig 0 0 false false false)
           (disconnects_at [1; 2; 3; 4; 5; 6; 7; 8])).
  cbn [max_retries]. lia.
Defined.

(** *** The statistics counters *)

Lemma handler_counters c t ev :
  total_connections (fst (wifi_event_handler c t ev))
  = (if is_got_ip ev then u32 (total_connections c + 1) else total_connections c) /\
  total_disconnections (fst (wifi_event_handler c t ev))
  = (if is_disconnect ev then u32 (total_disconnections c + 1)
     else total_disconnections c) /\
  ((total_failed_attempts (fst (wifi_event_handler c t ev)) = total_failed_attempts c /\
    count_effect esp_wifi_connect (snd (wifi_event_handler c t ev))
    = if is_disconnect ev || is_start ev then 1%nat else 0%nat)
   \/
   (is_disconnect ev = true /\
    total_failed_attempts (fst (wifi_event_handler c t ev))
    = u32 (total_failed_attempts c + 1) /\
    count_effect esp_wifi_connect (snd (wifi_event_handler c t ev)) = 0%nat)).
Proof.
  destruct ev; WifiFacts.handler_unfold c; cbn [is_got_ip is_disconnect is_start orb];
    try (split; [reflexivity|]; split; [reflexivity|]; left; split; reflexivity).
  - destruct (rc <? m); cbn [fst snd total_connections total_disconnections
                            total_failed_attempts];
      (split; [reflexivity|]); (split; [reflexivity|]).
    + left. split; [reflexivity|]. destruct cb_disc; reflexivity.
    + right. split; [reflexivity|]. split; [reflexivity|].
      destruct cb_disc, cb_fail; reflexivity.
  - split; [reflexivity|]. split; [reflexivity|]. left. split; [reflexivity|].
    destruct cb_conn; reflexivity.
Qed.

Lemma count_cons (f : wifi_event -> bool) t ev (evs : list (Z * wifi_event)) :
  List.length (filter (fun p => f (snd p)) ((t, ev) :: evs))
  = ((if f ev then 1 else 0)
     + List.length (filter (fun p => f (snd p)) evs))%nat.
Proof. cbn [filter snd]. destruct (f ev); reflexivity. Qed.

Lemma run_counters evs :
  forall c,
    0 <= total_connections c < 2 ^ 32 ->
    0 <= total_disconnections c < 2 ^ 32 ->
    0 <= total_failed_attempts c < 2 ^ 32 ->
    total_connections (fst (run c evs))
    = u32 (total_connections c + Z.of_nat (count_got_ip evs)) /\
    total_disconnections (fst (run c evs))
    = u32 (total_disconnections c + Z.of_nat (count_disconnects evs)) /\
    total_failed_attempts (fst (run c evs))
    = u32 (total_failed_attempts c + Z.of_nat (count_disconnects evs)
           + Z.of_nat (count_starts evs)
           - Z.of_nat (count_effect esp_wifi_connect (snd (run c evs)))).
Proof.
  induction evs as [|[t ev] evs IH]; intros c Hc Hd Hf.
  - cbn. rewrite !Z.add_0_r, Z.sub_0_r, !u32_small by assumption. repeat split.
  - rewrite WifiFacts.run_cons_fst, WifiFacts.run_cons_snd, WifiFacts.count_effect_app.
    unfold count_got_ip, count_disconnects, count_starts. rewrite !count_cons.
    fold (count_got_ip evs) (count_disconnects evs) (count_starts evs).
    destruct (handler_counters c t ev) as (H1 & H2 & H3).
    set (c1 := fst (wifi_event_handler c t ev)) in *.
    assert (Hc1 : 0 <= total_connections c1 < 2 ^ 32)
      by (rewrite H1; destruct (is_got_ip ev); [apply u32_range | exact Hc]).
    assert (Hd1 : 0 <= total_disconnections c1 < 2 ^ 32)
      by (rewrite H2; destruct (is_disconnect ev); [apply u32_range | exact Hd]).
    assert (Hf1 : 0 <= total_failed_attempts c1 < 2 ^ 32)
      by (destruct H3 as [[-> _] | (_ & -> & _)]; [exact Hf | apply u32_range]).
    destruct (IH c1 Hc1 Hd1 Hf1) as (I1 & I2 & I3).
    rewrite I1, I2, I3, H1, H2. clear I1 I2 I3 H1 H2.
    split; [|split].
    + destruct (is_got_ip ev); [rewrite u32_add_l|]; f_equal; lia.
    + destruct (is_disconnect ev); [rewrite u32_add_l|]; f_equal; lia.
    + destruct H3 as [[Hf' Hn] | (Hd' & Hf' & Hn)]; rewrite Hf', Hn.
      * destruct ev; cbn [is_disconnect is_start orb]; f_equal; lia.
      * rewrite Hd'.
        assert (Hs : is_start ev = false) by (destruct ev; try discriminate; reflexivity).
        rewrite Hs.
        match goal with
        | |- u32 (u32 ?x + ?a + ?b - ?d) = _ =>
            replace (u32 x + a + b - d) with (u32 x + (a + b - d)) by lia
        end.
        rewrite u32_add_l. f_equal. lia.
Qed.

(** X10. The statistics count events, modulo 2^32. After initialisation
    and any sequence of events, [total_connections] is the number of
    address assignments, [total_disconnections] the number of link-lost
    events, and [total_failed_attempts] the number of link-lost events
    that were not answered by a reconnect: every link loss is either
    retried or counted as failed. *)
Theorem counters_count_events cf evs :
  total_connections (fst (run (ctx_after_init_with cf) evs))
  = u32 (Z.of_nat (count_got_ip evs)) /\
  total_disconnections (fst (run (ctx_after_init_with cf) evs))
  = u32 (Z.of_nat (count_disconnects evs)) /\
  total_failed_attempts (fst (run (ctx_after_init_with cf) evs))
  = u32 (Z.of_nat (count_disconnects evs)
         - (Z.of_nat (count_effect esp_wifi_connect
                        (snd (run (ctx_after_init_with cf) evs)))
            - Z.of_nat (count_starts evs))).
Proof.
  destruct (run_counters evs (ctx_after_init_with cf)) as (H1 & H2 & H3);
    try (cbn; lia).
  rewrite H1, H2, H3.
  change (total_connections (ctx_after_init_with cf)) with 0.
  change (total_disconnections (ctx_after_init_with cf)) with 0.
  change (total_failed_attempts (ctx_after_init_with cf)) with 0.
  repeat split; f_equal; lia.
Qed.

(** *** A requested disconnect *)

Lemma init_budget cf :
  0 <= max_retries cf ->
  1 <= max_retries (config (ctx_after_init_with cf)).
Proof.
  intros H. unfold ctx_after_init_with, app_wifi_init.
  cbn [initialized g_wifi_ctx_zero].
  destruct cf as [mr tm c1 c2 c3]. cbn [max_retries timeout_ms] in *.
  destruct (mr =? 0) eqn:E; cbn [max_retries timeout_ms];
    destruct (tm =? 0); cbn [snd config max_retries];
    try (unfold WIFI_MAX_RETRIES; lia); apply Z.eqb_neq in E; lia.
Qed.

(** X11. [app_wifi_disconnect] does not keep the link down. On a link
    that has its address, a successful [app_wifi_disconnect] clears the
    connected flag; the link-lost event the platform then delivers is
    handled like any other loss, so the handler calls [esp_wifi_connect]
    again. *)
Theorem requested_disconnect_is_retried cf evs t addr t' :
  0 <= max_retries cf ->
  app_wifi_is_connected
    (fst (run (ctx_after_init_with cf) (evs ++ [(t, IP_EVENT_STA_GOT_IP addr)])))
  = true /\
  fst (app_wifi_disconnect
         (fst (run (ctx_after_init_with cf) (evs ++ [(t, IP_EVENT_STA_GOT_IP addr)])))
         true) = (APP_OK, true) /\
  app_wifi_is_connected
    (snd (app_wifi_disconnect
            (fst (run (ctx_after_init_with cf)
                    (evs ++ [(t, IP_EVENT_STA_GOT_IP addr)])))
            true)) = false /\
  In esp_wifi_connect
    (snd (wifi_event_handler
            (snd (app_wifi_disconnect
                    (fst (run (ctx_after_init_with cf)
                            (evs ++ [(t, IP_EVENT_STA_GOT_IP addr)])))
                    true))
            t' WIFI_EVENT_STA_DISCONNECTED)).
Proof.
  intros Hm. rewrite run_app_fst.
  set (c0 := fst (run (ctx_after_init_with cf) evs)).
  assert (Hini : initialized c0 = true).
  { apply (run_preserves (fun c => initialized c = true)).
    - intros c t0 ev H. rewrite handler_initialized. exact H.
    - apply init_initialised. }
  assert (Hbud : 1 <= max_retries (config c0)).
  { subst c0. rewrite WifiFacts.run_config. apply init_budget, Hm. }
  clearbody c0. rewrite WifiFacts.run_cons_fst. cbn [run fst].
  WifiFacts.handler_unfold c0.
  cbn [initialized config max_retries] in Hini, Hbud. subst ini.
  unfold app_wifi_is_connected, app_wifi_disconnect.
  cbv [wifi_event_handler wifi_update_state set_state
       set_connected xEventGroupSetBits set_retry set_totals
       set_last_connected_time_ms set_ip_address invoke
       config state initialized connected event_group retry_count retry_delay_ms
       last_connected_time_ms ip_address total_connections total_disconnections
       total_failed_attempts max_retries timeout_ms on_connected on_disconnected
       on_connect_failed fst snd negb andb].
  destruct cb_conn; cbv [fst snd app negb andb initialized connected];
    (split; [reflexivity|]); (split; [reflexivity|]); (split; [reflexivity|]);
    (assert (E : (0 <? m) = true) by (apply Z.ltb_lt; lia)); rewrite E;
    cbn [snd]; apply in_or_app; right; left; reflexivity.
Qed.

Lemma requested_disconnect_is_retried_witness :
  In esp_wifi_connect
    (snd (wifi_event_handler
            (snd (app_wifi_disconnect
                    (fst (run (ctx_after_init_with (mkWifiConfig 5 10000 true true false))
                            ([(0, WIFI_EVENT_STA_START)]
                               ++ [(900000, IP_EVENT_STA_GOT_IP 3232235876)])))
                    true))
            2000000 WIFI_EVENT_STA_DISCONNECTED)).
Proof.
  apply (requested_disconnect_is_retried (mkWifiConfig 5 10000 true true false)
           [(0, WIFI_EVENT_STA_START)] 900000 3232235876 2000000).
  cbn [max_retries]. lia.
Defined.

(** *** The address string *)

Lemma octet_digits :
  forallb (fun n => Nat.leb (String.length (decimal (Z.of_nat n))) 3) (seq 0 256)
  = true.
Proof. vm_compute. reflexivity. Qed.

Lemma decimal_octet_length x :
  0 <= x < 256 -> (String.length (decimal x) <= 3)%nat.
Proof.
  intros Hx. rewrite <- (Z2Nat.id x) by lia.
  pose proof (proj1 (forallb_forall _ _) octet_digits (Z.to_nat x)) as H.
  cbv beta in H. apply Nat.leb_le, H, in_seq. lia.
Qed.

Lemma octet_of_shift ip k :
  0 <= k -> Z.land (Z.shiftr ip k) 255 = (ip / 2 ^ k) mod 256.
Proof.
  intros Hk. rewrite Z.shiftr_div_pow2 by exact Hk.
  change 255 with (Z.ones 8). rewrite Z.land_ones by lia. reflexivity.
Qed.

Lemma dotted_length a b c d :
  0 <= a < 256 -> 0 <= b < 256 -> 0 <= c < 256 -> 0 <= d < 256 ->
  (String.length (dotted a b c d) <= 15)%nat.
Proof.
  intros Ha Hb Hc Hd. unfold dotted. rewrite !string_length_app.
  pose proof (decimal_octet_length a Ha). pose proof (decimal_octet_length b Hb).
  pose proof (decimal_octet_length c Hc). pose proof (decimal_octet_length d Hd).
  change (String.length ".") with 1%nat. lia.
Qed.

Lemma ip_string_of_ctx c max_len :
  16 <= max_len ->
  app_wifi_get_ip_address c true max_len
  = (APP_OK,
     Some (if connected c
           then dotted (ip_address c mod 256) (ip_address c / 256 mod 256)
                  (ip_address c / 65536 mod 256) (ip_address c / 16777216 mod 256)
           else "0.0.0.0"%string)) /\
  (String.length
     (dotted (ip_address c mod 256) (ip_address c / 256 mod 256)
        (ip_address c / 65536 mod 256) (ip_address c / 16777216 mod 256))
   <= 15)%nat.
Proof.
  intros Hlen.
  assert (Hd : (String.length
                  (dotted (ip_address c mod 256) (ip_address c / 256 mod 256)
                     (ip_address c / 65536 mod 256)
                     (ip_address c / 16777216 mod 256)) <= 15)%nat).
  { apply dotted_length; apply Z.mod_pos_bound; lia. }
  split; [|exact Hd].
  unfold app_wifi_get_ip_address.
  assert (E : (max_len <? 16) = false) by (apply Z.ltb_ge; lia).
  rewrite E. cbn [negb orb].
  destruct (connected c); cbn [negb]; f_equal; f_equal.
  - unfold ip_str, wifi_format_ip. change (16 <? 16) with false. cbv iota.
    rewrite !octet_of_shift by lia.
    change (2 ^ 0) with 1. change (2 ^ 8) with 256. change (2 ^ 16) with 65536.
    change (2 ^ 24) with 16777216. rewrite Z.div_1_r.
    fold (dotted (ip_address c mod 256) (ip_address c / 256 mod 256)
            (ip_address c / 65536 mod 256) (ip_address c / 16777216 mod 256)).
    rewrite (substring_all _ (Z.to_nat (16 - 1)))
      by (change (Z.to_nat (16 - 1)) with 15%nat; exact Hd).
    apply substring_all. lia.
  - apply substring_all. cbn. lia.
Qed.

(** X12. The address string is always complete. After initialisation and
    any sequence of events, for a buffer of at least 16 bytes,
    [app_wifi_get_ip_address] returns [APP_OK]; while the link counts as
    up, the string is the dotted decimal form of the four octets of the
    address last assigned, least significant first, with nothing cut off
    (it has at most 15 characters); while it is down, the string is
    0.0.0.0. *)
Theorem ip_address_string_complete cf evs max_len :
  16 <= max_len ->
  app_wifi_get_ip_address (fst (run (ctx_after_init_with cf) evs)) true max_len
  = (APP_OK,
     Some (if connected (fst (run (ctx_after_init_with cf) evs))
           then dotted (ip_address (fst (run (ctx_after_init_with cf) evs)) mod 256)
                  (ip_address (fst (run (ctx_after_init_with cf) evs)) / 256 mod 256)
                  (ip_address (fst (run (ctx_after_init_with cf) evs)) / 65536 mod 256)
                  (ip_address (fst (run (ctx_after_init_with cf) evs)) / 16777216
                   mod 256)
           else "0.0.0.0"%string)) /\
  (String.length
     (dotted (ip_address (fst (run (ctx_after_init_with cf) evs)) mod 256)
        (ip_address (fst (run (ctx_after_init_with cf) evs)) / 256 mod 256)
        (ip_address (fst (run (ctx_after_init_with cf) evs)) / 65536 mod 256)
        (ip_address (fst (run (ctx_after_init_with cf) evs)) / 16777216 mod 256))
   <= 15)%nat.
Proof. intros H. apply ip_string_of_ctx, H. Qed.

Lemma ip_address_string_complete_witness :
  16 <= 16 /\
  app_wifi_get_ip_address
    (fst (run (ctx_after_init_with (mkWifiConfig 5 10000 true true false))
            [(900000, IP_EVENT_STA_GOT_IP 1677830336)])) true 16
  = (APP_OK, Some "192.168.1.100"%string).
Proof.
  split; [lia|].
  destruct (ip_address_string_complete (mkWifiConfig 5 10000 true true false)
              [(900000, IP_EVENT_STA_GOT_IP 1677830336)] 16) as [H _];
    [lia|].
  rewrite H. vm_compute. reflexivity.
Defined.

End WifiApiFacts.

(* ====================================================================== *)
(** ** The broker manager: publishing, statistics, command delivery       *)
(* ====================================================================== *)

Module MqttApiFacts.
Import Mqtt MqttApi.

Lemma mqtt_run_cons_fst c t ev evs :
  fst (run c ((t, ev) :: evs)) = fst (run (fst (mqtt_event_handler c t ev)) evs).
Proof.
  cbn [run]. destruct (mqtt_event_handler c t ev) as [c1 tr1]. cbn [fst].
  destruct (run c1 evs) as [c2 tr2]. reflexivity.
Qed.

(** Parsing a message touches nothing but the command queue. *)
Lemma parse_keeps c p :
  exists q, fst (mqtt_parse_and_queue_command c p) = set_command_queue c q.
Proof.
  unfold mqtt_parse_and_queue_command.
  assert (Hsame : c = set_command_queue c (command_queue c)) by (destruct c; reflexivity).
  destruct (command_queue c) as [q|] eqn:Hq; [|exists None; exact Hsame].
  destruct (parsed p) as [[ti vi]|]; [|exists (Some q); exact Hsame].
  destruct (cJSON_IsString ti && cJSON_IsNumber vi); [|exists (Some q); exact Hsame].
  destruct (xQueueSend q _ 0) as [[| |k] q']; exists (Some q'); reflexivity.
Qed.

Lemma handler_fields c t ev :
  initialized (fst (mqtt_event_handler c t ev)) = initialized c /\
  connected (fst (mqtt_event_handler c t ev))
  = broker_up_after (connected c) [(t, ev)] /\
  messages_published (fst (mqtt_event_handler c t ev)) = messages_published c /\
  publish_failures (fst (mqtt_event_handler c t ev)) = publish_failures c /\
  messages_received (fst (mqtt_event_handler c t ev))
  = (if is_message ev then u32 (messages_received c + 1) else messages_received c).
Proof.
  destruct ev; cbn [mqtt_event_handler is_message fst]; try (repeat split; reflexivity).
  destruct (data_len p >? 0); [|repeat split; reflexivity].
  destruct (malloc_ok p); [|repeat split; reflexivity].
  destruct (parse_keeps c p) as [q Hq].
  destruct (mqtt_parse_and_queue_command c p) as [c1 tr]. cbn [fst] in *. subst c1.
  repeat split; reflexivity.
Qed.

Lemma mqtt_run_initialized evs :
  forall c, initialized (fst (run c evs)) = initialized c.
Proof.
  induction evs as [|[t ev] evs IH]; intros c; [reflexivity|].
  rewrite mqtt_run_cons_fst, IH. apply handler_fields.
Qed.

Lemma mqtt_run_connected evs :
  forall c, connected (fst (run c evs)) = broker_up_after (connected c) evs.
Proof.
  induction evs as [|[t ev] evs IH]; intros c; [reflexivity|].
  rewrite mqtt_run_cons_fst, IH. destruct (handler_fields c t ev) as (_ & -> & _).
  reflexivity.
Qed.

(** X13. Publishing follows the broker link. After initialisation and any
    events, a publish call with a topic, data and a non-zero length goes
    to the client library exactly when the most recent connect or
    disconnect event was a connect; it is then sent with the requested
    QoS if that is 0, 1 or 2 and with QoS 1 otherwise, and the result
    and the counter bumped depend on the message id returned. While the
    link is down the call returns [APP_ERR_MQTT_PUBLISH] and counts a
    failure without calling the library. *)
Theorem publish_follows_link cf evs tp d len qos retain msg_id :
  len <> 0 ->
  app_mqtt_publish (fst (run (ctx_after_init_with cf) evs))
    (Some tp) (Some d) len qos retain msg_id
  = if broker_up_after false evs then
      if msg_id <? 0 then
        (APP_ERR_MQTT_PUBLISH,
         set_publish_counts (fst (run (ctx_after_init_with cf) evs))
           (messages_published (fst (run (ctx_after_init_with cf) evs)))
           (u32 (publish_failures (fst (run (ctx_after_init_with cf) evs)) + 1)),
         [esp_mqtt_client_publish tp d len
            (if (0 <=? qos) && (qos <=? 2) then qos else 1)
            (if retain then 1 else 0)])
      else
        (APP_OK,
         set_publish_counts (fst (run (ctx_after_init_with cf) evs))
           (u32 (messages_published (fst (run (ctx_after_init_with cf) evs)) + 1))
           (publish_failures (fst (run (ctx_after_init_with cf) evs))),
         [esp_mqtt_client_publish tp d len
            (if (0 <=? qos) && (qos <=? 2) then qos else 1)
            (if retain then 1 else 0)])
    else
      (APP_ERR_MQTT_PUBLISH,
       set_publish_counts (fst (run (ctx_after_init_with cf) evs))
         (messages_published (fst (run (ctx_after_init_with cf) evs)))
         (u32 (publish_failures (fst (run (ctx_after_init_with cf) evs)) + 1)),
       []).
Proof.
  intros Hlen.
  set (c := fst (run (ctx_after_init_with cf) evs)).
  assert (Hini : initialized c = true) by (subst c; rewrite mqtt_run_initialized; reflexivity).
  assert (Hcon : connected c = broker_up_after false evs)
    by (subst c; rewrite mqtt_run_connected; reflexivity).
  unfold app_mqtt_publish. apply Z.eqb_neq in Hlen. rewrite Hlen, Hini, Hcon.
  cbn [negb orb].
  destruct (broker_up_after false evs); cbn [negb]; [|reflexivity].
  assert (Hq : (if (qos <? 0) || (qos >? 2) then 1 else qos)
               = (if (0 <=? qos) && (qos <=? 2) then qos else 1)).
  { rewrite Z.gtb_ltb.
    destruct (qos <? 0) eqn:E1; destruct (0 <=? qos) eqn:E2;
      destruct (2 <? qos) eqn:E3; destruct (qos <=? 2) eqn:E4; cbn [orb andb];
      try reflexivity; exfalso;
      rewrite ?Z.ltb_lt, ?Z.ltb_ge, ?Z.leb_le, ?Z.leb_gt in *; lia. }
  rewrite Hq. reflexivity.
Qed.

Lemma publish_follows_link_witness :
  1 <> 0 /\
  snd (app_mqtt_publish
         (fst (run (ctx_after_init_with (mkMqttConfig true true true true))
                 [(10, MQTT_EVENT_CONNECTED); (20, MQTT_EVENT_DISCONNECTED)]))
         (Some "t"%string) (Some "d"%string) 1 7 false 5) = [].
Proof.
  split; [discriminate|].
  rewrite (publish_follows_link (mkMqttConfig true true true true)
             [(10, MQTT_EVENT_CONNECTED); (20, MQTT_EVENT_DISCONNECTED)]
             "t"%string "d"%string 1 7 false 5); [reflexivity | discriminate].
Defined.

(** *** The statistics *)

Lemma api_step_counts c a :
  messages_received (fst (api_step c a))
  = (match a with
     | api_event _ ev => if is_message ev then u32 (messages_received c + 1)
                         else messages_received c
     | api_publish _ => messages_received c
     end) /\
  u32 (messages_published (fst (api_step c a)) + publish_failures (fst (api_step c a)))
  = u32 (messages_published c + publish_failures c
         + (match a with
            | api_publish pc => if publish_params_ok pc then 1 else 0
            | api_event _ _ => 0
            end)).
Proof.
  destruct a as [t ev | pc]; cbn [api_step fst].
  - destruct (handler_fields c t ev) as (_ & _ & Hp & Hf & Hr).
    rewrite Hp, Hf, Hr, Z.add_0_r. split; reflexivity.
  - unfold app_mqtt_publish, publish_params_ok.
    destruct (pc_topic pc) as [tp|]; [|cbn; rewrite Z.add_0_r; split; reflexivity].
    destruct (pc_data pc) as [d|]; [|cbn; rewrite Z.add_0_r; split; reflexivity].
    destruct (pc_data_len pc =? 0); cbn [negb];
      [cbn; rewrite Z.add_0_r; split; reflexivity|].
    destruct (negb (initialized c) || negb (connected c));
      [cbn; split; [reflexivity | rewrite u32_add_r; f_equal; lia]|].
    destruct (pc_msg_id pc <? 0); cbn; (split; [reflexivity|]).
    + rewrite u32_add_r. f_equal. lia.
    + rewrite u32_add_l. f_equal. lia.
Qed.

Lemma api_run_cons_fst c a acts :
  fst (api_run c (a :: acts)) = fst (api_run (fst (api_step c a)) acts).
Proof.
  cbn [api_run]. destruct (api_step c a) as [c1 calls]. cbn [fst].
  destruct (api_run c1 acts) as [c2 more]. reflexivity.
Qed.

Lemma api_run_counts acts :
  forall c,
    0 <= messages_received c < 2 ^ 32 ->
    messages_received (fst (api_run c acts))
    = u32 (messages_received c + Z.of_nat (count_messages acts)) /\
    u32 (messages_published (fst (api_run c acts))
         + publish_failures (fst (api_run c acts)))
    = u32 (messages_published c + publish_failures c
           + Z.of_nat (count_valid_publishes acts)).
Proof.
  induction acts as [|a acts IH]; intros c Hr.
  - cbn. rewrite !Z.add_0_r, u32_small by exact Hr. split; reflexivity.
  - rewrite api_run_cons_fst.
    destruct (api_step_counts c a) as [H1 H2].
    assert (Hr1 : 0 <= messages_received (fst (api_step c a)) < 2 ^ 32).
    { rewrite H1. destruct a as [t ev | pc]; [|exact Hr].
      destruct (is_message ev); [apply u32_range | exact Hr]. }
    destruct (IH _ Hr1) as [I1 I2]. rewrite I1, I2. clear I1 I2.
    unfold count_messages, count_valid_publishes. cbn [filter].
    split.
    + rewrite H1. destruct a as [t ev | pc]; [|reflexivity].
      unfold is_message.
      destruct ev; try reflexivity.
      destruct ((data_len p >? 0) && malloc_ok p); [|reflexivity].
      rewrite u32_add_l. f_equal. cbn [List.length]. lia.
    + rewrite <- u32_add_l, H2, u32_add_l.
      destruct a as [t ev | pc].
      * f_equal.
        destruct ev; lia.
      * destruct (publish_params_ok pc); f_equal; cbn [List.length]; lia.
Qed.

(** X14. What the statistics count. After initialisation and any
    interleaving of client events and publish calls, [app_mqtt_get_stats]
    reports a message count equal to the number of data events with a
    non-empty payload for which the handler could allocate its copy of
    the payload, parsed successfully or not; an empty message and a
    message whose copy could not be allocated are not counted. The
    published and failed counts together equal the number of publish
    calls that passed the parameter check. All modulo 2^32. *)
Theorem stats_account_for_all cf acts :
  app_mqtt_get_stats (fst (api_run (ctx_after_init_with cf) acts)) true
  = (APP_OK,
     Some (messages_published (fst (api_run (ctx_after_init_with cf) acts)),
           u32 (Z.of_nat (count_messages acts)),
           publish_failures (fst (api_run (ctx_after_init_with cf) acts)))) /\
  u32 (messages_published (fst (api_run (ctx_after_init_with cf) acts))
       + publish_failures (fst (api_run (ctx_after_init_with cf) acts)))
  = u32 (Z.of_nat (count_valid_publishes acts)).
Proof.
  destruct (api_run_counts acts (ctx_after_init_with cf)) as [H1 H2];
    [cbn; lia|].
  unfold app_mqtt_get_stats. cbn [negb]. rewrite H1, H2. split; reflexivity.
Qed.

(** *** Commands are delivered in order *)

Lemma queue_eta (q : queue mqtt_command_t) :
  mkQueue (q_items q ++ []) (q_capacity q) = q.
Proof. destruct q. cbn. now rewrite app_nil_r. Qed.

Lemma parse_queue c p q :
  command_queue c = Some q ->
  (List.length (q_items q)
   + List.length (command_of_event (MQTT_EVENT_DATA (mkPayload 1 true (parsed p))))
   <= q_capacity q)%nat ->
  command_queue (fst (mqtt_parse_and_queue_command c p))
  = Some (mkQueue
            (q_items q
             ++ command_of_event (MQTT_EVENT_DATA (mkPayload 1 true (parsed p))))
            (q_capacity q)).
Proof.
  intros Hq Hroom. unfold mqtt_parse_and_queue_command. rewrite Hq.
  cbn [command_of_event data_len malloc_ok parsed andb] in *.
  change (1 >? 0) with true in *. cbn [andb] in *.
  destruct (parsed p) as [[[[s| |] |] [[| n |] |]] |];
    cbn [cJSON_IsString cJSON_IsNumber andb fst];
    try (rewrite Hq, queue_eta; reflexivity).
  cbn [List.length] in Hroom.
  rewrite QueueFacts.send_room
    by (unfold is_full; apply Nat.leb_gt; lia).
  reflexivity.
Qed.

Lemma handler_queue c t ev q :
  command_queue c = Some q ->
  (List.length (q_items q) + List.length (command_of_event ev) <= q_capacity q)%nat ->
  command_queue (fst (mqtt_event_handler c t ev))
  = Some (mkQueue (q_items q ++ command_of_event ev) (q_capacity q)).
Proof.
  intros Hq Hroom.
  destruct ev; cbn [mqtt_event_handler command_of_event fst] in *;
    try (rewrite Hq, queue_eta; reflexivity).
  destruct (data_len p >? 0); cbn [andb fst] in *;
    [|rewrite Hq, queue_eta; reflexivity].
  destruct (malloc_ok p); cbn [fst] in *; [|rewrite Hq, queue_eta; reflexivity].
  pose proof (parse_queue c p q Hq) as H.
  cbn [command_of_event data_len malloc_ok parsed] in H.
  change (1 >? 0) with true in H. cbn [andb] in H. specialize (H Hroom).
  destruct (mqtt_parse_and_queue_command c p) as [c1 tr]. cbn [fst] in *.
  exact H.
Qed.

Lemma run_queue evs :
  forall c q,
    command_queue c = Some q ->
    (List.length (q_items q) + List.length (commands_in evs) <= q_capacity q)%nat ->
    command_queue (fst (run c evs))
    = Some (mkQueue (q_items q ++ commands_in evs) (q_capacity q)).
Proof.
  induction evs as [|[t ev] evs IH]; intros c q Hq Hroom.
  - cbn. rewrite Hq, queue_eta. reflexivity.
  - unfold commands_in in *. cbn [flat_map snd] in *.
    rewrite length_app in Hroom. rewrite mqtt_run_cons_fst.
    rewrite (IH _ _ (handler_queue c t ev q Hq ltac:(lia)));
      cbn [q_items q_capacity]; [|rewrite length_app; lia].
    rewrite <- app_assoc. reflexivity.
Qed.

Lemma receive_in_order cmds :
  forall c rest cap,
    command_queue c = Some (mkQueue (cmds ++ rest) cap) ->
    fst (receive_commands (List.length cmds) c)
    = map (fun cmd => (APP_OK, Some (substring 0 31 (cmd_type cmd), cmd_value cmd)))
        cmds /\
    command_queue (snd (receive_commands (List.length cmds) c))
    = Some (mkQueue rest cap).
Proof.
  induction cmds as [|cmd cmds IH]; intros c rest cap Hq.
  - cbn. split; [reflexivity | exact Hq].
  - cbn [List.length receive_commands]. unfold app_mqtt_receive_command.
    rewrite Hq. cbn [xQueueReceive q_items app q_capacity].
    destruct (IH (set_command_queue c (Some (mkQueue (cmds ++ rest) cap))) rest cap
                eq_refl) as [H1 H2].
    destruct (receive_commands (List.length cmds) _) as [rs c2].
    cbn [fst snd map] in *. rewrite H1. split; [reflexivity | exact H2].
Qed.

Lemma commands_in_cut evs :
  Forall (fun cmd => substring 0 31 (cmd_type cmd) = cmd_type cmd) (commands_in evs).
Proof.
  unfold commands_in. induction evs as [|[t ev] evs IH]; [constructor|].
  cbn [flat_map snd]. apply Forall_app. split; [|exact IH].
  destruct ev; cbn [command_of_event]; try constructor.
  destruct ((data_len p >? 0) && malloc_ok p); [|constructor].
  destruct (parsed p) as [[[[s| |] |] [[| n |] |]] |]; try constructor; [|constructor].
  cbn [cmd_type]. unfold strncpy31. apply substring_idem.
Qed.

(** X15. Commands come out in the order they came in. After
    initialisation and any events carrying at most ten well-formed
    commands (non-empty JSON objects with a string "type" and a numeric
    "value"), successive calls of [app_mqtt_receive_command] return
    exactly these commands in arrival order, each with its type cut to 31
    characters and its value, and then [APP_ERR_TIMEOUT]; every other
    message and event leaves no trace in the queue. *)
Theorem commands_delivered_in_order cf evs :
  (List.length (commands_in evs) <= 10)%nat ->
  fst (receive_commands (S (List.length (commands_in evs)))
         (fst (run (ctx_after_init_with cf) evs)))
  = map (fun cmd => (APP_OK, Some (cmd_type cmd, cmd_value cmd))) (commands_in evs)
    ++ [(APP_ERR_TIMEOUT, None)].
Proof.
  intros Hlen.
  pose proof (run_queue evs (ctx_after_init_with cf) (xQueueCreate 10) eq_refl) as Hq.
  cbn [xQueueCreate q_items q_capacity List.length app Nat.add] in Hq.
  specialize (Hq Hlen).
  rewrite <- (app_nil_r (commands_in evs)) in Hq at 1.
  destruct (receive_in_order (commands_in evs) _ [] 10%nat Hq) as [H1 H2].
  replace (S (List.length (commands_in evs)))
    with (List.length (commands_in evs) + 1)%nat by lia.
  assert (Hsplit : forall n m c,
            fst (receive_commands (n + m) c)
            = fst (receive_commands n c)
              ++ fst (receive_commands m (snd (receive_commands n c)))).
  { induction n as [|n IHn]; intros m c; [reflexivity|].
    cbn [Nat.add receive_commands].
    destruct (app_mqtt_receive_command c) as [[r out] c1].
    specialize (IHn m c1).
    destruct (receive_commands (n + m) c1) as [rs c2].
    destruct (receive_commands n c1) as [rs' c2']. cbn [fst snd] in *.
    rewrite IHn. reflexivity. }
  rewrite Hsplit, H1. f_equal.
  - apply map_ext_in. intros cmd Hin.
    pose proof (proj1 (Forall_forall _ _) (commands_in_cut evs) cmd Hin) as Hc.
    cbv beta in Hc. rewrite Hc. reflexivity.
  - cbn [receive_commands]. unfold app_mqtt_receive_command. rewrite H2.
    reflexivity.
Qed.

Lemma commands_delivered_in_order_witness :
  fst (receive_commands 3
         (fst (run (ctx_after_init_with (mkMqttConfig true true true true))
                 [(1, MQTT_EVENT_DATA (command_payload "relay" 1));
                  (2, MQTT_EVENT_DATA (mkPayload 5 true None));
                  (3, MQTT_EVENT_DISCONNECTED);
                  (4, MQTT_EVENT_DATA (command_payload "fan" 300))])))
  = [(APP_OK, Some ("relay"%string, 1)); (APP_OK, Some ("fan"%string, 300));
     (APP_ERR_TIMEOUT, None)].
Proof.
  apply (commands_delivered_in_order (mkMqttConfig true true true true)
           [(1, MQTT_EVENT_DATA (command_payload "relay" 1));
            (2, MQTT_EVENT_DATA (mkPayload 5 true None));
            (3, MQTT_EVENT_DISCONNECTED);
            (4, MQTT_EVENT_DATA (command_payload "fan" 300))]).
  cbn. lia.
Defined.

(** *** The reconnect delay and count *)

Lemma handler_reconnect c t ev :
  reconnect_delay_ms (fst (mqtt_event_handler c t ev))
  = (match ev with
     | MQTT_EVENT_CONNECTED => 1000
     | MQTT_EVENT_DISCONNECTED =>
         if reconnect_delay_ms c <? 60000 then u32 (reconnect_delay_ms c * 2)
         else reconnect_delay_ms c
     | _ => reconnect_delay_ms c
     end) /\
  reconnect_count (fst (mqtt_event_handler c t ev))
  = (if is_disconnected ev then u32 (reconnect_count c + 1) else reconnect_count c).
Proof.
  destruct ev; cbn [mqtt_event_handler is_disconnected fst]; try (split; reflexivity).
  destruct (data_len p >? 0); [|split; reflexivity].
  destruct (malloc_ok p); [|split; reflexivity].
  destruct (parse_keeps c p) as [q Hq].
  destruct (mqtt_parse_and_queue_command c p) as [c1 tr]. cbn [fst] in *. subst c1.
  split; reflexivity.
Qed.

Lemma run_reconnect evs :
  forall c,
    0 <= reconnect_count c < 2 ^ 32 ->
    (connected c = true -> reconnect_delay_ms c = 1000) ->
    reconnect_count (fst (run c evs))
    = u32 (reconnect_count c + Z.of_nat (count_disconnected evs)) /\
    (connected (fst (run c evs)) = true ->
     reconnect_delay_ms (fst (run c evs)) = 1000).
Proof.
  induction evs as [|[t ev] evs IH]; intros c Hr Hc.
  - cbn. rewrite Z.add_0_r, u32_small by exact Hr. split; [reflexivity | exact Hc].
  - rewrite mqtt_run_cons_fst.
    destruct (handler_reconnect c t ev) as [Hd Hn].
    destruct (handler_fields c t ev) as (_ & Hcon & _).
    destruct (IH (fst (mqtt_event_handler c t ev))) as [I1 I2].
    + rewrite Hn. destruct (is_disconnected ev); [apply u32_range | exact Hr].
    + rewrite Hcon, Hd. cbn [broker_up_after fold_left snd].
      destruct ev; try exact Hc; [reflexivity | discriminate].
    + split; [|exact I2]. rewrite I1, Hn.
      unfold count_disconnected. cbn [filter snd].
      destruct (is_disconnected ev); [rewrite u32_add_l|]; f_equal;
        cbn [List.length]; lia.
Qed.

(** X16. The reconnect delay and count over any events. After
    initialisation and whatever events arrive, the reconnect delay is one
    of 1000, 2000, 4000, 8000, 16000, 32000, 64000 ms, it is 1000 ms
    whenever the broker counts as connected, and [reconnect_count] is the
    number of broker-lost events modulo 2^32. *)
Theorem reconnect_delay_and_count cf evs :
  In (reconnect_delay_ms (fst (run (ctx_after_init_with cf) evs))) delay_ladder /\
  (app_mqtt_is_connected (fst (run (ctx_after_init_with cf) evs)) = true ->
   reconnect_delay_ms (fst (run (ctx_after_init_with cf) evs)) = 1000) /\
  reconnect_count (fst (run (ctx_after_init_with cf) evs))
  = u32 (Z.of_nat (count_disconnected evs)).
Proof.
  split; [|split].
  - apply MqttFacts.delay_always_on_ladder. left. reflexivity.
  - intros H. unfold app_mqtt_is_connected in H. apply andb_prop in H.
    destruct H as [_ H].
    apply (run_reconnect evs (ctx_after_init_with cf)); [cbn; lia | discriminate | exact H].
  - destruct (run_reconnect evs (ctx_after_init_with cf)) as [H _];
      [cbn; lia | discriminate |]. exact H.
Qed.

Lemma reconnect_delay_and_count_witness :
  reconnect_delay_ms
    (fst (run (ctx_after_init_with (mkMqttConfig true true true true))
            [(1, MQTT_EVENT_DISCONNECTED); (2, MQTT_EVENT_DISCONNECTED);
             (3, MQTT_EVENT_CONNECTED)])) = 1000.
Proof.
  apply (reconnect_delay_and_count (mkMqttConfig true true true true)
           [(1, MQTT_EVENT_DISCONNECTED); (2, MQTT_EVENT_DISCONNECTED);
            (3, MQTT_EVENT_CONNECTED)]).
  reflexivity.
Defined.

End MqttApiFacts.

(* ====================================================================== *)
(** ** The output driver: ranges, disabling, emergency stop, ramp          *)
(* ====================================================================== *)

Module OutputApiFacts.
Import Output OutputApi.

Lemma output_run_cons r call calls :
  output_run r (call :: calls)
  = (fst (output_run (fst (output_step r call)) calls),
     snd (output_step r call) ++ snd (output_run (fst (output_step r call)) calls)).
Proof.
  cbn [output_run]. destruct (output_step r call) as [r1 ops1]. cbn [fst snd].
  destruct (output_run r1 calls) as [r2 ops2]. reflexivity.
Qed.

(** *** What the two setters do, case by case *)

Lemma set_relay_cases c st hw :
  (app_output_set_relay c st hw = (APP_ERR_UNKNOWN, c, []) /\
   (initialized c = false \/ is_enabled c = false))
  \/ (app_output_set_relay c st hw = (APP_ERR_INVALID_VALUE, bump_error_count c, []) /\
      initialized c = true /\ is_enabled c = true /\ st <> RELAY_OFF /\ st <> RELAY_ON)
  \/ (initialized c = true /\ is_enabled c = true /\
      (st = RELAY_OFF \/ st = RELAY_ON) /\
      (app_output_set_relay c st hw
       = (APP_ERR_UNKNOWN, bump_error_count c, [hw_gpio_set_level (relay_pin c) st])
       \/ (gpio_set_level_ok hw = true /\
           app_output_set_relay c st hw
           = (APP_OK,
              mkOutputCtx (relay_pin c) (fan_pin c) st (fan_speed c)
                (is_enabled c) (initialized c) (error_count c)
                (u64 (total_operations c + 1))
                (u32 (relay_toggle_count c + 1)) (fan_changes c) (ramp_active c),
              [hw_gpio_set_level (relay_pin c) st])))).
Proof.
  unfold app_output_set_relay.
  destruct (initialized c); cbn [negb]; [|left; split; [reflexivity | left; reflexivity]].
  destruct (is_enabled c); cbn [negb]; [|left; split; [reflexivity | right; reflexivity]].
  destruct (st =? RELAY_OFF) eqn:E0; cbn [negb andb].
  - apply Z.eqb_eq in E0. right. right. repeat split; try (left; exact E0).
    destruct (gpio_set_level_ok hw); cbn [negb]; [right; split; reflexivity | left; reflexivity].
  - apply Z.eqb_neq in E0. destruct (st =? RELAY_ON) eqn:E1; cbn [negb].
    + apply Z.eqb_eq in E1. right. right. repeat split; try (right; exact E1).
      destruct (gpio_set_level_ok hw); cbn [negb];
        [right; split; reflexivity | left; reflexivity].
    + apply Z.eqb_neq in E1. right. left. repeat split; assumption.
Qed.

(** The clamped speed of [app_output_set_fan_speed]. *)
Lemma clamp_range speed :
  0 <= (if speed <? FAN_SPEED_MIN then FAN_SPEED_MIN
        else if speed >? FAN_SPEED_MAX then FAN_SPEED_MAX else speed) <= 255.
Proof.
  unfold FAN_SPEED_MIN, FAN_SPEED_MAX.
  destruct (speed <? 0) eqn:E1; [lia|]. apply Z.ltb_ge in E1.
  destruct (speed >? 255) eqn:E2; [lia|]. rewrite Z.gtb_ltb in E2.
  apply Z.ltb_ge in E2. lia.
Qed.

Lemma set_fan_speed_cases c speed hw :
  (app_output_set_fan_speed c speed hw = (APP_ERR_UNKNOWN, c, []) /\
   (initialized c = false \/ is_enabled c = false))
  \/ (initialized c = true /\ is_enabled c = true /\
      exists duty ops c',
        0 <= duty <= 255 /\
        (ops = [hw_ledc_set_duty duty] \/
         ops = [hw_ledc_set_duty duty; hw_ledc_update_duty]) /\
        relay_state c' = relay_state c /\ is_enabled c' = true /\
        initialized c' = true /\ relay_pin c' = relay_pin c /\
        (fan_speed c' = fan_speed c \/ fan_speed c' = duty) /\
        exists e, app_output_set_fan_speed c speed hw = (e, c', ops)).
Proof.
  unfold app_output_set_fan_speed.
  destruct (initialized c) eqn:Hi; cbn [negb];
    [|left; split; [reflexivity | left; reflexivity]].
  destruct (is_enabled c) eqn:He; cbn [negb];
    [|left; split; [reflexivity | right; reflexivity]].
  right. split; [reflexivity|]. split; [reflexivity|].
  pose proof (clamp_range speed) as Hd.
  set (duty := if speed <? FAN_SPEED_MIN then FAN_SPEED_MIN
               else if speed >? FAN_SPEED_MAX then FAN_SPEED_MAX else speed) in *.
  exists duty. cbv zeta.
  destruct c as [rp fp rs fs en ini ec tot tog ch ra].
  cbn [initialized is_enabled ramp_active] in *. subst en ini.
  destruct ra, (ledc_set_duty_ok hw), (ledc_update_duty_ok hw);
    cbv [negb set_ramp_active bump_error_count relay_pin fan_pin relay_state
         fan_speed is_enabled initialized error_count total_operations
         relay_toggle_count fan_changes ramp_active];
    do 2 eexists; (split; [exact Hd|]);
    (split; [|split; [|split; [|split; [|split; [|split; [|eexists; reflexivity]]]]]]);
    cbn [relay_state is_enabled initialized relay_pin fan_speed];
    try reflexivity; auto;
    right; apply u8_small; lia.
Qed.

(** *** The outputs stay in range *)

Lemma set_relay_range c st hw :
  base_in_range c ->
  base_in_range (snd (fst (app_output_set_relay c st hw))) /\
  Forall op_in_range (snd (app_output_set_relay c st hw)).
Proof.
  intros Hr.
  assert (Hbump : base_in_range (bump_error_count c)) by (destruct c; exact Hr).
  destruct (set_relay_cases c st hw)
    as [[-> _] | [[-> _] | (_ & _ & Hst & [-> | [_ ->]])]];
    cbn [fst snd].
  - split; [exact Hr | constructor].
  - split; [exact Hbump | constructor].
  - split; [exact Hbump | constructor; [exact Hst | constructor]].
  - split; [|constructor; [exact Hst | constructor]].
    destruct Hr as [_ Hf]. split; [exact Hst | exact Hf].
Qed.

Lemma set_fan_speed_range c speed hw :
  base_in_range c ->
  base_in_range (snd (fst (app_output_set_fan_speed c speed hw))) /\
  Forall op_in_range (snd (app_output_set_fan_speed c speed hw)).
Proof.
  intros Hr.
  destruct (set_fan_speed_cases c speed hw)
    as [[-> _] | (_ & _ & duty & ops & c' & Hd & Hops & Hrs & _ & _ & _ & Hfs & e & ->)];
    cbn [fst snd]; [split; [exact Hr | constructor]|].
  split.
  - destruct Hr as [Hrel Hf]. split; [rewrite Hrs; exact Hrel|].
    destruct Hfs as [-> | ->]; assumption.
  - destruct Hops as [-> | ->]; repeat (constructor; [try exact Hd; try exact I|]);
      constructor.
Qed.

Lemma init_range c rp fp hw :
  base_in_range c -> base_in_range (snd (fst (app_output_init c rp fp hw))).
Proof.
  intros Hr. unfold app_output_init.
  destruct ((rp >? 39) || (fp >? 39)); [exact Hr|].
  destruct (initialized c); [exact Hr|].
  destruct (output_init_relay rp hw) as [ret ops1].
  destruct (negb (app_err_eqb ret APP_OK)); [exact Hr|].
  destruct (output_init_ledc fp hw) as [ret2 ops2].
  destruct (negb (app_err_eqb ret2 APP_OK)); [exact Hr|].
  cbn [fst snd]. split; [left; reflexivity | cbn; lia].
Qed.

Lemma ramp_duty_range cur target duration elapsed :
  0 <= ramp_duty cur target duration elapsed <= 255.
Proof.
  unfold ramp_duty.
  pose proof (u8_range (u32 (cur + u32 (u32 (target - cur) * elapsed) / duration))).
  lia.
Qed.

Lemma set_ramp_active_range c b :
  base_in_range c -> base_in_range (set_ramp_active c b).
Proof. intros H. destruct c. exact H. Qed.

Lemma output_step_range r call :
  outputs_in_range r ->
  outputs_in_range (fst (output_step r call)) /\
  Forall op_in_range (snd (output_step r call)).
Proof.
  intros (Hrel & Hfan & Htgt).
  assert (Hb : base_in_range (base r)) by (split; assumption).
  unfold outputs_in_range.
  destruct call as [rp fp hw | st hw | hw | speed hw | target duration now created hw
                   | now | enabled hw |]; cbn [output_step].
  - cbn [fst snd set_base base ramp_target_speed].
    destruct (init_range (base r) (u8 rp) (u8 fp) hw Hb) as [H1 H2].
    repeat split; try assumption; try lia. constructor.
  - destruct (set_relay_range (base r) st hw Hb) as [[H1 H2] H3].
    destruct (app_output_set_relay (base r) st hw) as [[e c] ops].
    cbn [fst snd set_base base ramp_target_speed] in *.
    repeat split; try assumption; lia.
  - unfold app_output_toggle_relay.
    destruct (set_relay_range (base r)
                (if negb (relay_state (base r) =? 0) then RELAY_OFF else RELAY_ON)
                hw Hb) as [[H1 H2] H3].
    destruct (app_output_set_relay (base r) _ hw) as [[e c] ops].
    cbn [fst snd set_base base ramp_target_speed] in *.
    repeat split; try assumption; lia.
  - destruct (set_fan_speed_range (base r) speed hw Hb) as [[H1 H2] H3].
    destruct (app_output_set_fan_speed (base r) speed hw) as [[e c] ops].
    cbn [fst snd set_base base ramp_target_speed] in *.
    repeat split; try assumption; lia.
  - unfold app_output_ramp_fan_speed.
    destruct (negb (initialized (base r)));
      [cbn [fst snd]; repeat split; try assumption; try lia; constructor|].
    destruct (negb (is_enabled (base r)));
      [cbn [fst snd]; repeat split; try assumption; try lia; constructor|].
    pose proof (u8_range target) as Hu.
    set (tgt := if u8 target >? FAN_SPEED_MAX then FAN_SPEED_MAX else u8 target).
    assert (Ht : 0 <= tgt <= 255).
    { subst tgt. unfold FAN_SPEED_MAX. destruct (u8 target >? 255); lia. }
    destruct (u32 duration =? 0).
    + destruct (set_fan_speed_range (base r) tgt hw Hb) as [[H1 H2] H3].
      destruct (app_output_set_fan_speed (base r) tgt hw) as [[e c] ops].
      cbn [fst snd set_base base ramp_target_speed] in *.
      repeat split; try assumption; lia.
    + destruct ((u32 duration <? 100) || (u32 duration >? 60000));
        [cbn [fst snd]; repeat split; try assumption; try lia; constructor|].
      assert (Hc1 : base_in_range
                      (set_ramp_active
                         (if ramp_active (base r)
                          then set_ramp_active (base r) false else base r) true)).
      { apply set_ramp_active_range.
        destruct (ramp_active (base r)); [apply set_ramp_active_range|]; exact Hb. }
      destruct created; cbn [negb fst snd set_base base ramp_target_speed].
      * destruct Hc1 as [H1 H2]. repeat split; try assumption; try lia. constructor.
      * destruct (set_ramp_active_range _ false Hc1) as [H1 H2].
        repeat split; try assumption; try lia. constructor.
  - unfold task_fan_ramp_pass.
    destruct (negb (ramp_active (base r)));
      [cbn [fst snd base ramp_target_speed]; repeat split; try assumption; try lia;
       constructor|].
    destruct (u32 (Z.quot now 1000 - ramp_start_ms r) >=? ramp_duration_ms r);
      cbn [fst snd base ramp_target_speed].
    + destruct r as [[rp fp rs fs en ini ec tot tog ch ra] tg du sm tk].
      cbn in *. repeat split; try assumption; try lia.
      repeat constructor; lia.
    + repeat split; try assumption; try lia.
      constructor; [apply ramp_duty_range | constructor; [exact I | constructor]].
  - unfold app_output_set_enabled. destruct enabled; cbn [negb].
    + cbn [fst snd set_base base ramp_target_speed].
      destruct r as [[rp fp rs fs en ini ec tot tog ch ra] tg du sm tk].
      cbn in *. repeat split; try assumption; try lia. constructor.
    + assert (Hb1 : base_in_range (set_is_enabled (base r) false))
        by (destruct (base r); exact Hb).
      destruct (set_relay_range _ RELAY_OFF hw Hb1) as [Hb2 Ho2].
      destruct (app_output_set_relay (set_is_enabled (base r) false) RELAY_OFF hw)
        as [[e2 c2] ops2]. cbn [fst snd] in Hb2, Ho2.
      destruct (set_fan_speed_range c2 FAN_SPEED_OFF hw Hb2) as [[H1 H2] Ho3].
      destruct (app_output_set_fan_speed c2 FAN_SPEED_OFF hw) as [[e3 c3] ops3].
      cbn [fst snd set_base base ramp_target_speed] in *.
      repeat split; try assumption; try lia. apply Forall_app. split; assumption.
  - cbn [app_output_emergency_stop fst snd set_base base ramp_target_speed
         relay_state fan_speed].
    repeat split; try lia; try (left; reflexivity).
    repeat constructor; lia.
Qed.

Lemma output_run_range calls :
  forall r, outputs_in_range r ->
    outputs_in_range (fst (output_run r calls)) /\
    Forall op_in_range (snd (output_run r calls)).
Proof.
  induction calls as [|call calls IH]; intros r Hr.
  - cbn. split; [exact Hr | constructor].
  - rewrite output_run_cons. cbn [fst snd].
    destruct (output_step_range r call Hr) as [H1 H2].
    destruct (IH _ H1) as [H3 H4].
    split; [exact H3 | apply Forall_app; split; assumption].
Qed.

(** X17. The outputs never leave their range. From power-up and through
    any sequence of interface calls and ramp task passes, with any
    arguments and any peripheral failures, the relay state is off or on
    and the fan speed is between 0 and 255; and every level written to
    the relay pin is 0 or 1 and every PWM duty written is between 0 and
    255. *)
Theorem outputs_never_leave_range calls :
  (relay_state (base (fst (output_run g_ramp_ctx_zero calls))) = RELAY_OFF \/
   relay_state (base (fst (output_run g_ramp_ctx_zero calls))) = RELAY_ON) /\
  0 <= fan_speed (base (fst (output_run g_ramp_ctx_zero calls))) <= 255 /\
  Forall op_in_range (snd (output_run g_ramp_ctx_zero calls)).
Proof.
  destruct (output_run_range calls g_ramp_ctx_zero) as [(H1 & H2 & _) H3].
  - unfold outputs_in_range. cbn. repeat split; try lia. left. reflexivity.
  - split; [exact H1 | split; [exact H2 | exact H3]].
Qed.

(** *** Disabling *)

Lemma disabled_step r call :
  initialized (base r) = true -> is_enabled (base r) = false ->
  is_command call = true ->
  output_step r call = (r, []).
Proof.
  intros Hi He Hc.
  destruct r as [[rp fp rs fs en ini ec tot tog ch ra] tg du sm tk].
  cbn [base initialized is_enabled] in Hi, He. subst ini en.
  destruct call as [rp' fp' hw | st hw | hw | speed hw | target duration now created hw
                   | now | [|] hw |]; try discriminate Hc;
    cbn [output_step base].
  - unfold app_output_init. cbn [initialized].
    destruct ((u8 rp' >? 39) || (u8 fp' >? 39)); reflexivity.
  - reflexivity.
  - reflexivity.
  - reflexivity.
  - reflexivity.
  - reflexivity.
Qed.

Lemma disabled_run calls :
  forall r,
    initialized (base r) = true -> is_enabled (base r) = false ->
    forallb is_command calls = true ->
    output_run r calls = (r, []).
Proof.
  induction calls as [|call calls IH]; intros r Hi He Hc; [reflexivity|].
  cbn [forallb] in Hc. apply andb_prop in Hc. destruct Hc as [Hc Hrest].
  rewrite output_run_cons, (disabled_step r call Hi He Hc). cbn [fst snd].
  rewrite (IH r Hi He Hrest). reflexivity.
Qed.

(** X18. Disabling switches nothing off. On an initialised driver,
    [app_output_set_enabled(false)] only clears the enabled flag: its two
    setter calls are rejected because the flag is already cleared, so no
    peripheral call is made, a relay that is on stays on, the fan keeps
    its speed and a ramp in progress is not cancelled. Until the driver is
    enabled again, every later set, toggle, ramp or initialisation request
    also leaves the state and the peripherals untouched. *)
Theorem disabling_switches_nothing_off r hw calls :
  initialized (base r) = true ->
  forallb is_command calls = true ->
  output_run r (oc_set_enabled false hw :: calls)
  = (set_base r (set_is_enabled (base r) false), []).
Proof.
  intros Hi Hc.
  assert (Hstep : output_step r (oc_set_enabled false hw)
                  = (set_base r (set_is_enabled (base r) false), [])).
  { destruct r as [[rp fp rs fs en ini ec tot tog ch ra] tg du sm tk].
    cbn [base initialized] in Hi. subst ini. reflexivity. }
  rewrite output_run_cons, Hstep. cbn [fst snd].
  rewrite disabled_run; [reflexivity | | | exact Hc].
  - destruct r as [[rp fp rs fs en ini ec tot tog ch ra] tg du sm tk]. exact Hi.
  - destruct r as [[rp fp rs fs en ini ec tot tog ch ra] tg du sm tk]. reflexivity.
Qed.

Lemma disabling_switches_nothing_off_witness :
  relay_state
    (base (fst (output_run
                  (fst (output_run (ramp_ctx_after_init 5 18)
                          [oc_set_relay 1 hw_all_ok; oc_set_fan_speed 200 hw_all_ok]))
                  (oc_set_enabled false hw_all_ok
                     :: [oc_set_relay 0 hw_all_ok; oc_set_fan_speed 0 hw_all_ok]))))
  = RELAY_ON.
Proof.
  rewrite (disabling_switches_nothing_off
             (fst (output_run (ramp_ctx_after_init 5 18)
                     [oc_set_relay 1 hw_all_ok; oc_set_fan_speed 200 hw_all_ok]))
             hw_all_ok [oc_set_relay 0 hw_all_ok; oc_set_fan_speed 0 hw_all_ok]);
    reflexivity.
Defined.

(** *** Emergency stop *)

Lemma stopped_step r call :
  stopped r -> is_enable call = false ->
  stopped (fst (output_step r call)) /\ Forall op_is_off (snd (output_step r call)).
Proof.
  intros (Hi & He & Hr & Hf & Ha) Hc.
  destruct (is_command call) eqn:Hcmd.
  - rewrite (disabled_step r call Hi He Hcmd). cbn [fst snd].
    split; [repeat split; assumption | constructor].
  - destruct r as [[rp fp rs fs en ini ec tot tog ch ra] tg du sm tk].
    cbn [base initialized is_enabled relay_state fan_speed ramp_active] in *.
    subst ini en rs fs ra.
    destruct call as [rp' fp' hw | st hw | hw | speed hw
                     | target duration now created hw | now | [|] hw |];
      try discriminate Hcmd; try discriminate Hc.
    + cbn. split; [repeat split | constructor].
    + cbn. split; [repeat split|]. repeat constructor.
Qed.

Lemma stopped_run calls :
  forall r, stopped r -> existsb is_enable calls = false ->
    stopped (fst (output_run r calls)) /\ Forall op_is_off (snd (output_run r calls)).
Proof.
  induction calls as [|call calls IH]; intros r Hs Hc.
  - cbn. split; [exact Hs | constructor].
  - cbn [existsb] in Hc. apply orb_false_elim in Hc. destruct Hc as [Hc Hrest].
    rewrite output_run_cons. cbn [fst snd].
    destruct (stopped_step r call Hs Hc) as [H1 H2].
    destruct (IH _ H1 Hrest) as [H3 H4].
    split; [exact H3 | apply Forall_app; split; assumption].
Qed.

(** X19. An emergency stop holds. [app_output_emergency_stop] writes the
    relay pin low and the PWM duty to 0 whether or not the driver is
    enabled, and leaves the driver disabled with both outputs recorded
    as off and no ramp active. On an initialised driver, whatever calls
    and ramp task passes follow, as long as none of them enables the
    driver again, the outputs stay off: the state keeps relay off and
    speed 0, and no peripheral call writes anything but off. *)
Theorem emergency_stop_holds r calls :
  initialized (base r) = true ->
  existsb is_enable calls = false ->
  snd (output_step r oc_emergency_stop)
  = [hw_gpio_set_level (relay_pin (base r)) RELAY_OFF; hw_ledc_set_duty 0;
     hw_ledc_update_duty] /\
  stopped (fst (output_run r (oc_emergency_stop :: calls))) /\
  Forall op_is_off (snd (output_run r (oc_emergency_stop :: calls))).
Proof.
  intros Hi Hc. split; [reflexivity|].
  assert (Hs : stopped (fst (output_step r oc_emergency_stop))).
  { destruct r as [[rp fp rs fs en ini ec tot tog ch ra] tg du sm tk].
    cbn in *. repeat split. exact Hi. }
  rewrite output_run_cons. cbn [fst snd].
  destruct (stopped_run calls _ Hs Hc) as [H1 H2].
  split; [exact H1|]. apply Forall_app. split; [|exact H2].
  cbn. repeat constructor.
Qed.

Lemma emergency_stop_holds_witness :
  Forall op_is_off
    (snd (output_run
            (fst (output_run (ramp_ctx_after_init 5 18)
                    [oc_set_relay 1 hw_all_ok;
                     oc_ramp_fan_speed 255 1000 0 true hw_all_ok]))
            (oc_emergency_stop
               :: [oc_ramp_pass 500000; oc_set_relay 1 hw_all_ok;
                   oc_set_fan_speed 90 hw_all_ok; oc_toggle_relay hw_all_ok]))).
Proof.
  apply (emergency_stop_holds
           (fst (output_run (ramp_ctx_after_init 5 18)
                   [oc_set_relay 1 hw_all_ok;
                    oc_ramp_fan_speed 255 1000 0 true hw_all_ok]))
           [oc_ramp_pass 500000; oc_set_relay 1 hw_all_ok;
            oc_set_fan_speed 90 hw_all_ok; oc_toggle_relay hw_all_ok]);
    reflexivity.
Defined.

(** *** Toggling *)

(** X20. Toggling twice restores the relay. On an enabled driver with a
    working pin, [app_output_toggle_relay] writes the opposite of the
    recorded state to the relay pin and records it; a second toggle
    writes and records the original state again. Both count as relay
    operations. *)
Theorem toggle_twice_restores c :
  initialized c = true -> is_enabled c = true ->
  relay_state c = RELAY_OFF \/ relay_state c = RELAY_ON ->
  app_output_toggle_relay c hw_all_ok
  = (APP_OK,
     mkOutputCtx (relay_pin c) (fan_pin c) (1 - relay_state c) (fan_speed c)
       (is_enabled c) (initialized c) (error_count c) (u64 (total_operations c + 1))
       (u32 (relay_toggle_count c + 1)) (fan_changes c) (ramp_active c),
     [hw_gpio_set_level (relay_pin c) (1 - relay_state c)]) /\
  relay_state
    (snd (fst (app_output_toggle_relay
                 (snd (fst (app_output_toggle_relay c hw_all_ok))) hw_all_ok)))
  = relay_state c /\
  snd (app_output_toggle_relay
         (snd (fst (app_output_toggle_relay c hw_all_ok))) hw_all_ok)
  = [hw_gpio_set_level (relay_pin c) (relay_state c)].
Proof.
  intros Hi He Hs.
  destruct c as [rp fp rs fs en ini ec tot tog ch ra].
  cbn [initialized is_enabled relay_state] in Hi, He, Hs. subst ini en.
  unfold RELAY_OFF, RELAY_ON in Hs.
  destruct Hs as [-> | ->]; repeat split; reflexivity.
Qed.

Lemma toggle_twice_restores_witness :
  relay_state
    (snd (fst (app_output_toggle_relay
                 (snd (fst (app_output_toggle_relay ctx_ready hw_all_ok)))
                 hw_all_ok))) = RELAY_OFF.
Proof.
  apply (toggle_twice_restores ctx_ready); [reflexivity | reflexivity | left; reflexivity].
Defined.

(** *** Ramping up *)

Lemma ramp_up_duty cur target duration elapsed :
  0 <= cur <= target -> target <= 255 ->
  100 <= duration <= 60000 -> 0 <= elapsed < duration ->
  ramp_duty cur target duration elapsed
  = cur + (target - cur) * elapsed / duration /\
  cur <= cur + (target - cur) * elapsed / duration <= target.
Proof.
  intros Hc Ht Hd He. unfold ramp_duty. cbv zeta.
  assert (Hprod : 0 <= (target - cur) * elapsed <= 255 * 60000) by nia.
  assert (Hq0 : 0 <= (target - cur) * elapsed / duration)
    by (apply Z.div_pos; lia).
  assert (Hq1 : (target - cur) * elapsed / duration <= target - cur).
  { apply Z.div_le_upper_bound; [lia | nia]. }
  rewrite (u32_small (target - cur)) by (change (2 ^ 32) with 4294967296; lia).
  rewrite (u32_small ((target - cur) * elapsed))
    by (change (2 ^ 32) with 4294967296; lia).
  rewrite u32_small by (change (2 ^ 32) with 4294967296; lia).
  rewrite u8_small by lia. split; [reflexivity | lia].
Qed.

(** X21. Ramping up stays between start and target. A ramp started on an
    enabled driver towards a speed not below the current one, over 100 to
    60000 ms, is accepted without a peripheral call. A pass of the ramp
    task made [elapsed] ms later (on a millisecond clock that has not
    wrapped) writes the duty [start + (target - start) * elapsed /
    duration], which lies between start and target, while the recorded
    fan speed stays at the start value; once the duration has elapsed the
    pass writes and records the target and the ramp ends. *)
Theorem ramp_up_stays_between r target duration t0 t hw :
  initialized (base r) = true -> is_enabled (base r) = true ->
  0 <= fan_speed (base r) <= target -> target <= 255 ->
  100 <= duration <= 60000 ->
  0 <= t0 <= t -> Z.quot t 1000 < 2 ^ 32 ->
  fst (app_output_ramp_fan_speed r target duration t0 true hw)
  = (APP_OK,
     mkRampCtx (set_ramp_active (base r) true) target duration (Z.quot t0 1000) true) /\
  snd (app_output_ramp_fan_speed r target duration t0 true hw) = [] /\
  (if Z.quot t 1000 - Z.quot t0 1000 >=? duration then
     task_fan_ramp_pass
       (snd (fst (app_output_ramp_fan_speed r target duration t0 true hw))) t
     = (mkRampCtx (set_ramp_active (set_fan_speed_field (base r) target) false)
          target duration (Z.quot t0 1000) false,
        [hw_ledc_set_duty target; hw_ledc_update_duty], false)
   else
     task_fan_ramp_pass
       (snd (fst (app_output_ramp_fan_speed r target duration t0 true hw))) t
     = (snd (fst (app_output_ramp_fan_speed r target duration t0 true hw)),
        [hw_ledc_set_duty
           (fan_speed (base r)
            + (target - fan_speed (base r)) * (Z.quot t 1000 - Z.quot t0 1000)
              / duration);
         hw_ledc_update_duty], true) /\
     fan_speed (base r)
     <= fan_speed (base r)
        + (target - fan_speed (base r)) * (Z.quot t 1000 - Z.quot t0 1000) / duration
     <= target).
Proof.
  intros Hi He Hf Ht Hd Htime Hw.
  assert (H0 : 0 <= Z.quot t0 1000) by (apply Z.quot_pos; lia).
  assert (Hm : Z.quot t0 1000 <= Z.quot t 1000) by (apply Z.quot_le_mono; lia).
  assert (Hstart : u32 (Z.quot t0 1000) = Z.quot t0 1000) by (apply u32_small; lia).
  assert (Hel : u32 (Z.quot t 1000 - Z.quot t0 1000) = Z.quot t 1000 - Z.quot t0 1000)
    by (apply u32_small; lia).
  assert (Hstarted :
            app_output_ramp_fan_speed r target duration t0 true hw
            = (APP_OK,
               mkRampCtx (set_ramp_active (base r) true) target duration
                 (Z.quot t0 1000) true, [])).
  { unfold app_output_ramp_fan_speed. rewrite Hi, He. cbn [negb].
    assert (E1 : (target >? FAN_SPEED_MAX) = false)
      by (unfold FAN_SPEED_MAX; rewrite Z.gtb_ltb; apply Z.ltb_ge; lia).
    assert (E2 : (duration =? 0) = false) by (apply Z.eqb_neq; lia).
    assert (E3 : (duration <? 100) = false) by (apply Z.ltb_ge; lia).
    assert (E4 : (duration >? 60000) = false)
      by (rewrite Z.gtb_ltb; apply Z.ltb_ge; lia).
    rewrite E1, E2, E3, E4, Hstart. cbn [orb negb].
    destruct r as [[rp fp rs fs en ini ec tot tog ch ra] tg du sm tk].
    destruct ra; reflexivity. }
  rewrite Hstarted. cbn [fst snd]. split; [reflexivity|]. split; [reflexivity|].
  unfold task_fan_ramp_pass.
  cbn [base ramp_start_ms ramp_duration_ms ramp_target_speed].
  assert (Ha : ramp_active (set_ramp_active (base r) true) = true)
    by (destruct (base r); reflexivity).
  assert (Hfs : fan_speed (set_ramp_active (base r) true) = fan_speed (base r))
    by (destruct (base r); reflexivity).
  rewrite Ha, Hel. cbn [negb].
  destruct (Z.quot t 1000 - Z.quot t0 1000 >=? duration) eqn:E.
  - destruct r as [[rp fp rs fs en ini ec tot tog ch ra] tg du sm tk]. reflexivity.
  - rewrite Z.geb_leb in E. apply Z.leb_gt in E. rewrite Hfs.
    destruct (ramp_up_duty (fan_speed (base r)) target duration
                (Z.quot t 1000 - Z.quot t0 1000)) as [Hduty Hrange]; try lia.
    rewrite Hduty. split; [reflexivity | exact Hrange].
Qed.

Lemma ramp_up_stays_between_witness :
  snd (fst (task_fan_ramp_pass
              (snd (fst (app_output_ramp_fan_speed (ramp_ctx_after_init 5 18)
                           200 1000 0 true hw_all_ok)))
              500000))
  = [hw_ledc_set_duty 100; hw_ledc_update_duty].
Proof.
  destruct (ramp_up_stays_between (ramp_ctx_after_init 5 18) 200 1000 0 500000
              hw_all_ok) as (_ & _ & H);
    [reflexivity | reflexivity | cbn; lia | lia | lia | lia | cbn; lia |].
  change (Z.quot 500000 1000 - Z.quot 0 1000 >=? 1000) with false in H.
  destruct H as [H _]. rewrite H. reflexivity.
Defined.

End OutputApiFacts.

(* ====================================================================== *)
(** ** The task system: state reporting, sampler accounting, control path  *)
(* ====================================================================== *)

Module SystemApiFacts.
Import SystemTask SystemApi.

Lemma system_state_eqb_eq a b : system_state_eqb a b = true <-> a = b.
Proof. split; [destruct a, b; (reflexivity || discriminate) | intros ->; destruct b; reflexivity]. Qed.

(** *** The monitor loop of [app_main] *)

Lemma main_pass_effect m t :
  reported_state (main_monitor_pass m t)
  = (if system_state_eqb (reported_state m) SYSTEM_STATE_MQTT_CONNECTED
        && negb (system_state_eqb (ml_last_state m) SYSTEM_STATE_MQTT_CONNECTED)
     then SYSTEM_STATE_OPERATIONAL else reported_state m) /\
  ml_last_state (main_monitor_pass m t) = reported_state m.
Proof.
  unfold main_monitor_pass, reported_state. cbn [system_task_get_status].
  destruct m as [[st ev] last]. cbn [ml_system sy_status ml_last_state].
  destruct (system_state_eqb (state st) last) eqn:E; cbn [negb].
  - apply system_state_eqb_eq in E. subst last. cbn [ml_system sy_status ml_last_state].
    destruct (system_state_eqb (state st) SYSTEM_STATE_MQTT_CONNECTED); split; reflexivity.
  - destruct (system_state_eqb (state st) SYSTEM_STATE_MQTT_CONNECTED) eqn:E2;
      cbn [ml_system sy_status ml_last_state andb].
    + apply system_state_eqb_eq in E2. rewrite E2 in E.
      assert (E3 : system_state_eqb last SYSTEM_STATE_MQTT_CONNECTED = false)
        by (destruct last; (reflexivity || discriminate E)).
      rewrite E3. split; reflexivity.
    + split; reflexivity.
Qed.

Lemma settled_passes ts :
  forall m,
    (reported_state m = SYSTEM_STATE_MQTT_CONNECTED ->
     ml_last_state m = SYSTEM_STATE_MQTT_CONNECTED) ->
    reported_state (system_run m (main_passes ts)) = reported_state m.
Proof.
  induction ts as [|t ts IH]; intros m Hm; [reflexivity|].
  unfold system_run, main_passes in *. cbn [map fold_left system_step].
  destruct (main_pass_effect m t) as [Hs Hl].
  assert (Hsame : reported_state (main_monitor_pass m t) = reported_state m).
  { rewrite Hs.
    destruct (system_state_eqb (reported_state m) SYSTEM_STATE_MQTT_CONNECTED) eqn:E;
      [|reflexivity].
    apply system_state_eqb_eq in E. rewrite (Hm E). reflexivity. }
  rewrite IH; [exact Hsame|].
  intros H. rewrite Hl. rewrite Hsame in H. exact H.
Qed.

(** X22. When the monitor loop promotes the system. After one or more
    passes of the loop in [app_main] with no signal in between, the
    reported state is OPERATIONAL if it was MQTT_CONNECTED and the loop
    had not seen MQTT_CONNECTED at its previous pass; in every other case
    the passes leave the reported state as it was. *)
Theorem main_loop_promotion m t ts :
  reported_state (system_run m (main_passes (t :: ts)))
  = if system_state_eqb (reported_state m) SYSTEM_STATE_MQTT_CONNECTED
       && negb (system_state_eqb (ml_last_state m) SYSTEM_STATE_MQTT_CONNECTED)
    then SYSTEM_STATE_OPERATIONAL else reported_state m.
Proof.
  unfold main_passes. cbn [map]. unfold system_run. cbn [fold_left system_step].
  destruct (main_pass_effect m t) as [Hs Hl].
  change (fold_left system_step (map ev_main_pass ts) (main_monitor_pass m t))
    with (system_run (main_monitor_pass m t) (main_passes ts)).
  rewrite settled_passes; [exact Hs|].
  intros H. rewrite Hl. rewrite Hs in H.
  destruct (system_state_eqb (reported_state m) SYSTEM_STATE_MQTT_CONNECTED
            && negb (system_state_eqb (ml_last_state m) SYSTEM_STATE_MQTT_CONNECTED));
    [discriminate H | exact H].
Qed.

Lemma system_run_app m es1 es2 :
  system_run m (es1 ++ es2) = system_run (system_run m es1) es2.
Proof. unfold system_run. apply fold_left_app. Qed.

(** X23. A quick reconnect leaves the system short of OPERATIONAL.
    Whatever happened before: if the broker connects, the monitor loop
    makes a pass, and the broker connects again before the next pass (30 s
    later), then the reported state is MQTT_CONNECTED and any number of
    further passes leave it there; and after a link-connected signal the
    reported state is WIFI_CONNECTED and passes of the loop alone never
    raise it, also when the system was OPERATIONAL before. *)
Theorem reconnect_leaves_state_behind m t1 t2 t3 ts :
  reported_state
    (system_run m
       ([ev_mqtt_connected t1; ev_main_pass t2; ev_mqtt_connected t3]
          ++ main_passes ts))
  = SYSTEM_STATE_MQTT_CONNECTED /\
  reported_state (system_run m (ev_wifi_connected t1 :: main_passes ts))
  = SYSTEM_STATE_WIFI_CONNECTED.
Proof.
  split.
  - rewrite system_run_app. apply eq_trans with
      (reported_state
         (system_run m [ev_mqtt_connected t1; ev_main_pass t2; ev_mqtt_connected t3]));
      [|reflexivity].
    apply settled_passes. intros _.
    unfold system_run. cbn [fold_left system_step ml_last_state].
    destruct (main_pass_effect
                (mkMainLoop (system_task_signal_mqtt_connected (ml_system m) t1)
                   (ml_last_state m)) t2) as [_ Hl].
    rewrite Hl. reflexivity.
  - change (ev_wifi_connected t1 :: main_passes ts)
      with ([ev_wifi_connected t1] ++ main_passes ts).
    rewrite system_run_app, settled_passes; [reflexivity|].
    intros H. discriminate H.
Qed.

(** *** The sampler's bookkeeping *)

(** What one pass of the sampler does to the counters and the queue. *)
Lemma sampler_pass_cases s now ln :
  (exists r dht',
     fst (task_sensor_read_body s now ln)
     = mkSampler (system_status_increment_sensor_reads (sm_status s))
         (snd (xQueueSend (sm_sensor_queue s)
                 (mkSensorMessage r (sm_read_sequence s)) 0))
         (u32 (sm_read_sequence s + 1)) dht')
  \/
  (exists dht',
     fst (task_sensor_read_body s now ln)
     = mkSampler (system_status_increment_sensor_errors (sm_status s))
         (sm_sensor_queue s) (sm_read_sequence s) dht').
Proof.
  unfold task_sensor_read_body.
  destruct (Dht.sensor_dht_read (sm_dht s) (Some Dht.sensor_data_zero) now ln)
    as [[[ret ro] dht'] ops].
  destruct (app_err_eqb ret APP_OK &&
            Dht.is_valid match ro with Some r => r | None => Dht.sensor_data_zero end).
  - left. exists (match ro with Some r => r | None => Dht.sensor_data_zero end), dht'.
    destruct (xQueueSend (sm_sensor_queue s) _ 0) as [[| |k] q']; reflexivity.
  - right. exists dht'. reflexivity.
Qed.

Lemma count_samples_sample now ln acts :
  Z.of_nat (count_samples (act_sample now ln :: acts))
  = Z.of_nat (count_samples acts) + 1.
Proof.
  unfold count_samples. cbn [filter]. cbn [List.length].
  rewrite Nat2Z.inj_succ. lia.
Qed.

Lemma sampler_run_counts acts :
  forall s,
    0 <= sensor_read_count (sm_status s) < 2 ^ 32 ->
    sm_read_sequence s = sensor_read_count (sm_status s) ->
    sm_read_sequence (sampler_run s acts)
    = sensor_read_count (sm_status (sampler_run s acts)) /\
    u32 (sensor_read_count (sm_status (sampler_run s acts))
         + sensor_error_count (sm_status (sampler_run s acts)))
    = u32 (sensor_read_count (sm_status s) + sensor_error_count (sm_status s)
           + Z.of_nat (count_samples acts)) /\
    error_count (sm_status (sampler_run s acts)) = error_count (sm_status s) /\
    last_error (sm_status (sampler_run s acts)) = last_error (sm_status s) /\
    state (sm_status (sampler_run s acts)) = state (sm_status s).
Proof.
  induction acts as [|[now ln|] acts IH]; intros s Hr Hseq.
  - cbn. rewrite Z.add_0_r. repeat split; assumption || reflexivity.
  - rewrite count_samples_sample. cbn [sampler_run].
    destruct (sampler_pass_cases s now ln) as [(r & dht' & ->) | (dht' & ->)].
    + destruct (IH (mkSampler (system_status_increment_sensor_reads (sm_status s))
                      (snd (xQueueSend (sm_sensor_queue s)
                              (mkSensorMessage r (sm_read_sequence s)) 0))
                      (u32 (sm_read_sequence s + 1)) dht'))
        as (I1 & I2 & I3 & I4 & I5).
      * cbn. apply u32_range.
      * cbn. rewrite Hseq. reflexivity.
      * rewrite I1, I2, I3, I4, I5.
        cbn [sm_status system_status_increment_sensor_reads sensor_read_count
             sensor_error_count error_count last_error state].
        repeat split; try reflexivity.
        replace (u32 (sensor_read_count (sm_status s) + 1)
                 + sensor_error_count (sm_status s) + Z.of_nat (count_samples acts))
          with (u32 (sensor_read_count (sm_status s) + 1)
                + (sensor_error_count (sm_status s) + Z.of_nat (count_samples acts)))
          by lia.
        rewrite u32_add_l. f_equal. lia.
    + destruct (IH (mkSampler (system_status_increment_sensor_errors (sm_status s))
                      (sm_sensor_queue s) (sm_read_sequence s) dht'))
        as (I1 & I2 & I3 & I4 & I5).
      * cbn. exact Hr.
      * cbn. exact Hseq.
      * rewrite I1, I2, I3, I4, I5.
        cbn [sm_status system_status_increment_sensor_errors sensor_read_count
             sensor_error_count error_count last_error state].
        repeat split; try reflexivity.
        replace (sensor_read_count (sm_status s)
                 + u32 (sensor_error_count (sm_status s) + 1)
                 + Z.of_nat (count_samples acts))
          with (u32 (sensor_error_count (sm_status s) + 1)
                + (sensor_read_count (sm_status s) + Z.of_nat (count_samples acts)))
          by lia.
        rewrite u32_add_l. f_equal. lia.
  - cbn [sampler_run]. unfold count_samples. cbn [filter].
    fold (count_samples acts).
    apply (IH (with_queue s (snd (xQueueReceive (sm_sensor_queue s))))); assumption.
Qed.

(** X24. The sampler's bookkeeping. From start-up and through any
    interleaving of sampler passes and removals from the sensor queue:
    the next sequence number equals [sensor_read_count]; every pass is
    counted exactly once, as a read or as a sensor error (modulo 2^32);
    and the sampler never touches [error_count], [last_error] or the
    system state, so failed reads show up in [sensor_error_count]
    only. *)
Theorem sampler_bookkeeping acts :
  sm_read_sequence (sampler_run sampler_init acts)
  = sensor_read_count (sm_status (sampler_run sampler_init acts)) /\
  u32 (sensor_read_count (sm_status (sampler_run sampler_init acts))
       + sensor_error_count (sm_status (sampler_run sampler_init acts)))
  = u32 (Z.of_nat (count_samples acts)) /\
  error_count (sm_status (sampler_run sampler_init acts)) = 0 /\
  last_error (sm_status (sampler_run sampler_init acts)) = 0 /\
  state (sm_status (sampler_run sampler_init acts)) = SYSTEM_STATE_INIT.
Proof.
  destruct (sampler_run_counts acts sampler_init) as (H1 & H2 & H3 & H4 & H5);
    [cbn; lia | reflexivity |].
  repeat split; assumption.
Qed.

(** *** The sensor queue without a reader *)

Lemma holds_first_pass s k now ln :
  queue_holds_first s k -> Z.of_nat k + 1 < 2 ^ 32 ->
  queue_holds_first (fst (task_sensor_read_body s now ln)) k \/
  queue_holds_first (fst (task_sensor_read_body s now ln)) (S k).
Proof.
  intros (Hseq & Hcnt & Hcap & Hitems) Hk.
  destruct (sampler_pass_cases s now ln) as [(r & dht' & ->) | (dht' & ->)].
  - right. unfold queue_holds_first.
    cbn [sm_read_sequence sm_status sm_sensor_queue
         system_status_increment_sensor_reads sensor_read_count].
    rewrite Hseq, Hcnt.
    rewrite u32_small by lia.
    split; [lia|]. split; [lia|].
    assert (Hlen : List.length (q_items (sm_sensor_queue s)) = Nat.min k 5).
    { rewrite <- (length_map sequence), Hitems, length_map, length_seq. reflexivity. }
    destruct (Nat.ltb k 5) eqn:E.
    + apply Nat.ltb_lt in E.
      rewrite QueueFacts.send_room
        by (unfold is_full; rewrite Hcap, Hlen; apply Nat.leb_gt; lia).
      cbn [snd q_capacity q_items]. split; [exact Hcap|].
      rewrite map_app, Hitems. cbn [map sequence].
      replace (Nat.min (S k) 5) with (S k) by lia.
      replace (Nat.min k 5) with k by lia.
      rewrite seq_S, map_app. reflexivity.
    + apply Nat.ltb_ge in E.
      rewrite QueueFacts.send_full
        by (unfold is_full; rewrite Hcap, Hlen; apply Nat.leb_le; lia).
      cbn [snd]. split; [exact Hcap|].
      rewrite Hitems. replace (Nat.min (S k) 5) with (Nat.min k 5) by lia.
      reflexivity.
  - left. unfold queue_holds_first.
    cbn [sm_read_sequence sm_status sm_sensor_queue
         system_status_increment_sensor_errors sensor_read_count].
    repeat split; assumption.
Qed.

Lemma holds_first_run ps :
  forall s k,
    queue_holds_first s k ->
    Z.of_nat k + Z.of_nat (List.length ps) < 2 ^ 32 ->
    exists k', queue_holds_first (sampler_run s (sample_passes ps)) k'.
Proof.
  induction ps as [|[now ln] ps IH]; intros s k Hs Hk.
  - exists k. exact Hs.
  - cbn [sample_passes map fst snd sampler_run]. cbn [List.length] in Hk.
    destruct (holds_first_pass s k now ln Hs) as [H | H]; [lia | |].
    + apply (IH _ k H). lia.
    + apply (IH _ (S k) H). lia.
Qed.

(** X25. Without a reader the sensor queue keeps the first five readings.
    Nothing in the firmware takes messages off the sensor queue. After
    any number of sampler passes from start-up (fewer than 2^32), the
    queue holds the messages with sequence numbers 0, 1, ... up to the
    number of successful reads, and never more than the first five: from
    the sixth successful read on, every reading is dropped. *)
Theorem unread_queue_keeps_first_five ps :
  Z.of_nat (List.length ps) < 2 ^ 32 ->
  map sequence (q_items (sm_sensor_queue (sampler_run sampler_init (sample_passes ps))))
  = map Z.of_nat
      (seq 0 (Nat.min
                (Z.to_nat (sensor_read_count
                             (sm_status (sampler_run sampler_init (sample_passes ps)))))
                5)).
Proof.
  intros Hlen.
  destruct (holds_first_run ps sampler_init 0) as (k & _ & Hcnt & _ & Hitems).
  - repeat split.
  - lia.
  - rewrite Hcnt, Nat2Z.id. exact Hitems.
Qed.

Lemma unread_queue_keeps_first_five_witness :
  map sequence
    (q_items
       (sm_sensor_queue
          (sampler_run sampler_init
             (sample_passes
                (map (fun k => (2000000 * k,
                                Dht.line_of_frame (2000000 * k) [55; 0; 24; 0; 79]))
                   [1; 2; 3; 4; 5; 6; 7])))))
  = [0; 1; 2; 3; 4].
Proof.
  rewrite unread_queue_keeps_first_five by (cbn; lia).
  vm_compute. reflexivity.
Defined.

(** *** The control queue *)

(** X26. Commands on the control queue are applied unchecked. A pass of
    [task_output_control] hands the value of a queued "fan" or "relay"
    command to the driver as it is, without touching the system status.
    On an enabled driver with working peripherals, a fan value of any
    size is applied clamped to 0..255 (300 drives the PWM at 255), and a
    relay value other than 0 and 1 is refused by the driver itself, which
    counts an error in its own counter and leaves the pin alone. *)
Theorem control_queue_is_unchecked out v rest cap :
  Output.initialized out = true -> Output.is_enabled out = true ->
  (snd (task_output_control_body (mkQueue (mkControlMessage "fan" v :: rest) cap)
          out Output.hw_all_ok)
   = [Output.hw_ledc_set_duty (clamp_speed v); Output.hw_ledc_update_duty] /\
   Output.fan_speed
     (snd (fst (task_output_control_body
                  (mkQueue (mkControlMessage "fan" v :: rest) cap)
                  out Output.hw_all_ok)))
   = clamp_speed v /\
   0 <= clamp_speed v <= 255) /\
  (v <> 0 -> v <> 1 ->
   task_output_control_body (mkQueue (mkControlMessage "relay" v :: rest) cap)
     out Output.hw_all_ok
   = (mkQueue rest cap, Output.bump_error_count out, [])).
Proof.
  intros Hi He. split.
  - unfold task_output_control_body. cbn [xQueueReceive q_items q_capacity cm_type cm_value].
    change (String.eqb "fan" "relay") with false.
    change (String.eqb "fan" "fan") with true. cbv iota.
    unfold Output.app_output_set_fan_speed. rewrite Hi, He. cbn [negb].
    unfold Output.FAN_SPEED_MIN, Output.FAN_SPEED_MAX.
    fold (clamp_speed v).
    assert (Hc : 0 <= clamp_speed v <= 255).
    { unfold clamp_speed. destruct (v <? 0) eqn:E1; [lia|]. apply Z.ltb_ge in E1.
      destruct (v >? 255) eqn:E2; [lia|]. rewrite Z.gtb_ltb in E2.
      apply Z.ltb_ge in E2. lia. }
    cbn [Output.hw_all_ok Output.ledc_set_duty_ok Output.ledc_update_duty_ok negb
         fst snd Output.fan_speed].
    rewrite u8_small by lia. repeat split; lia.
  - intros H0 H1. unfold task_output_control_body.
    cbn [xQueueReceive q_items q_capacity cm_type cm_value].
    change (String.eqb "relay" "relay") with true. cbv iota.
    unfold Output.app_output_set_relay. rewrite Hi, He. cbn [negb].
    apply Z.eqb_neq in H0, H1. unfold Output.RELAY_OFF, Output.RELAY_ON.
    rewrite H0, H1. reflexivity.
Qed.

Lemma control_queue_is_unchecked_witness :
  snd (task_output_control_body (mkQueue [mkControlMessage "fan" 300] 10)
         Output.ctx_ready Output.hw_all_ok)
  = [Output.hw_ledc_set_duty 255; Output.hw_ledc_update_duty].
Proof.
  apply (control_queue_is_unchecked Output.ctx_ready 300 [] 10); reflexivity.
Defined.

(** *** The monitor task *)

(** X27. What the monitor task records. For calls of [sensor_dht_read]
    made in timer order on a freshly initialised driver, and a pass of
    the monitor task at a later time before the millisecond counter
    wraps: if one of the calls decoded a fresh sample less than 30000 ms
    before the pass, the status record is left as it is; if every decode
    is 30000 ms old or older (or there was none), the pass stores the
    code of [APP_ERR_SENSOR_READ] in [last_error] and adds one to
    [error_count], and changes nothing else. *)
Theorem monitor_records_stale_sensor p calls now heap s :
  0 <= p <= 39 ->
  Dht.chronological 0 calls = true ->
  Dht.last_time 0 calls <= now ->
  us_to_ms now < 2 ^ 32 ->
  ((exists t, In t (snd (Dht.replay (Dht.ctx_after_init p) calls)) /\
              us_to_ms now - us_to_ms t < 30000) ->
   fst (task_system_monitor_body s (fst (Dht.replay (Dht.ctx_after_init p) calls))
          now heap) = s) /\
  ((forall t, In t (snd (Dht.replay (Dht.ctx_after_init p) calls)) ->
              30000 <= us_to_ms now - us_to_ms t) ->
   fst (task_system_monitor_body s (fst (Dht.replay (Dht.ctx_after_init p) calls))
          now heap)
   = mkStatus (state s) (u32 (app_err_code APP_ERR_SENSOR_READ))
       (u32 (error_count s + 1)) (wifi_reconnect_count s) (mqtt_reconnect_count s)
       (sensor_read_count s) (sensor_error_count s) (uptime_ms s)).
Proof.
  intros Hp Hch Hlast Hw.
  assert (Hiff : Dht.sensor_dht_is_healthy
                   (fst (Dht.replay (Dht.ctx_after_init p) calls)) now = true <->
                 exists t, In t (snd (Dht.replay (Dht.ctx_after_init p) calls)) /\
                           us_to_ms now - us_to_ms t < 30000).
  { rewrite (DhtFacts.healthy_after_replay calls (Dht.ctx_after_init p) 0 now);
      try assumption; try lia;
      unfold Dht.ctx_after_init; rewrite (DhtFacts.init_ok p Hp); cbn [fst snd];
      cbn [Dht.initialized Dht.last_read_ms Dht.last_reading Dht.is_valid].
    - split; [intros [[H _] | H]; [discriminate H | exact H] | intros H; right; exact H].
    - reflexivity.
    - change (us_to_ms 0) with 0. lia. }
  unfold task_system_monitor_body. split.
  - intros H. apply Hiff in H. rewrite H. reflexivity.
  - intros Hold.
    destruct (Dht.sensor_dht_is_healthy
                (fst (Dht.replay (Dht.ctx_after_init p) calls)) now) eqn:E.
    + destruct (proj1 Hiff eq_refl) as (t & Hin & Hlt). specialize (Hold t Hin). lia.
    + reflexivity.
Qed.

Lemma monitor_records_stale_sensor_witness :
  error_count
    (fst (task_system_monitor_body g_system_status_init
            (fst (Dht.replay (Dht.ctx_after_init 4)
                    [Dht.mkReadCall 2000000
                       (Dht.line_of_frame 2000000 [55; 0; 24; 0; 79])
                       Dht.sensor_data_zero]))
            32000000 100000)) = 1.
Proof.
  destruct (monitor_records_stale_sensor 4
              [Dht.mkReadCall 2000000 (Dht.line_of_frame 2000000 [55; 0; 24; 0; 79])
                 Dht.sensor_data_zero]
              32000000 100000 g_system_status_init) as [_ H];
    [lia | reflexivity | cbn; lia | cbn; lia |].
  rewrite H; [reflexivity|].
  intros t Hin. vm_compute in Hin. destruct Hin as [<- | []]. vm_compute. discriminate.
Defined.

(** *** What is never written *)

Lemma untouched_step m e : untouched m -> untouched (system_step m e).
Proof.
  intros (Hst & Hw & Hm & He).
  destruct m as [[[st le ec wr mr rc sc up] ev] last].
  cbn [ml_system sy_status sy_events state wifi_reconnect_count
       mqtt_reconnect_count] in *.
  assert (Hbit : forall b, Z.land b EVENT_ERROR = 0 ->
                           Z.land (Z.lor ev b) EVENT_ERROR = 0).
  { intros b Hb. rewrite Z.land_lor_distr_l, He, Hb. reflexivity. }
  destruct e as [t | t | t | ok [[[c1 c2] c3] c4] t | code | |]; unfold untouched.
  - cbn. repeat split; try assumption. apply (Hbit EVENT_WIFI_CONNECTED). reflexivity.
  - cbn. repeat split; try assumption. apply (Hbit EVENT_MQTT_CONNECTED). reflexivity.
  - cbn [system_step]. unfold main_monitor_pass.
    cbn [system_task_get_status ml_system sy_status ml_last_state state].
    destruct (negb (system_state_eqb st last)); [|cbn; repeat split; assumption].
    destruct (system_state_eqb st SYSTEM_STATE_MQTT_CONNECTED);
      cbn; repeat split; try assumption.
    apply (Hbit EVENT_SYSTEM_READY). reflexivity.
  - cbn [system_step]. unfold system_task_start_all.
    destruct ok; cbn [negb]; [|cbn; repeat split; assumption].
    destruct c1, c2, c3, c4; cbn; repeat split; assumption.
  - cbn. repeat split; assumption.
  - cbn. repeat split; assumption.
  - cbn. repeat split; assumption.
Qed.

(** X28. What the task system never reports. From [system_task_init] on,
    whatever the tasks, the callbacks and the monitor loop do, the
    reported state is one of INIT, HARDWARE_READY, WIFI_CONNECTED,
    MQTT_CONNECTED and OPERATIONAL, never ERROR or one of the two
    CONNECTING states; [wifi_reconnect_count] and [mqtt_reconnect_count]
    stay 0; and the error bit of the event group is never set. *)
Theorem status_fields_never_written es :
  is_stored_state (reported_state (system_run (main_loop_start system_after_init) es))
  = true /\
  wifi_reconnect_count
    (sy_status (ml_system (system_run (main_loop_start system_after_init) es))) = 0 /\
  mqtt_reconnect_count
    (sy_status (ml_system (system_run (main_loop_start system_after_init) es))) = 0 /\
  Z.land (sy_events (ml_system (system_run (main_loop_start system_after_init) es)))
    EVENT_ERROR = 0.
Proof.
  assert (H : forall es m, untouched m -> untouched (system_run m es)).
  { clear es. induction es as [|e es IH]; intros m Hm; [exact Hm|].
    unfold system_run in *. cbn [fold_left]. apply IH, untouched_step, Hm. }
  apply (H es (main_loop_start system_after_init)).
  unfold untouched. cbn. repeat split.
Qed.

End SystemApiFacts.

(* ====================================================================== *)
(** ** Start-up of the hardware                                            *)
(* ====================================================================== *)

Module MainFacts.
Import Main.

Lemma output_init_ok rp fp hw :
  fst (fst (OutputApi.app_output_init OutputApi.g_output_ctx_zero rp fp hw)) = APP_OK <->
  rp <= 39 /\ fp <= 39 /\ init_all_ok hw = true.
Proof.
  unfold OutputApi.app_output_init, OutputApi.output_init_relay,
    OutputApi.output_init_ledc, init_all_ok.
  cbn [Output.initialized OutputApi.g_output_ctx_zero].
  destruct (rp >? 39) eqn:E1; cbn [orb].
  { rewrite Z.gtb_ltb in E1. apply Z.ltb_lt in E1. cbn.
    split; [discriminate | intros (H & _); lia]. }
  destruct (fp >? 39) eqn:E2; cbn [orb].
  { rewrite Z.gtb_ltb in E2. apply Z.ltb_lt in E2. cbn.
    split; [discriminate | intros (_ & H & _); lia]. }
  rewrite Z.gtb_ltb in E1, E2. apply Z.ltb_ge in E1, E2.
  destruct hw as [a b c d]. cbn [OutputApi.gpio_config_ok
    OutputApi.gpio_initial_level_ok OutputApi.ledc_timer_config_ok
    OutputApi.ledc_channel_config_ok].
  destruct a, b, c, d; cbn; split; try discriminate; try (intros (_ & _ & H); discriminate H);
    intros _; repeat split; assumption.
Qed.

(** X29. Start-up does not depend on the sensor answering. Called at
    power-up, [hardware_init] returns [APP_OK] exactly when the three pins
    are at most 39 and the peripheral calls that configure the relay, the
    PWM and the sensor pin succeed: the outcome of its test read is never
    looked at, so a missing sensor cannot fail the start-up. And when the
    test read is made during the first 1000 ms after boot, it does not
    touch the sensor line at all: the only calls on the sensor pin are the
    two of the initialisation. *)
Theorem hardware_init_ignores_sensor rp fp dp hw ok now ln :
  0 <= dp ->
  (fst (fst (fst (hardware_init hardware_zero rp fp dp hw ok now ln))) = APP_OK <->
   rp <= 39 /\ fp <= 39 /\ init_all_ok hw = true /\ dp <= 39 /\ ok = true) /\
  (fst (fst (fst (hardware_init hardware_zero rp fp dp hw ok now ln))) = APP_OK ->
   0 <= now -> us_to_ms now < 1000 ->
   snd (hardware_init hardware_zero rp fp dp hw ok now ln)
   = [Dht.gpio_config_od_pullup dp; Dht.gpio_set_level dp 1]).
Proof.
  intros Hdp.
  pose proof (output_init_ok rp fp hw) as Hout.
  unfold hardware_init. cbn [hw_output hw_dht hardware_zero].
  destruct (OutputApi.app_output_init OutputApi.g_output_ctx_zero rp fp hw)
    as [[ret out'] ops_o]. cbn [fst] in Hout.
  destruct (app_err_eqb ret APP_OK) eqn:Eret; cbn [negb].
  - apply app_err_eqb_eq in Eret. subst ret.
    destruct (proj1 Hout eq_refl) as (Hrp & Hfp & Hhw).
    destruct (dp >? 39) eqn:E.
    { assert (Hinit : Dht.sensor_dht_init Dht.g_dht_context_zero dp ok
                      = (APP_ERR_INVALID_PARAM, Dht.g_dht_context_zero, []))
        by (unfold Dht.sensor_dht_init; rewrite E; reflexivity).
      rewrite Hinit. cbn [negb app_err_eqb app_err_code Z.eqb fst snd].
      rewrite Z.gtb_ltb in E. apply Z.ltb_lt in E.
      split; [split; [discriminate | intros (_ & _ & _ & H & _); lia] | discriminate]. }
    pose proof E as E'. rewrite Z.gtb_ltb in E'. apply Z.ltb_ge in E'.
    destruct ok.
    + rewrite (DhtFacts.init_ok dp) by lia.
      cbn [negb app_err_eqb app_err_code Z.eqb fst snd].
      set (dht1 := Dht.mkDhtContext dp true 0
                     (Dht.mkSensorData f32_zero f32_zero 0 false APP_OK)).
      split.
      * destruct (Dht.sensor_dht_read dht1 (Some Dht.sensor_data_zero) now ln)
          as [[[r3 rd] dht2] ops_r]. cbn [fst].
        split; [intros _; repeat split; assumption | reflexivity].
      * intros _ Hnow Hms.
        assert (Hread : Dht.sensor_dht_read dht1 (Some Dht.sensor_data_zero) now ln
                        = (APP_OK, Some (Dht.last_reading dht1), dht1, [])).
        { unfold Dht.sensor_dht_read. subst dht1.
          cbn [Dht.initialized Dht.last_read_ms negb].
          pose proof (us_to_ms_nonneg now Hnow) as H0.
          rewrite (u32_small (us_to_ms now)) by lia.
          rewrite Z.sub_0_r, u32_small by lia.
          assert (E2 : (us_to_ms now <? 1000) = true) by (apply Z.ltb_lt; lia).
          rewrite E2. reflexivity. }
        rewrite Hread. cbn [snd]. reflexivity.
    + assert (Hinit : fst (fst (Dht.sensor_dht_init Dht.g_dht_context_zero dp false))
                      = APP_ERR_UNKNOWN)
        by (unfold Dht.sensor_dht_init; rewrite E; reflexivity).
      destruct (Dht.sensor_dht_init Dht.g_dht_context_zero dp false)
        as [[ret2 dht1] ops_d]. cbn [fst] in Hinit. subst ret2.
      cbn [negb app_err_eqb app_err_code Z.eqb fst snd].
      split; [split; [discriminate | intros (_ & _ & _ & _ & H); discriminate H]
             | discriminate].
  - cbn [fst snd]. split.
    + split.
      * intros ->. discriminate Eret.
      * intros (H1 & H2 & H3 & _). rewrite (proj2 Hout (conj H1 (conj H2 H3))) in Eret.
        discriminate Eret.
    + intros ->. discriminate Eret.
Qed.

Lemma hardware_init_ignores_sensor_witness :
  0 <= 4 /\
  fst (fst (fst (hardware_init hardware_zero 5 18 4
                   (OutputApi.mkInitResult true true true true) true
                   300000 Dht.line_silent))) = APP_OK.
Proof.
  split; [lia|].
  apply (hardware_init_ignores_sensor 5 18 4
           (OutputApi.mkInitResult true true true true) true 300000 Dht.line_silent);
    [lia|]. repeat split; lia.
Defined.

(** *** Link loss and the system state *)

Lemma wifi_callbacks_quiet tr :
  forall s t,
    Wifi.count_effect Wifi.call_on_connected tr = 0%nat ->
    fold_left (fun s e => wifi_callback s t e) tr s = s.
Proof.
  induction tr as [|e tr IH]; intros s t H; [reflexivity|].
  unfold Wifi.count_effect in *. cbn [filter fold_left] in *.
  destruct e; cbn [Wifi.wifi_effect_eqb wifi_callback] in *;
    try (apply IH; exact H). discriminate H.
Qed.

Lemma mqtt_callbacks_quiet tr :
  forall s t,
    ~ In Mqtt.call_on_connected tr ->
    fold_left (fun s e => mqtt_callback s t e) tr s = s.
Proof.
  induction tr as [|e tr IH]; intros s t H; [reflexivity|].
  cbn [fold_left].
  assert (He : mqtt_callback s t e = s).
  { destruct e; try reflexivity. exfalso. apply H. left. reflexivity. }
  rewrite He. apply IH. intros Hin. apply H. right. exact Hin.
Qed.

Lemma wifi_handler_quiet c t ev :
  Wifi.is_got_ip ev = false ->
  Wifi.count_effect Wifi.call_on_connected (snd (Wifi.wifi_event_handler c t ev))
  = 0%nat.
Proof.
  intros H. destruct ev; try discriminate H; WifiFacts.handler_unfold c;
    try reflexivity.
  destruct (rc <? m); destruct cb_disc; try destruct cb_fail; reflexivity.
Qed.

(** A short explicit trace does not contain the connected callback. *)
Ltac not_connected_callback :=
  cbn; let H := fresh "H" in
  intros H; repeat (destruct H as [H | H]; try discriminate H); exact H.

Lemma mqtt_handler_quiet c t ev :
  ev <> Mqtt.MQTT_EVENT_CONNECTED ->
  ~ In Mqtt.call_on_connected (snd (Mqtt.mqtt_event_handler c t ev)).
Proof.
  intros H. destruct ev; cbn [Mqtt.mqtt_event_handler snd]; try (intros []).
  - exfalso. apply H. reflexivity.
  - destruct (Mqtt.on_disconnected (Mqtt.config c)); not_connected_callback.
  - destruct (Mqtt.data_len p >? 0); [|intros []].
    destruct (Mqtt.malloc_ok p); [|intros []].
    unfold Mqtt.mqtt_parse_and_queue_command.
    destruct (Mqtt.command_queue c) as [q|];
      [|destruct (Mqtt.on_message (Mqtt.config c)); not_connected_callback].
    destruct (Mqtt.parsed p) as [[ti vi]|];
      [|destruct (Mqtt.on_message (Mqtt.config c)); not_connected_callback].
    destruct (Mqtt.cJSON_IsString ti && Mqtt.cJSON_IsNumber vi);
      [|destruct (Mqtt.on_message (Mqtt.config c)); not_connected_callback].
    destruct (xQueueSend q _ 0) as [[| |k] q'];
      destruct (Mqtt.on_message (Mqtt.config c)); not_connected_callback.
Qed.

Lemma network_step_quiet n te :
  is_connect_event (snd te) = false ->
  nw_system (network_step n te) = nw_system n.
Proof.
  intros H. destruct te as [t [ev | ev]]; cbn [network_step fst snd] in *.
  - pose proof (wifi_handler_quiet (nw_wifi n) t ev) as Hq.
    destruct (Wifi.wifi_event_handler (nw_wifi n) t ev) as [w tr].
    cbn [snd nw_system] in *. apply wifi_callbacks_quiet, Hq.
    destruct ev; try reflexivity. discriminate H.
  - pose proof (mqtt_handler_quiet (nw_mqtt n) t ev) as Hq.
    destruct (Mqtt.mqtt_event_handler (nw_mqtt n) t ev) as [m tr].
    cbn [snd nw_system] in *. apply mqtt_callbacks_quiet, Hq.
    intros ->. discriminate H.
Qed.

(** X30. Losing a connection is never reported. The managers tell the
    task system about a connection only through the connected callbacks
    of main.c. Through any sequence of link and broker events that
    contains no address assignment and no broker connect, the status
    record and the event group stay exactly as they were: a system that
    reported OPERATIONAL keeps reporting it while the link is lost, while
    the reconnects are tried and after the link manager has given up. *)
Theorem link_loss_is_never_reported n evs :
  forallb (fun te => negb (is_connect_event (snd te))) evs = true ->
  nw_system (network_run n evs) = nw_system n.
Proof.
  revert n. induction evs as [|te evs IH]; intros n H; [reflexivity|].
  cbn [forallb] in H. apply andb_prop in H. destruct H as [Hte H].
  apply negb_true_iff in Hte.
  unfold network_run in *. cbn [fold_left].
  rewrite (IH _ H). apply network_step_quiet, Hte.
Qed.

Lemma link_loss_is_never_reported_witness :
  SystemTask.state
    (SystemApi.sy_status
       (nw_system
          (network_run
             (network_after_init
                (SystemApi.system_task_signal_ready SystemApi.system_after_init 0))
             (map (fun t => (t, ne_wifi Wifi.WIFI_EVENT_STA_DISCONNECTED))
                [1; 2; 3; 4; 5; 6; 7]))))
  = SystemTask.SYSTEM_STATE_OPERATIONAL.
Proof.
  rewrite link_loss_is_never_reported; reflexivity.
Defined.

End MainFacts.
